(** * Codeloop-Compyle: the route logic of the learning-management backend

    A shallow embedding of the Express/Mongoose route handlers of
    [backend/src/routes/modules.js], [backend/src/routes/notices.js] and the
    analytics route, with the properties of their non-trivial logic:
    the prerequisite cycle check, role-scoped queries, soft deletion,
    notice targeting and read tracking, and the analytics helpers
    (median, streak, score distribution).

    Conventions of the embedding.
    - A MongoDB collection is the list of its documents; [find] is a filter,
      [findOne]/[findById] the first match, [countDocuments] a length.
    - An ObjectId is the string of its 24 hexadecimal digits in lower case,
      as it prints. An id of a request that reaches queries only stands for
      the ObjectId the query casts it to; where a handler also compares the
      text of the request itself, the cast is written out.
    - A [Date] is its time value, the milliseconds since the epoch; the
      clock reading and the time zone of the host are parameters.
    - A JavaScript number is an exact rational ([Qc]) where the code divides,
      an integer where it counts; NaN and the infinities are outside the model.
    - A handler is a function from the database and the request to the new
      database and the response; the middleware in front of it
      ([requireAuth], [requirePermission]) has already let the request pass
      and loaded the user. *)

From Stdlib Require Import QArith Qcanon Ascii String.
From stdpp Require Import base decidable option list sorting numbers strings pretty gmap.

(** ** Part I: the embedding *)

(** *** JavaScript values shared by the routes *)

Module Js.

(** [if (s)] on a string that may be absent: [undefined] and [''] are falsy. *)
Definition truthy (s : option string) : bool :=
  match s with
  | Some v => bool_decide (v ≠ "")
  | None => false
  end.

(** [arr.includes(x)] *)
Definition includes (arr : list string) (x : string) : bool :=
  bool_decide (x ∈ arr).

(** The default order of [Array.prototype.sort()] on strings. *)
Definition str_le (a b : string) : Prop := String.leb a b = true.

#[global] Instance str_le_dec : RelDecision str_le.
Proof. intros a b. unfold str_le. apply _. Defined.

(** [arr.sort()] on an array of strings. *)
Definition sortStrings (arr : list string) : list string :=
  merge_sort str_le arr.

(** [[...arr].sort((a, b) => a - b)] on an array of numbers. *)
Definition sortNumeric (arr : list Qc) : list Qc :=
  merge_sort Qcle arr.

(** [s.trim()]: white space is removed at both ends. *)
Definition isSpace (c : ascii) : bool :=
  bool_decide (c ∈ [" "%char; "009"%char; "010"%char; "011"%char;
                    "012"%char; "013"%char]).

Fixpoint trimStart (s : string) : string :=
  match s with
  | String c s' => if isSpace c then trimStart s' else s
  | EmptyString => EmptyString
  end.

Definition trim (s : string) : string :=
  String.rev (trimStart (String.rev (trimStart s))).

(** [s.toLowerCase()] on ASCII text. *)
Definition lowerChar (c : ascii) : ascii :=
  let n := nat_of_ascii c in
  if bool_decide (65 ≤ n ≤ 90)%nat then ascii_of_nat (n + 32) else c.

Fixpoint toLowerCase (s : string) : string :=
  match s with
  | String c s' => String (lowerChar c) (toLowerCase s')
  | EmptyString => EmptyString
  end.

(** express-validator's [isMongoId]: 24 hexadecimal digits. *)
Definition isHexDigit (c : ascii) : bool :=
  let n := nat_of_ascii c in
  bool_decide ((48 ≤ n ≤ 57) ∨ (65 ≤ n ≤ 70) ∨ (97 ≤ n ≤ 102))%nat.

Definition isMongoId (s : string) : bool :=
  bool_decide (String.length s = 24%nat) &&
  forallb isHexDigit (String.list_ascii_of_string s).

(** [x | default] of a destructuring assignment with a default value. *)
Definition orDefault {A} (x : option A) (d : A) : A := default d x.

End Js.

(** *** The documents of the Mongoose models the routes read and write *)

Module Db.

Definition ObjectId := string.

(** Mongoose casts a string of 24 hexadecimal digits to the ObjectId it
    spells, whatever the case of the letters; an ObjectId prints its digits
    in lower case, and that text is what stands for it here. *)
Definition castObjectId (s : string) : ObjectId := Js.toLowerCase s.

(** The requesting user, after [User.findById(req.user.id).populate('role')]. *)
Record User := {
  u_id : ObjectId;
  roleName : string;
  u_department : option ObjectId;
  u_groups : list ObjectId
}.

Record DepartmentDoc := {
  d_id : ObjectId;
  d_isActive : bool
}.

Record GroupDoc := {
  g_id : ObjectId;
  g_department : ObjectId;
  g_teacher : ObjectId;
  g_isActive : bool
}.

Record QuestionDoc := {
  q_id : ObjectId;
  q_department : option ObjectId;
  q_isActive : bool
}.

Record NoteDoc := {
  nt_id : ObjectId;
  nt_isActive : bool
}.

Record AssessmentDoc := {
  a_id : ObjectId;
  a_modules : list ObjectId;
  a_isActive : bool
}.

Record ModuleDoc := {
  m_id : ObjectId;
  m_title : string;
  m_description : option string;
  m_department : ObjectId;
  m_groups : list ObjectId;
  m_createdBy : ObjectId;
  m_difficulty : string;
  m_estimatedHours : option Z;
  m_tags : list string;
  m_prerequisites : list ObjectId;
  m_questions : list ObjectId;
  m_notes : list ObjectId;
  m_sortOrder : Z;
  m_isActive : bool;
  m_createdAt : Z
}.

Record ReadEntry := {
  re_user : ObjectId;
  re_readAt : Z
}.

Record NoticeDoc := {
  n_id : ObjectId;
  n_title : string;
  n_content : string;
  n_postedBy : ObjectId;
  n_targetType : string;
  n_targetRoles : list string;
  n_department : option ObjectId;
  n_groups : list ObjectId;
  n_priority : string;
  n_expiresAt : option Z;
  n_isActive : bool;
  n_readBy : list ReadEntry;
  n_createdAt : Z
}.

Record Database := {
  departments : list DepartmentDoc;
  groups : list GroupDoc;
  questions : list QuestionDoc;
  notes : list NoteDoc;
  assessments : list AssessmentDoc;
  modules : list ModuleDoc;
  notices : list NoticeDoc
}.

#[global] Instance ModuleDoc_eq_dec : EqDecision ModuleDoc.
Proof. solve_decision. Defined.

(** What a handler needs from outside: the id of the document that
    [new Model(...)] creates and the clock. *)
Record Env := {
  newObjectId : ObjectId;
  now : Z
}.

Definition withModules (db : Database) (ms : list ModuleDoc) : Database :=
  {| departments := departments db; groups := groups db;
     questions := questions db; notes := notes db;
     assessments := assessments db; modules := ms;
     notices := notices db |}.

Definition withNotices (db : Database) (ns : list NoticeDoc) : Database :=
  {| departments := departments db; groups := groups db;
     questions := questions db; notes := notes db;
     assessments := assessments db; modules := modules db;
     notices := ns |}.

(** [Model.findById(id)] / [Model.findOne(filter)]: the first match. *)
Definition findOne {A} (P : A → bool) (coll : list A) : option A :=
  List.find P coll.

(** [doc.save()] of a document read from the collection: the stored
    document with that [_id] is replaced. *)
Fixpoint replaceFirst {A} (P : A → bool) (f : A → A) (coll : list A)
    : list A :=
  match coll with
  | [] => []
  | x :: rest => if P x then f x :: rest else x :: replaceFirst P f rest
  end.

Definition saveModule (db : Database) (m : ModuleDoc) : Database :=
  withModules db
    (replaceFirst (λ x, bool_decide (m_id x = m_id m)) (λ _, m) (modules db)).

(** [new Module(...).save()]: the document is added to the collection. *)
Definition insertModule (db : Database) (m : ModuleDoc) : Database :=
  withModules db (modules db ++ [m]).

Definition insertNotice (db : Database) (n : NoticeDoc) : Database :=
  withNotices db (notices db ++ [n]).

(** [.limit(limit * 1).skip((page - 1) * limit)]: MongoDB skips first and
    reads [limit 0] as no limit. *)
Definition paginate {A} (page limit : nat) (docs : list A) : list A :=
  let skipped := drop ((page - 1) * limit) docs in
  if bool_decide (limit = 0%nat) then skipped else take limit skipped.

Record Pagination := {
  current : nat;
  pages : option nat;
  total : nat;
  limit : nat
}.

(** [Math.ceil(total / limit)]; the division by 0 is no number. *)
Definition pageCount (total limit : nat) : option nat :=
  if bool_decide (limit = 0%nat) then None
  else Some ((total + limit - 1) / limit)%nat.

End Db.

(** *** [routes/modules.js] *)

Module ModulesRoute.
Import Db.

Record ModuleWithCounts := {
  mwc_module : ModuleDoc;
  questionCount : nat;
  noteCount : nat;
  assessmentCount : nat
}.

(** The JSON bodies the module handlers send. *)
Inductive Payload :=
| Error (error : string)
| ModuleList (data : list ModuleWithCounts) (pagination : Pagination)
| ModuleDetails (data : ModuleWithCounts)
| ModuleSaved (message : string) (data : option ModuleDoc)
| Message (message : string)
| QuestionList (message : string) (data : list QuestionDoc).

Record Response := {
  status : nat;
  payload : Payload
}.

Definition reject (code : nat) (error : string) : Response :=
  {| status := code; payload := Error error |}.

(** The three [countDocuments] calls made for a module that is returned. *)
Definition withCounts (db : Database) (m : ModuleDoc) : ModuleWithCounts :=
  {| mwc_module := m;
     questionCount :=
       length (filter (λ q, q_id q ∈ m_questions m ∧ q_isActive q = true)
                      (questions db));
     noteCount :=
       length (filter (λ n, nt_id n ∈ m_notes m ∧ nt_isActive n = true)
                      (notes db));
     assessmentCount :=
       length (filter (λ a, m_id m ∈ a_modules a ∧ a_isActive a = true)
                      (assessments db)) |}.

(** **** The query object of [GET /api/modules] *)

(** A member of [query.$or]. *)
Inductive Clause :=
| TitleRegex (pattern : string)
| DescriptionRegex (pattern : string)
| TagsRegex (pattern : string)
| CreatedByIs (id : ObjectId)
| GroupsAnyOf (ids : list ObjectId).

(** [query.groups]: [{ $in: ids }] or a single group id. *)
Inductive GroupsCond :=
| GroupsIn (ids : list ObjectId)
| GroupsHas (g : ObjectId).

(** [query.department]: a department id from the query string, or
    [user.department], which may be missing. *)
Record Filter := {
  f_isActive : option bool;
  f_or : option (list Clause);
  f_department : option (option ObjectId);
  f_difficulty : option string;
  f_createdBy : option ObjectId;
  f_tags : option (list string);
  f_hasQuestions : bool;
  f_groups : option GroupsCond
}.

Definition emptyFilter : Filter :=
  {| f_isActive := None; f_or := None; f_department := None;
     f_difficulty := None; f_createdBy := None; f_tags := None;
     f_hasQuestions := false; f_groups := None |}.

Definition setIsActive (v : bool) (q : Filter) : Filter :=
  {| f_isActive := Some v; f_or := f_or q; f_department := f_department q;
     f_difficulty := f_difficulty q; f_createdBy := f_createdBy q;
     f_tags := f_tags q; f_hasQuestions := f_hasQuestions q;
     f_groups := f_groups q |}.

Definition setOr (v : list Clause) (q : Filter) : Filter :=
  {| f_isActive := f_isActive q; f_or := Some v; f_department := f_department q;
     f_difficulty := f_difficulty q; f_createdBy := f_createdBy q;
     f_tags := f_tags q; f_hasQuestions := f_hasQuestions q;
     f_groups := f_groups q |}.

Definition setDepartment (v : option ObjectId) (q : Filter) : Filter :=
  {| f_isActive := f_isActive q; f_or := f_or q; f_department := Some v;
     f_difficulty := f_difficulty q; f_createdBy := f_createdBy q;
     f_tags := f_tags q; f_hasQuestions := f_hasQuestions q;
     f_groups := f_groups q |}.

Definition setDifficulty (v : string) (q : Filter) : Filter :=
  {| f_isActive := f_isActive q; f_or := f_or q; f_department := f_department q;
     f_difficulty := Some v; f_createdBy := f_createdBy q;
     f_tags := f_tags q; f_hasQuestions := f_hasQuestions q;
     f_groups := f_groups q |}.

Definition setCreatedBy (v : ObjectId) (q : Filter) : Filter :=
  {| f_isActive := f_isActive q; f_or := f_or q; f_department := f_department q;
     f_difficulty := f_difficulty q; f_createdBy := Some v;
     f_tags := f_tags q; f_hasQuestions := f_hasQuestions q;
     f_groups := f_groups q |}.

Definition setTags (v : list string) (q : Filter) : Filter :=
  {| f_isActive := f_isActive q; f_or := f_or q; f_department := f_department q;
     f_difficulty := f_difficulty q; f_createdBy := f_createdBy q;
     f_tags := Some v; f_hasQuestions := f_hasQuestions q;
     f_groups := f_groups q |}.

Definition setHasQuestions (q : Filter) : Filter :=
  {| f_isActive := f_isActive q; f_or := f_or q; f_department := f_department q;
     f_difficulty := f_difficulty q; f_createdBy := f_createdBy q;
     f_tags := f_tags q; f_hasQuestions := true;
     f_groups := f_groups q |}.

Definition setGroups (v : GroupsCond) (q : Filter) : Filter :=
  {| f_isActive := f_isActive q; f_or := f_or q; f_department := f_department q;
     f_difficulty := f_difficulty q; f_createdBy := f_createdBy q;
     f_tags := f_tags q; f_hasQuestions := f_hasQuestions q;
     f_groups := Some v |}.

(** [req.query] of [GET /api/modules]. A repeated [tags] parameter arrives
    as an array, a single one as a string. *)
Inductive TagsParam :=
| OneTag (t : string)
| ManyTags (ts : list string).

Record ListQuery := {
  lq_page : option nat;
  lq_limit : option nat;
  lq_search : option string;
  lq_department : option string;
  lq_group : option string;
  lq_difficulty : option string;
  lq_createdBy : option string;
  lq_tags : option TagsParam;
  lq_isActive : option string;
  lq_hasQuestions : option string
}.

(** [cond ? step : identity] for one [if] of the query builder. *)
Definition when (c : bool) (step : Filter → Filter) (q : Filter) : Filter :=
  if c then step q else q.

Definition whenSome {A} (x : option A) (step : A → Filter → Filter)
    (q : Filter) : Filter :=
  match x with
  | Some v => step v q
  | None => q
  end.

Definition tagsTruthy (t : option TagsParam) : option (list string) :=
  match t with
  | Some (OneTag v) => if bool_decide (v ≠ "") then Some [v] else None
  | Some (ManyTags vs) => Some vs
  | None => None
  end.

Definition truthyValue (s : option string) : option string :=
  if Js.truthy s then s else None.

(** The role branch of the query builder. *)
Definition roleScope (user : User) (q : Filter) : Filter :=
  if bool_decide (roleName user = "Admin") then q
  else if bool_decide (roleName user = "HOD") then
    setDepartment (u_department user) q
  else if bool_decide (roleName user = "Teacher") then
    setOr [CreatedByIs (u_id user); GroupsAnyOf (u_groups user)] q
  else setGroups (GroupsIn (u_groups user)) q.

Definition staffRoles : list string := ["Admin"; "HOD"; "Teacher"].

(** The query of [GET /api/modules], built in the order of the source. *)
Definition listFilter (user : User) (rq : ListQuery) : Filter :=
  let q := emptyFilter in
  let q := setIsActive
             (match lq_isActive rq with
              | Some v => bool_decide (v = "true")
              | None => true
              end) q in
  let q := whenSome (truthyValue (lq_search rq))
             (λ s, setOr [TitleRegex s; DescriptionRegex s; TagsRegex s]) q in
  let q := whenSome (truthyValue (lq_department rq))
             (λ d, setDepartment (Some d)) q in
  let q := whenSome (truthyValue (lq_difficulty rq)) setDifficulty q in
  let q := whenSome (truthyValue (lq_createdBy rq)) setCreatedBy q in
  let q := whenSome (tagsTruthy (lq_tags rq)) setTags q in
  let q := when (bool_decide (lq_hasQuestions rq = Some "true"))
             setHasQuestions q in
  let q := roleScope user q in
  let q := whenSome (truthyValue (lq_group rq))
             (λ g, when (Js.includes staffRoles (roleName user))
                     (setGroups (GroupsHas g))) q in
  q.

Section Matching.
(** [regexTest pattern text]: the match of MongoDB's [$regex] with
    [$options: 'i']. *)
Variable regexTest : string → string → bool.

Definition matchClause (m : ModuleDoc) (c : Clause) : bool :=
  match c with
  | TitleRegex s => regexTest s (m_title m)
  | DescriptionRegex s =>
      match m_description m with
      | Some d => regexTest s d
      | None => false
      end
  | TagsRegex s => existsb (regexTest s) (m_tags m)
  | CreatedByIs id => bool_decide (m_createdBy m = id)
  | GroupsAnyOf ids => existsb (Js.includes ids) (m_groups m)
  end.

Definition matchGroups (m : ModuleDoc) (c : GroupsCond) : bool :=
  match c with
  | GroupsIn ids => existsb (Js.includes ids) (m_groups m)
  | GroupsHas g => Js.includes (m_groups m) g
  end.

Definition holds {A} (c : option A) (test : A → bool) : bool :=
  match c with
  | Some v => test v
  | None => true
  end.

(** Does the document satisfy the query object? *)
Definition matches (q : Filter) (m : ModuleDoc) : bool :=
  holds (f_isActive q) (λ v, bool_decide (m_isActive m = v)) &&
  holds (f_or q) (existsb (matchClause m)) &&
  holds (f_department q) (λ d, bool_decide (Some (m_department m) = d)) &&
  holds (f_difficulty q) (λ v, bool_decide (m_difficulty m = v)) &&
  holds (f_createdBy q) (λ v, bool_decide (m_createdBy m = v)) &&
  holds (f_tags q) (λ ts, existsb (Js.includes ts) (m_tags m)) &&
  (negb (f_hasQuestions q) || bool_decide (m_questions m ≠ [])) &&
  holds (f_groups q) (matchGroups m).

(** [.sort({ sortOrder: 1, createdAt: -1 })] *)
Definition listOrder (m1 m2 : ModuleDoc) : Prop :=
  (m_sortOrder m1 < m_sortOrder m2)%Z ∨
  (m_sortOrder m1 = m_sortOrder m2 ∧ (m_createdAt m2 ≤ m_createdAt m1)%Z).

#[global] Instance listOrder_dec : RelDecision listOrder.
Proof. intros m1 m2. unfold listOrder. apply _. Defined.

(** [GET /api/modules]. A first page numbered 0 asks MongoDB to skip a
    negative number of documents, which it refuses. *)
Definition listModules (db : Database) (user : User) (rq : ListQuery)
    : Response :=
  let page := Js.orDefault (lq_page rq) 1%nat in
  let limit := Js.orDefault (lq_limit rq) 10%nat in
  let query := listFilter user rq in
  if bool_decide (page = 0%nat ∧ limit ≠ 0%nat)
  then reject 500 "Failed to fetch modules"
  else
    let found := filter (λ m, matches query m = true) (modules db) in
    let page_docs := paginate page limit (merge_sort listOrder found) in
    let total := length found in
    {| status := 200;
       payload := ModuleList (withCounts db <$> page_docs)
                    {| current := page; pages := pageCount total limit;
                       total := total; limit := limit |} |}.
End Matching.

(** **** Finding one module, by role *)

Definition hasId (id : string) (m : ModuleDoc) : bool :=
  bool_decide (m_id m = id).

Definition inDepartment (d : option ObjectId) (m : ModuleDoc) : bool :=
  bool_decide (Some (m_department m) = d).

Definition sharesGroup (gs : list ObjectId) (m : ModuleDoc) : bool :=
  existsb (Js.includes gs) (m_groups m).

(** The lookup of [GET /api/modules/:id]. *)
Definition findForRead (db : Database) (user : User) (id : string)
    : option ModuleDoc :=
  if bool_decide (roleName user = "Admin") then
    findOne (hasId id) (modules db)
  else if bool_decide (roleName user = "HOD") then
    findOne (λ m, hasId id m && inDepartment (u_department user) m)
            (modules db)
  else if bool_decide (roleName user = "Teacher") then
    findOne (λ m, hasId id m &&
                  (bool_decide (m_createdBy m = u_id user) ||
                   sharesGroup (u_groups user) m))
            (modules db)
  else
    findOne (λ m, hasId id m && sharesGroup (u_groups user) m) (modules db).

(** The lookup shared by PUT, DELETE and the question endpoints: a role
    other than the three leaves [module] undefined. *)
Definition findForWrite (db : Database) (user : User) (id : string)
    : option ModuleDoc :=
  if bool_decide (roleName user = "Admin") then
    findOne (hasId id) (modules db)
  else if bool_decide (roleName user = "HOD") then
    findOne (λ m, hasId id m && inDepartment (u_department user) m)
            (modules db)
  else if bool_decide (roleName user = "Teacher") then
    findOne (λ m, hasId id m && bool_decide (m_createdBy m = u_id user))
            (modules db)
  else None.

(** [GET /api/modules/:id]. The body is the stored module with its three
    counts; the populated references and the student progress summary
    that the handler adds are read-only and left out. *)
Definition getModule (db : Database) (user : User) (id : string) : Response :=
  if negb (Js.isMongoId id) then reject 400 "Validation failed"
  else
    match findForRead db user id with
    | None => reject 404 "Module not found or access denied"
    | Some m => {| status := 200; payload := ModuleDetails (withCounts db m) |}
    end.

(** **** [checkCircularDependency] *)

(** The two [Set]s of the closure. *)
Record DfsState := {
  visited : gset string;
  recursionStack : gset string
}.

(** [for (const prereqId of currentModule.prerequisites)] with the early
    [return true]; [visit] is the recursive call. *)
Fixpoint forEachPrerequisite
    (visit : DfsState → ObjectId → option (bool * DfsState))
    (prereqs : list ObjectId) (st : DfsState) : option (bool * DfsState) :=
  match prereqs with
  | [] => Some (false, st)
  | prereqId :: rest =>
      match visit st prereqId with
      | None => None
      | Some (true, st') => Some (true, st')
      | Some (false, st') => forEachPrerequisite visit rest st'
      end
  end.

(** [currentModule.prerequisites] of the module found among the loaded
    ones; nothing to iterate over when [find] gives [undefined]. *)
Definition prerequisitesOf (loaded : list ModuleDoc) (id : ObjectId)
    : list ObjectId :=
  match List.find (hasId id) loaded with
  | Some m => m_prerequisites m
  | None => []
  end.

(** The inner function [hasCycle]; [fuel] bounds the recursion depth. *)
Fixpoint hasCycle (fuel : nat) (loaded : list ModuleDoc) (st : DfsState)
    (currentModuleId : ObjectId) : option (bool * DfsState) :=
  match fuel with
  | O => None
  | S fuel' =>
      if bool_decide (currentModuleId ∈ recursionStack st) then Some (true, st)
      else if bool_decide (currentModuleId ∈ visited st) then Some (false, st)
      else
        let st1 := {| visited := {[currentModuleId]} ∪ visited st;
                      recursionStack := {[currentModuleId]} ∪ recursionStack st |} in
        match forEachPrerequisite (hasCycle fuel' loaded)
                (prerequisitesOf loaded currentModuleId) st1 with
        | None => None
        | Some (true, st2) => Some (true, st2)
        | Some (false, st2) =>
            Some (false,
                  {| visited := visited st2;
                     recursionStack := recursionStack st2 ∖ {[currentModuleId]} |})
        end
  end.

(** [Module.find({ _id: { $in: moduleIds }, department: departmentId })] *)
Definition loadedModules (db : Database) (departmentId : ObjectId)
    (moduleIds : list ObjectId) : list ModuleDoc :=
  filter (λ m, m_id m ∈ moduleIds ∧ m_department m = departmentId)
         (modules db).

Definition checkCircularDependencyWith (fuel : nat) (db : Database)
    (departmentId : ObjectId) (moduleIds : list ObjectId) : option bool :=
  let loaded := loadedModules db departmentId moduleIds in
  fst <$> forEachPrerequisite (hasCycle fuel loaded) moduleIds
            {| visited := ∅; recursionStack := ∅ |}.

(** [checkCircularDependency(departmentId, moduleIds)]. The recursion goes
    at most one level deeper than there are loaded modules. *)
Definition checkCircularDependency (db : Database) (departmentId : ObjectId)
    (moduleIds : list ObjectId) : option bool :=
  checkCircularDependencyWith
    (S (length (loadedModules db departmentId moduleIds)))
    db departmentId moduleIds.

(** The prerequisite graph of a department: an edge runs from each stored
    module of the department to each of its prerequisites. *)
Definition prerequisiteEdge (db : Database) (departmentId : ObjectId)
    (a b : ObjectId) : Prop :=
  ∃ m, m ∈ modules db ∧ m_department m = departmentId ∧
       m_id m = a ∧ b ∈ m_prerequisites m.

(** The edges the function can follow: those that leave a module it has
    loaded. *)
Definition loadedEdge (loaded : list ModuleDoc) (a b : ObjectId) : Prop :=
  b ∈ prerequisitesOf loaded a.

(** The graph has a cycle that can be reached from one of the ids. *)
Definition cycleReachable (edge : relation ObjectId)
    (moduleIds : list ObjectId) : Prop :=
  ∃ i x, i ∈ moduleIds ∧ rtc edge i x ∧ tc edge x x.

(** The nodes the search has left again. *)
Definition finished (st : DfsState) : gset string :=
  visited st ∖ recursionStack st.

(** The invariant of the search: the stack is part of the visited set,
    and the finished nodes are closed under the edges. *)
Definition dfsInv (loaded : list ModuleDoc) (st : DfsState) : Prop :=
  recursionStack st ⊆ visited st ∧
  (∀ a b, a ∈ finished st → loadedEdge loaded a b → b ∈ finished st).

(** No cycle can be reached from a finished node. *)
Definition noCycleFromFinished (loaded : list ModuleDoc) (st : DfsState)
    : Prop :=
  ∀ a x, a ∈ finished st → rtc (loadedEdge loaded) a x →
         tc (loadedEdge loaded) x x → False.

(** What one call of the search function establishes: [true] comes with
    a cycle reachable from the node; [false] leaves the stack as it was,
    the node finished and the invariant intact. *)
Definition visitSpec (loaded : list ModuleDoc)
    (visit : DfsState → ObjectId → option (bool * DfsState)) : Prop :=
  ∀ st cur b st',
    dfsInv loaded st → noCycleFromFinished loaded st →
    (∀ s, s ∈ recursionStack st → tc (loadedEdge loaded) s cur) →
    visit st cur = Some (b, st') →
    if b then ∃ x, rtc (loadedEdge loaded) cur x ∧ tc (loadedEdge loaded) x x
    else recursionStack st' = recursionStack st ∧
         visited st ⊆ visited st' ∧
         cur ∈ finished st' ∧
         dfsInv loaded st' ∧ noCycleFromFinished loaded st'.

(** The ids of the loaded modules. *)
Definition loadedIds (loaded : list ModuleDoc) : gset string :=
  list_to_set (m_id <$> loaded).

(** The search function returns whenever at most [n] loaded modules are
    still unvisited, and it only adds to the visited set. *)
Definition returnsWithin (loaded : list ModuleDoc) (n : nat)
    (visit : DfsState → ObjectId → option (bool * DfsState)) : Prop :=
  ∀ st cur, (size (loadedIds loaded ∖ visited st) ≤ n)%nat →
    ∃ b st', visit st cur = Some (b, st') ∧ visited st ⊆ visited st'.

(** **** [POST /api/modules] *)

Record CreateBody := {
  cb_title : option string;
  cb_description : option string;
  cb_department : option string;
  cb_groups : option (list string);
  cb_difficulty : option string;
  cb_estimatedHours : option Z;
  cb_tags : option (list string);
  cb_prerequisites : option (list string);
  cb_sortOrder : option Z
}.

(** [.optional()] in front of a chain: an absent field passes. *)
Definition optional {A} (x : option A) (rule : A → bool) : bool :=
  match x with
  | Some v => rule v
  | None => true
  end.

Definition required {A} (x : option A) (rule : A → bool) : bool :=
  match x with
  | Some v => rule v
  | None => false
  end.

Definition maxLength (n : nat) (s : string) : bool :=
  bool_decide (String.length s ≤ n)%nat.

Definition difficulties : list string := ["beginner"; "intermediate"; "advanced"].

(** The rules shared by [createModuleValidation] and
    [updateModuleValidation]. *)
Definition commonRulesPass (description : option string)
    (groups : option (list string)) (difficulty : option string)
    (estimatedHours : option Z) (tags prerequisites : option (list string))
    (sortOrder : option Z) : bool :=
  optional description (λ d, maxLength 2000 (Js.trim d)) &&
  optional groups (forallb Js.isMongoId) &&
  optional difficulty (Js.includes difficulties) &&
  optional estimatedHours (λ h, bool_decide (1 ≤ h ≤ 200)%Z) &&
  optional tags (forallb (λ t, maxLength 50 (Js.trim t))) &&
  optional prerequisites (forallb Js.isMongoId) &&
  optional sortOrder (λ n, bool_decide (0 ≤ n)%Z).

(** [validationResult(req).isEmpty()] under [createModuleValidation]. *)
Definition createModuleValidation (b : CreateBody) : bool :=
  required (cb_title b)
    (λ t, bool_decide (Js.trim t ≠ "") && maxLength 200 (Js.trim t)) &&
  required (cb_department b) Js.isMongoId &&
  commonRulesPass (cb_description b) (cb_groups b) (cb_difficulty b)
    (cb_estimatedHours b) (cb_tags b) (cb_prerequisites b) (cb_sortOrder b).

(** [Group.find({ _id: { $in: ids }, department, isActive: true })] *)
Definition validGroupsIn (db : Database) (department : ObjectId)
    (ids : list ObjectId) : list GroupDoc :=
  filter (λ g, g_id g ∈ ids ∧ g_department g = department ∧ g_isActive g = true)
         (groups db).

(** The group check of create and update: [None] when it passes. *)
Definition checkGroups (db : Database) (user : User) (department : ObjectId)
    (ids : list ObjectId) : option Response :=
  let validGroups := validGroupsIn db department ids in
  if bool_decide (length validGroups ≠ length ids) then
    Some (reject 400 "Some groups are invalid or belong to different department")
  else if bool_decide (roleName user = "Teacher") then
    let teacherGroups := filter (λ g, g_teacher g = u_id user) validGroups in
    if bool_decide (length teacherGroups ≠ length validGroups) then
      Some (reject 403 "Can only assign modules to groups you teach")
    else None
  else None.

(** The outcome of the cycle check as the handlers use it. *)
Definition checkCycle (db : Database) (department : ObjectId)
    (ids : list ObjectId) (failure : string) : option Response :=
  match checkCircularDependency db department ids with
  | Some true => Some (reject 400 "Circular dependency detected in prerequisites")
  | Some false => None
  | None => Some (reject 500 failure)
  end.

Definition createModule (env : Env) (db : Database) (user : User)
    (b : CreateBody) : Database * Response :=
  if negb (createModuleValidation b) then (db, reject 400 "Validation failed")
  else
    let title := Js.trim (Js.orDefault (cb_title b) "") in
    let description := Js.trim <$> cb_description b in
    let department := Js.orDefault (cb_department b) "" in
    let groups : list string := Js.orDefault (cb_groups b) [] in
    let difficulty := Js.orDefault (cb_difficulty b) "beginner" in
    let tags : list string := Js.trim <$> Js.orDefault (cb_tags b) [] in
    let prerequisites : list string := Js.orDefault (cb_prerequisites b) [] in
    let sortOrder := Js.orDefault (cb_sortOrder b) 0%Z in
    match findOne (λ d, bool_decide (d_id d = department)) (departments db) with
    | None => (db, reject 400 "Department not found or inactive")
    | Some departmentDoc =>
      if negb (d_isActive departmentDoc) then
        (db, reject 400 "Department not found or inactive")
      else if bool_decide (roleName user = "HOD") &&
              negb (bool_decide (Some (d_id departmentDoc) = u_department user))
      then (db, reject 403 "Cannot create module in another department")
      else
        match (if bool_decide (0 < length groups)%nat
               then checkGroups db user department groups
               else @None Response) with
        | Some r => (db, r)
        | None =>
          match (if bool_decide (0 < length prerequisites)%nat then
                   let validPrerequisites :=
                     filter (λ m, m_id m ∈ prerequisites ∧
                                  m_department m = department ∧
                                  m_isActive m = true) (modules db) in
                   if bool_decide (length validPrerequisites ≠ length prerequisites)
                   then Some (reject 400
                     "Some prerequisite modules are invalid or belong to different department")
                   else checkCycle db department prerequisites
                          "Failed to create module"
                 else @None Response) with
          | Some r => (db, r)
          | None =>
            let module :=
              {| m_id := newObjectId env; m_title := Js.trim title;
                 m_description := Js.trim <$> description;
                 m_department := department; m_groups := groups;
                 m_createdBy := u_id user; m_difficulty := difficulty;
                 m_estimatedHours := cb_estimatedHours b;
                 m_tags := (λ t, Js.toLowerCase (Js.trim t)) <$> tags;
                 m_prerequisites := prerequisites; m_questions := [];
                 m_notes := []; m_sortOrder := sortOrder;
                 m_isActive := true; m_createdAt := now env |} in
            let db' := insertModule db module in
            (db', {| status := 201;
                     payload := ModuleSaved "Module created successfully"
                       (findOne (hasId (m_id module)) (modules db')) |})
          end
        end
    end.

(** **** [PUT /api/modules/:id] *)

Record UpdateBody := {
  ub_title : option string;
  ub_description : option string;
  ub_groups : option (list string);
  ub_difficulty : option string;
  ub_estimatedHours : option Z;
  ub_tags : option (list string);
  ub_prerequisites : option (list string);
  ub_sortOrder : option Z
}.

Definition updateModuleValidation (b : UpdateBody) : bool :=
  optional (ub_title b)
    (λ t, bool_decide (Js.trim t ≠ "") && maxLength 200 (Js.trim t)) &&
  commonRulesPass (ub_description b) (ub_groups b) (ub_difficulty b)
    (ub_estimatedHours b) (ub_tags b) (ub_prerequisites b) (ub_sortOrder b).

(** [updateData] applied to a document by [findByIdAndUpdate]. The
    validators have trimmed title, description and tags before the handler
    trims them again. *)
Definition applyUpdate (b : UpdateBody) (m : ModuleDoc) : ModuleDoc :=
  {| m_id := m_id m;
     m_title := default (m_title m) ((λ t, Js.trim (Js.trim t)) <$> ub_title b);
     m_description :=
       match ub_description b with
       | Some d => Some (Js.trim (Js.trim d))
       | None => m_description m
       end;
     m_department := m_department m;
     m_groups := default (m_groups m) (ub_groups b);
     m_createdBy := m_createdBy m;
     m_difficulty := default (m_difficulty m) (ub_difficulty b);
     m_estimatedHours :=
       match ub_estimatedHours b with
       | Some h => Some h
       | None => m_estimatedHours m
       end;
     m_tags :=
       default (m_tags m)
         (fmap (M := list) (λ t, Js.toLowerCase (Js.trim (Js.trim t)))
            <$> ub_tags b);
     m_prerequisites := default (m_prerequisites m) (ub_prerequisites b);
     m_questions := m_questions m;
     m_notes := m_notes m;
     m_sortOrder := default (m_sortOrder m) (ub_sortOrder b);
     m_isActive := m_isActive m;
     m_createdAt := m_createdAt m |}.

(** The prerequisite lookup of the update handler. Its object literal has
    the key [_id] twice, so the [$in] condition is replaced by
    [{ $ne: id }]. *)
Definition validPrerequisitesOnUpdate (db : Database) (module : ModuleDoc)
    (id : string) : list ModuleDoc :=
  filter (λ m, m_id m ≠ id ∧ m_department m = m_department module ∧
               m_isActive m = true) (modules db).

Definition updateModule (db : Database) (user : User) (id : string)
    (b : UpdateBody) : Database * Response :=
  if negb (Js.isMongoId id && updateModuleValidation b) then
    (db, reject 400 "Validation failed")
  else
    match findForWrite db user id with
    | None => (db, reject 404 "Module not found or access denied")
    | Some module =>
      match (match ub_groups b with
             | Some groups => checkGroups db user (m_department module) groups
             | None => None
             end) with
      | Some r => (db, r)
      | None =>
        match (match ub_prerequisites b with
               | Some prerequisites =>
                   if bool_decide
                        (length (validPrerequisitesOnUpdate db module id)
                         ≠ length prerequisites)
                   then Some (reject 400
                     "Some prerequisite modules are invalid or belong to different department")
                   else checkCycle db (m_department module)
                          (prerequisites ++ [id]) "Failed to update module"
               | None => None
               end) with
        | Some r => (db, r)
        | None =>
          let db' := withModules db
                       (replaceFirst (hasId id) (applyUpdate b) (modules db)) in
          (db', {| status := 200;
                   payload := ModuleSaved "Module updated successfully"
                                (findOne (hasId id) (modules db')) |})
        end
      end
    end.

(** **** [DELETE /api/modules/:id] *)

Definition deactivate (m : ModuleDoc) : ModuleDoc :=
  {| m_id := m_id m; m_title := m_title m; m_description := m_description m;
     m_department := m_department m; m_groups := m_groups m;
     m_createdBy := m_createdBy m; m_difficulty := m_difficulty m;
     m_estimatedHours := m_estimatedHours m; m_tags := m_tags m;
     m_prerequisites := m_prerequisites m; m_questions := m_questions m;
     m_notes := m_notes m; m_sortOrder := m_sortOrder m;
     m_isActive := false; m_createdAt := m_createdAt m |}.

(** Two module documents that agree on every field but [isActive]. *)
Definition sameExceptActive (m m' : ModuleDoc) : Prop :=
  m_id m' = m_id m ∧ m_title m' = m_title m ∧
  m_description m' = m_description m ∧ m_department m' = m_department m ∧
  m_groups m' = m_groups m ∧ m_createdBy m' = m_createdBy m ∧
  m_difficulty m' = m_difficulty m ∧
  m_estimatedHours m' = m_estimatedHours m ∧ m_tags m' = m_tags m ∧
  m_prerequisites m' = m_prerequisites m ∧ m_questions m' = m_questions m ∧
  m_notes m' = m_notes m ∧ m_sortOrder m' = m_sortOrder m ∧
  m_createdAt m' = m_createdAt m.

(** The module is used by an active assessment. *)
Definition usedByActiveAssessment (db : Database) (id : string) : Prop :=
  ∃ a, a ∈ assessments db ∧ a_isActive a = true ∧ id ∈ a_modules a.

(** The module is a prerequisite of another active module. *)
Definition prerequisiteOfAnother (db : Database) (id : string) : Prop :=
  ∃ m, m ∈ modules db ∧ m_id m ≠ id ∧ m_isActive m = true ∧
       id ∈ m_prerequisites m.

(** [Assessment.countDocuments({ modules: id, isActive: true })] *)
Definition activeAssessments (db : Database) (id : string) : nat :=
  length (filter (λ a, id ∈ a_modules a ∧ a_isActive a = true) (assessments db)).

(** [Module.countDocuments({ prerequisites: id, isActive: true })] *)
Definition dependentModules (db : Database) (id : string) : nat :=
  length (filter (λ m, id ∈ m_prerequisites m ∧ m_isActive m = true) (modules db)).

Definition deleteModule (db : Database) (user : User) (id : string)
    : Database * Response :=
  if negb (Js.isMongoId id) then (db, reject 400 "Validation failed")
  else
    match findForWrite db user id with
    | None => (db, reject 404 "Module not found or access denied")
    | Some module =>
      if bool_decide (0 < activeAssessments db id)%nat then
        (db, reject 400 "Cannot delete module used in active assessments")
      else if bool_decide (0 < dependentModules db id)%nat then
        (db, reject 400
               "Cannot delete module that is a prerequisite for other modules")
      else
        (saveModule db (deactivate module),
         {| status := 200; payload := Message "Module deleted successfully" |})
    end.

(** **** [POST /api/modules/:id/questions] *)

Definition withQuestions (m : ModuleDoc) (qs : list ObjectId) : ModuleDoc :=
  {| m_id := m_id m; m_title := m_title m; m_description := m_description m;
     m_department := m_department m; m_groups := m_groups m;
     m_createdBy := m_createdBy m; m_difficulty := m_difficulty m;
     m_estimatedHours := m_estimatedHours m; m_tags := m_tags m;
     m_prerequisites := m_prerequisites m; m_questions := qs;
     m_notes := m_notes m; m_sortOrder := m_sortOrder m;
     m_isActive := m_isActive m; m_createdAt := m_createdAt m |}.

(** [.populate({ path: 'questions', match: { isActive: true } })] *)
Definition populateQuestions (db : Database) (ids : list ObjectId)
    : list QuestionDoc :=
  omap (λ id, findOne (λ q, bool_decide (q_id q = id) && q_isActive q)
                      (questions db)) ids.

(** The ids of the request reach three places. [Question.find] casts them
    to ObjectIds; [module.questions.includes(id)] is given the string as
    the request spells it and compares it with the text of each stored id;
    [module.questions.push] casts what it stores. *)
Definition addQuestions (db : Database) (user : User) (id : string)
    (questionIds : list string) : Database * Response :=
  if negb (Js.isMongoId id && forallb Js.isMongoId questionIds) then
    (db, reject 400 "Validation failed")
  else
    match findForWrite db user id with
    | None => (db, reject 404 "Module not found or access denied")
    | Some module =>
      let found :=
        filter (λ q, q_id q ∈ castObjectId <$> questionIds ∧
                     q_isActive q = true)
               (questions db) in
      if bool_decide (length found ≠ length questionIds) then
        (db, reject 400 "Some questions are not valid or inactive")
      else
        let invalidQuestions :=
          filter (λ q, q_department q ≠ Some (m_department module)) found in
        if bool_decide (0 < length invalidQuestions)%nat then
          (db, reject 400
                 "All questions must belong to the same department as the module")
        else
          let questionsToAdd :=
            filter (λ q, q ∉ m_questions module) questionIds in
          if bool_decide (length questionsToAdd = 0%nat) then
            (db, reject 400 "All specified questions are already in the module")
          else
            let module' :=
              withQuestions module
                (m_questions module ++ (castObjectId <$> questionsToAdd)) in
            let db' := saveModule db module' in
            (db',
             {| status := 200;
                payload :=
                  QuestionList
                    ("Successfully added " +:+ pretty (length questionsToAdd)
                     +:+ " questions to module")
                    (match findOne (hasId id) (modules db') with
                     | Some m => populateQuestions db' (m_questions m)
                     | None => []
                     end) |})
    end.

(** **** [DELETE /api/modules/:id/questions/:questionId] *)

Definition removeQuestion (db : Database) (user : User) (id : string)
    (questionId : string) : Database * Response :=
  if negb (Js.isMongoId id && Js.isMongoId questionId) then
    (db, reject 400 "Validation failed")
  else
    match findForWrite db user id with
    | None => (db, reject 404 "Module not found or access denied")
    | Some module =>
      if negb (Js.includes (m_questions module) questionId) then
        (db, reject 400 "Question is not in this module")
      else
        let module' :=
          withQuestions module
            (filter (λ qId, qId ≠ questionId) (m_questions module)) in
        (saveModule db module',
         {| status := 200;
            payload := Message "Question removed from module successfully" |})
    end.

(** **** [DELETE /api/modules/:id/notes/:noteId] *)

Definition withNotes (m : ModuleDoc) (ns : list ObjectId) : ModuleDoc :=
  {| m_id := m_id m; m_title := m_title m; m_description := m_description m;
     m_department := m_department m; m_groups := m_groups m;
     m_createdBy := m_createdBy m; m_difficulty := m_difficulty m;
     m_estimatedHours := m_estimatedHours m; m_tags := m_tags m;
     m_prerequisites := m_prerequisites m; m_questions := m_questions m;
     m_notes := ns; m_sortOrder := m_sortOrder m;
     m_isActive := m_isActive m; m_createdAt := m_createdAt m |}.

Definition removeNote (db : Database) (user : User) (id : string)
    (noteId : string) : Database * Response :=
  if negb (Js.isMongoId id && Js.isMongoId noteId) then
    (db, reject 400 "Validation failed")
  else
    match findForWrite db user id with
    | None => (db, reject 404 "Module not found or access denied")
    | Some module =>
      if negb (Js.includes (m_notes module) noteId) then
        (db, reject 400 "Note is not in this module")
      else
        let module' :=
          withNotes module (filter (λ nId, nId ≠ noteId) (m_notes module)) in
        (saveModule db module',
         {| status := 200;
            payload := Message "Note removed from module successfully" |})
    end.

(** The outcome of a refused write: nothing stored, answer 400 or 404. *)
Definition refused (db : Database) (out : Database * Response) : Prop :=
  out.1 = db ∧ (status out.2 = 400%nat ∨ status out.2 = 404%nat).

(** The module a write is aimed at is one the role may write. *)
Definition writable (db : Database) (user : User) (id : string) : Prop :=
  ∃ m, m ∈ modules db ∧ m_id m = id ∧
       (roleName user = "Teacher" → m_createdBy m = u_id user) ∧
       (roleName user = "HOD" → Some (m_department m) = u_department user).

(** The fields of a module that no update request can change. *)
Definition sameIdentity (m m' : ModuleDoc) : Prop :=
  m_id m' = m_id m ∧ m_department m' = m_department m ∧
  m_createdBy m' = m_createdBy m ∧ m_questions m' = m_questions m ∧
  m_notes m' = m_notes m ∧ m_isActive m' = m_isActive m ∧
  m_createdAt m' = m_createdAt m.

End ModulesRoute.

(** *** [routes/notices.js] *)

Module NoticesRoute.
Import Db.

Inductive Payload :=
| Error (error : string)
| NoticeList (data : list NoticeDoc) (pagination : Pagination)
| NoticeSaved (message : string) (data : option NoticeDoc).

Record Response := {
  status : nat;
  payload : Payload
}.

Definition reject (code : nat) (error : string) : Response :=
  {| status := code; payload := Error error |}.

(** **** The query object of [GET /api/notices] *)

(** A member of [query.$or]. *)
Inductive Clause :=
| TitleRegex (pattern : string)
| ContentRegex (pattern : string)
| TargetAll
| TargetRole (role : string)
| TargetDepartment (department : option ObjectId)
| TargetGroups (ids : list ObjectId).

(** A member of [query.$and]: [expiresAt] is missing or later than [at]. *)
Inductive AndClause :=
| NotExpired (at_time : Z).

Record Filter := {
  f_isActive : bool;
  f_or : option (list Clause);
  f_department : option string;
  f_groups : option string;
  f_targetType : option string;
  f_priority : option string;
  f_postedBy : option string;
  f_and : list AndClause
}.

Record ListQuery := {
  lq_page : option nat;
  lq_limit : option nat;
  lq_search : option string;
  lq_department : option string;
  lq_group : option string;
  lq_targetType : option string;
  lq_priority : option string;
  lq_unread : option string;
  lq_isActive : option string;
  lq_postedBy : option string
}.

Definition truthyValue (s : option string) : option string :=
  if Js.truthy s then s else None.

Definition setOr (v : list Clause) (q : Filter) : Filter :=
  {| f_isActive := f_isActive q; f_or := Some v;
     f_department := f_department q; f_groups := f_groups q;
     f_targetType := f_targetType q; f_priority := f_priority q;
     f_postedBy := f_postedBy q; f_and := f_and q |}.

(** The query before the role branch, built in the order of the source. *)
Definition baseFilter (now : Z) (rq : ListQuery) : Filter :=
  {| f_isActive :=
       match lq_isActive rq with
       | Some v => bool_decide (v = "true")
       | None => true
       end;
     f_or := (λ s, [TitleRegex s; ContentRegex s]) <$> truthyValue (lq_search rq);
     f_department := truthyValue (lq_department rq);
     f_groups := truthyValue (lq_group rq);
     f_targetType := truthyValue (lq_targetType rq);
     f_priority := truthyValue (lq_priority rq);
     f_postedBy := truthyValue (lq_postedBy rq);
     f_and := [NotExpired now] |}.

(** The role branch for the three staff roles. *)
Definition staffFilter (user : User) (q : Filter) : Filter :=
  if bool_decide (roleName user = "Admin") then q
  else if bool_decide (roleName user = "HOD") then
    setOr [TargetAll; TargetRole (roleName user);
           TargetDepartment (u_department user)] q
  else
    setOr [TargetAll; TargetRole (roleName user);
           TargetGroups (u_groups user)] q.

Section Listing.
(** [regexTest pattern text]: MongoDB's [$regex] with [$options: 'i']. *)
Variable regexTest : string → string → bool.

(** [Notice.findByUser(userId, { page, limit, unread })], a static method
    of the Notice model, which the student branch delegates to. *)
Variable findByUser : Database → ObjectId → nat → nat → bool → list NoticeDoc.

Definition matchClause (n : NoticeDoc) (c : Clause) : bool :=
  match c with
  | TitleRegex s => regexTest s (n_title n)
  | ContentRegex s => regexTest s (n_content n)
  | TargetAll => bool_decide (n_targetType n = "all")
  | TargetRole role =>
      bool_decide (n_targetType n = "role") &&
      Js.includes (n_targetRoles n) role
  | TargetDepartment d =>
      bool_decide (n_targetType n = "department") &&
      bool_decide (n_department n = d)
  | TargetGroups ids =>
      bool_decide (n_targetType n = "group") &&
      existsb (Js.includes ids) (n_groups n)
  end.

Definition matchAnd (n : NoticeDoc) (c : AndClause) : bool :=
  match c with
  | NotExpired t =>
      match n_expiresAt n with
      | None => true
      | Some e => bool_decide (t < e)%Z
      end
  end.

Definition holds {A} (c : option A) (test : A → bool) : bool :=
  match c with
  | Some v => test v
  | None => true
  end.

Definition matches (q : Filter) (n : NoticeDoc) : bool :=
  bool_decide (n_isActive n = f_isActive q) &&
  holds (f_or q) (existsb (matchClause n)) &&
  holds (f_department q) (λ d, bool_decide (n_department n = Some d)) &&
  holds (f_groups q) (Js.includes (n_groups n)) &&
  holds (f_targetType q) (λ t, bool_decide (n_targetType n = t)) &&
  holds (f_priority q) (λ p, bool_decide (n_priority n = p)) &&
  holds (f_postedBy q) (λ u, bool_decide (n_postedBy n = u)) &&
  forallb (matchAnd n) (f_and q).

(** [.sort({ priority: -1, createdAt: -1 })]; priorities are strings. *)
Definition listOrder (n1 n2 : NoticeDoc) : Prop :=
  String.ltb (n_priority n2) (n_priority n1) = true ∨
  (n_priority n1 = n_priority n2 ∧ (n_createdAt n2 ≤ n_createdAt n1)%Z).

#[global] Instance listOrder_dec : RelDecision listOrder.
Proof. intros n1 n2. unfold listOrder. apply _. Defined.

(** [notice.readBy.some(e => e.user.toString() === user._id.toString())] *)
Definition readByUser (user : User) (n : NoticeDoc) : bool :=
  existsb (λ e, bool_decide (re_user e = u_id user)) (n_readBy n).

(** [GET /api/notices]. In the student branch the object literal of the
    count has the key [$or] twice; the expiry condition is the one kept. *)
Definition listNotices (now : Z) (db : Database) (user : User)
    (rq : ListQuery) : Response :=
  let page := Js.orDefault (lq_page rq) 1%nat in
  let limit := Js.orDefault (lq_limit rq) 10%nat in
  let query := baseFilter now rq in
  if Js.includes ["Admin"; "HOD"; "Teacher"] (roleName user) then
    let query := staffFilter user query in
    if bool_decide (page = 0%nat ∧ limit ≠ 0%nat)
    then reject 500 "Failed to fetch notices"
    else
      let found := filter (λ n, matches query n = true) (notices db) in
      let notices := paginate page limit (merge_sort listOrder found) in
      let total := length found in
      let finalNotices :=
        if bool_decide (lq_unread rq = Some "true")
        then filter (λ n, readByUser user n = false) notices
        else notices in
      {| status := 200;
         payload := NoticeList finalNotices
                      {| current := page; pages := pageCount total limit;
                         total := total; limit := limit |} |}
  else
    let accessibleNotices :=
      findByUser db (u_id user) page limit
        (bool_decide (lq_unread rq = Some "true")) in
    let total :=
      length (filter (λ n, n_isActive n = true ∧
                           matchAnd n (NotExpired now) = true)
                     (notices db)) in
    {| status := 200;
       payload := NoticeList accessibleNotices
                    {| current := page; pages := pageCount total limit;
                       total := total; limit := limit |} |}.
End Listing.

(** **** [POST /api/notices] *)

Record CreateBody := {
  cb_title : option string;
  cb_content : option string;
  cb_targetType : option string;
  cb_targetRoles : option (list string);
  cb_department : option string;
  cb_groups : option (list string);
  cb_priority : option string;
  cb_expiresAt : option string
}.

Definition optional {A} (x : option A) (rule : A → bool) : bool :=
  match x with
  | Some v => rule v
  | None => true
  end.

Definition required {A} (x : option A) (rule : A → bool) : bool :=
  match x with
  | Some v => rule v
  | None => false
  end.

Definition targetTypes : list string := ["all"; "department"; "group"; "role"].
Definition roleNames : list string := ["Admin"; "HOD"; "Teacher"; "Student"].
Definition priorities : list string := ["low"; "medium"; "high"].

Section Create.
(** [parseISO8601 s] is the time [new Date(s)] of a string that
    express-validator's [isISO8601] accepts, and [None] for any other. *)
Variable parseISO8601 : string → option Z.

(** The [expiresAt] chain: [isISO8601()] and the custom rule, which
    lets the empty string pass and wants any other date in the future. *)
Definition expiresAtRule (now : Z) (value : string) : bool :=
  match parseISO8601 value with
  | None => false
  | Some t => negb (bool_decide (value ≠ "") && bool_decide (t ≤ now)%Z)
  end.

(** [validationResult(req).isEmpty()] under [createNoticeValidation]. *)
Definition createNoticeValidation (now : Z) (b : CreateBody) : bool :=
  required (cb_title b)
    (λ t, bool_decide (Js.trim t ≠ "") &&
          bool_decide (String.length (Js.trim t) ≤ 200)%nat) &&
  required (cb_content b) (λ c, bool_decide (Js.trim c ≠ "")) &&
  required (cb_targetType b) (Js.includes targetTypes) &&
  optional (cb_targetRoles b) (forallb (Js.includes roleNames)) &&
  optional (cb_department b) Js.isMongoId &&
  optional (cb_groups b) (forallb Js.isMongoId) &&
  optional (cb_priority b) (Js.includes priorities) &&
  optional (cb_expiresAt b) (expiresAtRule now).

(** The department check: [None] when it passes. *)
Definition checkDepartment (db : Database) (user : User)
    (department : ObjectId) : option Response :=
  match findOne (λ d, bool_decide (d_id d = department)) (departments db) with
  | None => Some (reject 400 "Department not found or inactive")
  | Some departmentDoc =>
      if negb (d_isActive departmentDoc) then
        Some (reject 400 "Department not found or inactive")
      else if bool_decide (roleName user = "HOD") &&
              negb (bool_decide (Some (d_id departmentDoc) = u_department user))
      then Some (reject 403 "Cannot create notice for another department")
      else None
  end.

(** The group check: [None] when it passes. *)
Definition checkGroups (db : Database) (user : User)
    (ids : list ObjectId) : option Response :=
  let validGroups :=
    filter (λ g, g_id g ∈ ids ∧ g_isActive g = true) (groups db) in
  if bool_decide (length validGroups ≠ length ids) then
    Some (reject 400 "Some groups are invalid or inactive")
  else if bool_decide (roleName user = "Teacher") then
    let teacherGroups := filter (λ g, g_teacher g = u_id user) validGroups in
    if bool_decide (length teacherGroups ≠ length validGroups) then
      Some (reject 403 "Can only create notices for groups you teach")
    else None
  else None.

Definition createNotice (env : Env) (db : Database) (user : User)
    (b : CreateBody) : Database * Response :=
  if negb (createNoticeValidation (now env) b) then
    (db, reject 400 "Validation failed")
  else
    let title := Js.trim (Js.orDefault (cb_title b) "") in
    let content := Js.trim (Js.orDefault (cb_content b) "") in
    let targetType := Js.orDefault (cb_targetType b) "" in
    let targetRoles : list string := Js.orDefault (cb_targetRoles b) [] in
    let department := cb_department b in
    let groups : list string := Js.orDefault (cb_groups b) [] in
    let priority := Js.orDefault (cb_priority b) "medium" in
    let expiresAt := cb_expiresAt b in
    if bool_decide (targetType = "department") && negb (Js.truthy department)
    then (db, reject 400
                "Department is required for department-specific notices")
    else if bool_decide (targetType = "group") &&
            bool_decide (length groups = 0%nat)
    then (db, reject 400
                "At least one group is required for group-specific notices")
    else if bool_decide (targetType = "role") &&
            bool_decide (length targetRoles = 0%nat)
    then (db, reject 400
                "At least one target role is required for role-specific notices")
    else
      match (match truthyValue department with
             | Some d => checkDepartment db user d
             | None => None
             end) with
      | Some r => (db, r)
      | None =>
        match (if bool_decide (0 < length groups)%nat
               then checkGroups db user groups else None) with
        | Some r => (db, r)
        | None =>
          let notice :=
            {| n_id := newObjectId env; n_title := Js.trim title;
               n_content := Js.trim content; n_postedBy := u_id user;
               n_targetType := targetType; n_targetRoles := targetRoles;
               n_department := department; n_groups := groups;
               n_priority := priority;
               n_expiresAt := truthyValue expiresAt ≫= parseISO8601;
               n_isActive := true; n_readBy := [];
               n_createdAt := now env |} in
          let db' := insertNotice db notice in
          (db', {| status := 201;
                   payload := NoticeSaved "Notice created successfully"
                     (findOne (λ n, bool_decide (n_id n = n_id notice))
                              (notices db')) |})
        end
      end.
End Create.

(** The targeting of a request is incomplete: the target type is not one
    of the four, or it is ['department'] with no department, ['group']
    with no group, or ['role'] with no role. *)
Definition incompleteTargeting (b : CreateBody) : Prop :=
  (∀ t, t ∈ targetTypes → cb_targetType b ≠ Some t) ∨
  (cb_targetType b = Some "department" ∧ Js.truthy (cb_department b) = false) ∨
  (cb_targetType b = Some "group" ∧ Js.orDefault (cb_groups b) [] = []) ∨
  (cb_targetType b = Some "role" ∧ Js.orDefault (cb_targetRoles b) [] = []).

(** **** [PUT /api/notices/:id] and [DELETE /api/notices/:id] *)

Definition hasId (id : string) (n : NoticeDoc) : bool :=
  bool_decide (n_id n = id).

Definition postedByUser (user : User) (n : NoticeDoc) : bool :=
  bool_decide (n_postedBy n = u_id user).

(** The lookup of the update handler: a HOD may also edit notices for
    everybody and notices for the HOD role. *)
Definition findForUpdate (db : Database) (user : User) (id : string)
    : option NoticeDoc :=
  if bool_decide (roleName user = "Admin") then
    findOne (hasId id) (notices db)
  else if bool_decide (roleName user = "HOD") then
    findOne (λ n, hasId id n &&
                  (postedByUser user n ||
                   bool_decide (n_targetType n = "all") ||
                   (bool_decide (n_targetType n = "role") &&
                    Js.includes (n_targetRoles n) (roleName user))))
            (notices db)
  else if bool_decide (roleName user = "Teacher") then
    findOne (λ n, hasId id n && postedByUser user n) (notices db)
  else None.

(** The lookup of the delete handler. *)
Definition findForDelete (db : Database) (user : User) (id : string)
    : option NoticeDoc :=
  if bool_decide (roleName user = "Admin") then
    findOne (hasId id) (notices db)
  else if bool_decide (roleName user = "HOD") then
    findOne (λ n, hasId id n && postedByUser user n) (notices db)
  else if bool_decide (roleName user = "Teacher") then
    findOne (λ n, hasId id n && postedByUser user n) (notices db)
  else None.

Record UpdateBody := {
  ub_title : option string;
  ub_content : option string;
  ub_priority : option string;
  ub_expiresAt : option string
}.

Definition deactivate (n : NoticeDoc) : NoticeDoc :=
  {| n_id := n_id n; n_title := n_title n; n_content := n_content n;
     n_postedBy := n_postedBy n; n_targetType := n_targetType n;
     n_targetRoles := n_targetRoles n; n_department := n_department n;
     n_groups := n_groups n; n_priority := n_priority n;
     n_expiresAt := n_expiresAt n; n_isActive := false;
     n_readBy := n_readBy n; n_createdAt := n_createdAt n |}.

(** [notice.save()] of a notice read from the collection. *)
Definition saveNotice (db : Database) (n : NoticeDoc) : Database :=
  withNotices db
    (replaceFirst (λ x, bool_decide (n_id x = n_id n)) (λ _, n) (notices db)).

Definition deleteNotice (db : Database) (user : User) (id : string)
    : Database * Response :=
  if negb (Js.isMongoId id) then (db, reject 400 "Validation failed")
  else
    match findForDelete db user id with
    | None => (db, reject 404 "Notice not found or access denied")
    | Some notice =>
        (saveNotice db (deactivate notice),
         {| status := 200;
            payload := NoticeSaved "Notice deleted successfully" None |})
    end.

Section Update.
Variable parseISO8601 : string → option Z.

(** [validationResult(req).isEmpty()] under [updateNoticeValidation]. *)
Definition updateNoticeValidation (now : Z) (b : UpdateBody) : bool :=
  optional (ub_title b)
    (λ t, bool_decide (Js.trim t ≠ "") &&
          bool_decide (String.length (Js.trim t) ≤ 200)%nat) &&
  optional (ub_content b) (λ c, bool_decide (Js.trim c ≠ "")) &&
  optional (ub_priority b) (Js.includes priorities) &&
  optional (ub_expiresAt b) (expiresAtRule parseISO8601 now).

(** [updateData] applied by [findByIdAndUpdate]; the validators have
    trimmed title and content before the handler trims them again, and the
    date string is stored as the date it denotes. *)
Definition applyUpdate (b : UpdateBody) (n : NoticeDoc) : NoticeDoc :=
  {| n_id := n_id n;
     n_title := default (n_title n) ((λ t, Js.trim (Js.trim t)) <$> ub_title b);
     n_content :=
       default (n_content n) ((λ c, Js.trim (Js.trim c)) <$> ub_content b);
     n_postedBy := n_postedBy n; n_targetType := n_targetType n;
     n_targetRoles := n_targetRoles n; n_department := n_department n;
     n_groups := n_groups n;
     n_priority := default (n_priority n) (ub_priority b);
     n_expiresAt :=
       match ub_expiresAt b with
       | Some v => parseISO8601 v
       | None => n_expiresAt n
       end;
     n_isActive := n_isActive n; n_readBy := n_readBy n;
     n_createdAt := n_createdAt n |}.

Definition updateNotice (now : Z) (db : Database) (user : User) (id : string)
    (b : UpdateBody) : Database * Response :=
  if negb (Js.isMongoId id && updateNoticeValidation now b) then
    (db, reject 400 "Validation failed")
  else
    match findForUpdate db user id with
    | None => (db, reject 404 "Notice not found or access denied")
    | Some notice =>
        let db' := withNotices db
                     (replaceFirst (hasId id) (applyUpdate b) (notices db)) in
        (db', {| status := 200;
                 payload := NoticeSaved "Notice updated successfully"
                              (findOne (hasId id) (notices db')) |})
    end.
End Update.

(** The fields of a notice that decide who sees it and who has read it. *)
Definition sameAudience (n n' : NoticeDoc) : Prop :=
  n_id n' = n_id n ∧ n_postedBy n' = n_postedBy n ∧
  n_targetType n' = n_targetType n ∧ n_targetRoles n' = n_targetRoles n ∧
  n_department n' = n_department n ∧ n_groups n' = n_groups n ∧
  n_isActive n' = n_isActive n ∧ n_readBy n' = n_readBy n ∧
  n_createdAt n' = n_createdAt n.

(** Who a notice found by the staff listing is aimed at. *)
Definition aimedAt (user : User) (n : NoticeDoc) : Prop :=
  n_targetType n = "all" ∨
  (n_targetType n = "role" ∧ roleName user ∈ n_targetRoles n) ∨
  (roleName user = "HOD" ∧ n_targetType n = "department" ∧
   n_department n = u_department user) ∨
  (roleName user = "Teacher" ∧ n_targetType n = "group" ∧
   ∃ g, g ∈ n_groups n ∧ g ∈ u_groups user).

End NoticesRoute.

(** *** A small database used in the examples *)

Module Sample.
Import Db ModulesRoute.

Definition deptCS : ObjectId := "aaaaaaaaaaaaaaaaaaaaaa01".
Definition deptEE : ObjectId := "aaaaaaaaaaaaaaaaaaaaaa02".
Definition deptME : ObjectId := "aaaaaaaaaaaaaaaaaaaaaa03".
Definition groupCS1 : ObjectId := "bbbbbbbbbbbbbbbbbbbbbb01".
Definition modA : ObjectId := "cccccccccccccccccccccc01".
Definition modB : ObjectId := "cccccccccccccccccccccc02".
Definition modC : ObjectId := "cccccccccccccccccccccc03".
Definition modD : ObjectId := "cccccccccccccccccccccc04".
Definition question1 : ObjectId := "dddddddddddddddddddddd01".
Definition question2 : ObjectId := "dddddddddddddddddddddd02".
Definition assessment1 : ObjectId := "eeeeeeeeeeeeeeeeeeeeee01".
Definition userAdmin : ObjectId := "ffffffffffffffffffffff01".
Definition userHod : ObjectId := "ffffffffffffffffffffff02".
Definition userTeacher : ObjectId := "ffffffffffffffffffffff03".
Definition userStudent : ObjectId := "ffffffffffffffffffffff04".

Definition admin : User :=
  {| u_id := userAdmin; roleName := "Admin"; u_department := None;
     u_groups := [] |}.
Definition hod : User :=
  {| u_id := userHod; roleName := "HOD"; u_department := Some deptCS;
     u_groups := [] |}.
Definition teacher : User :=
  {| u_id := userTeacher; roleName := "Teacher"; u_department := Some deptCS;
     u_groups := [groupCS1] |}.
Definition student : User :=
  {| u_id := userStudent; roleName := "Student"; u_department := Some deptCS;
     u_groups := [groupCS1] |}.

Definition mkModule (id : ObjectId) (title : string) (department : ObjectId)
    (groups prerequisites questions : list ObjectId) (created : Z)
    : ModuleDoc :=
  {| m_id := id; m_title := title; m_description := None;
     m_department := department; m_groups := groups;
     m_createdBy := userTeacher; m_difficulty := "beginner";
     m_estimatedHours := None; m_tags := [];
     m_prerequisites := prerequisites; m_questions := questions;
     m_notes := []; m_sortOrder := 0; m_isActive := true;
     m_createdAt := created |}.

(** Modules A and B are each other's prerequisite; C is used by an active
    assessment; D is used by nothing. *)
Definition moduleA := mkModule modA "Arrays" deptCS [groupCS1] [modB] [] 1.
Definition moduleB := mkModule modB "Basics" deptCS [] [modA] [] 2.
Definition moduleC := mkModule modC "Closures" deptCS [groupCS1] [] [question1] 3.
Definition moduleD := mkModule modD "Dynamics" deptCS [] [] [] 4.

Definition db : Database :=
  {| departments := [ {| d_id := deptCS; d_isActive := true |};
                      {| d_id := deptEE; d_isActive := false |};
                      {| d_id := deptME; d_isActive := true |} ];
     groups := [ {| g_id := groupCS1; g_department := deptCS;
                    g_teacher := userTeacher; g_isActive := true |} ];
     questions := [ {| q_id := question1; q_department := Some deptCS;
                       q_isActive := true |};
                    {| q_id := question2; q_department := Some deptCS;
                       q_isActive := true |} ];
     notes := [];
     assessments := [ {| a_id := assessment1; a_modules := [modC];
                         a_isActive := true |} ];
     modules := [moduleA; moduleB; moduleC; moduleD];
     notices := [] |}.

Definition env : Env :=
  {| newObjectId := "cccccccccccccccccccccc09"; now := 1000 |}.

(** A department with two modules and no cycle: B requires A. *)
Definition acyclicDb : Database :=
  {| departments := departments db; groups := groups db;
     questions := questions db; notes := notes db; assessments := [];
     modules := [ mkModule modA "Arrays" deptCS [] [] [] 1;
                  mkModule modB "Basics" deptCS [] [modA] [] 2 ];
     notices := [] |}.

(** The update that makes A require B. *)
Definition requireB : UpdateBody :=
  {| ub_title := None; ub_description := None; ub_groups := None;
     ub_difficulty := None; ub_estimatedHours := None; ub_tags := None;
     ub_prerequisites := Some [modB]; ub_sortOrder := None |}.

Definition noQuery : ListQuery :=
  {| lq_page := None; lq_limit := None; lq_search := None;
     lq_department := None; lq_group := None; lq_difficulty := None;
     lq_createdBy := None; lq_tags := None; lq_isActive := None;
     lq_hasQuestions := None |}.

Definition newModuleIn (department : ObjectId)
    (prerequisites : option (list string)) : CreateBody :=
  {| cb_title := Some "Recursion"; cb_description := None;
     cb_department := Some department; cb_groups := None;
     cb_difficulty := None; cb_estimatedHours := None; cb_tags := None;
     cb_prerequisites := prerequisites; cb_sortOrder := None |}.

Definition mkNotice (id : ObjectId) (readBy : list ReadEntry) (created : Z)
    : NoticeDoc :=
  {| n_id := id; n_title := "Exam schedule"; n_content := "See the board";
     n_postedBy := userAdmin; n_targetType := "all"; n_targetRoles := [];
     n_department := None; n_groups := []; n_priority := "medium";
     n_expiresAt := None; n_isActive := true; n_readBy := readBy;
     n_createdAt := created |}.

(** The teacher has read the first notice and not the second. *)
Definition noticeRead :=
  mkNotice "9999999999999999999999a1"
    [ {| re_user := userTeacher; re_readAt := 50 |} ] 10.
Definition noticeUnread :=
  mkNotice "9999999999999999999999a2"
    [ {| re_user := userStudent; re_readAt := 60 |} ] 20.

Definition noticeDb : Database :=
  {| departments := departments db; groups := groups db;
     questions := questions db; notes := notes db;
     assessments := assessments db; modules := modules db;
     notices := [noticeRead; noticeUnread] |}.

Definition unreadQuery : NoticesRoute.ListQuery :=
  {| NoticesRoute.lq_page := None; NoticesRoute.lq_limit := None;
     NoticesRoute.lq_search := None; NoticesRoute.lq_department := None;
     NoticesRoute.lq_group := None; NoticesRoute.lq_targetType := None;
     NoticesRoute.lq_priority := None; NoticesRoute.lq_unread := Some "true";
     NoticesRoute.lq_isActive := None; NoticesRoute.lq_postedBy := None |}.

Definition groupNoticeWithoutGroups : NoticesRoute.CreateBody :=
  {| NoticesRoute.cb_title := Some "Lab moved";
     NoticesRoute.cb_content := Some "Room 2";
     NoticesRoute.cb_targetType := Some "group";
     NoticesRoute.cb_targetRoles := None;
     NoticesRoute.cb_department := None;
     NoticesRoute.cb_groups := Some [];
     NoticesRoute.cb_priority := None;
     NoticesRoute.cb_expiresAt := None |}.

(** The update that raises the priority of a notice. *)
Definition newPriority : NoticesRoute.UpdateBody :=
  {| NoticesRoute.ub_title := None; NoticesRoute.ub_content := None;
     NoticesRoute.ub_priority := Some "high";
     NoticesRoute.ub_expiresAt := None |}.

(** Stand-ins for the examples: no string is a date, and the Notice
    model's [findByUser] finds nothing. *)
Definition noDate (s : string) : option Z := None.
Definition findNothing (db : Database) (userId : ObjectId)
    (page limit : nat) (unread : bool) : list NoticeDoc := [].

(** A [$regex] stand-in for the examples: no text matches. *)
Definition noMatch (pattern text : string) : bool := false.

End Sample.

(** *** The analytics route: helper functions and the score distribution *)

Module Analytics.

(** One group of the [$group] stage that feeds [calculateCurrentStreak]:
    [_id] is the day as ['YYYY-MM-DD']. *)
Record DailyActivity := {
  da_id : string;
  activityCount : nat
}.

(** A [Date] is its time value: the milliseconds since the epoch, UTC. *)
Definition msPerDay : Z := 86400000.
Definition msPerHour : Z := 3600000.

Section CurrentStreak.
(** [isoDate d] is the text ['YYYY-MM-DD'] of the day with number [d]
    (days since the epoch, UTC). *)
Variable isoDate : Z → string.
(** The time zone of the host, as the two conversions of ECMAScript:
    [localTime t] is LocalTime(t), the local time of the time value [t],
    and [utc t] is UTC(t), the time value of the local time [t]. *)
Variable localTime : Z → Z.
Variable utc : Z → Z.

(** [d.toISOString().split('T')[0]]: the date of the time value in UTC. *)
Definition dateString (t : Z) : string := isoDate (t `div` msPerDay).

(** [d.setDate(d.getDate() - 1)]: [getDate] reads the day of the month in
    local time and [setDate] sets it in local time, keeping the local time
    of day; day 0 of a month is the last day of the month before. The new
    time value is UTC(LocalTime(t) - msPerDay). *)
Definition setPreviousDate (t : Z) : Z := utc (localTime t - msPerDay).

(** The [while] loop of [calculateCurrentStreak]. *)
Fixpoint streakLoop (fuel : nat) (sortedDates : list string)
    (streak : nat) (currentDate : Z) : option nat :=
  match fuel with
  | O => None
  | S fuel' =>
      if Js.includes sortedDates (dateString currentDate)
      then streakLoop fuel' sortedDates (S streak)
             (setPreviousDate currentDate)
      else Some streak
  end.

(** [calculateCurrentStreak(dailyActivity)], with the clock reading
    [now] (the time value of [new Date()]) made explicit. [today] is the
    date of [now] in UTC, and [new Date(today)] reads that text back as
    midnight of the day, UTC. *)
Definition calculateCurrentStreak (fuel : nat) (now : Z)
    (dailyActivity : list DailyActivity) : option nat :=
  if bool_decide (length dailyActivity = 0%nat) then Some 0%nat
  else
    let today := (now `div` msPerDay)%Z in
    let sortedDates := Js.sortStrings (da_id <$> dailyActivity) in
    streakLoop fuel sortedDates 0 (today * msPerDay)%Z.

(** At least one activity record exists for day [d]. *)
Definition activeOn (dailyActivity : list DailyActivity) (d : Z) : Prop :=
  ∃ r, r ∈ dailyActivity ∧ da_id r = isoDate d.
End CurrentStreak.

(** The year, month and day of a day number in the Gregorian calendar,
    by eras of 400 years that start on a first of March. *)
Definition civilFromDays (day : Z) : Z * Z * Z :=
  let z := (day + 719468)%Z in
  let era := (z `div` 146097)%Z in
  let doe := (z - era * 146097)%Z in
  let yoe := ((doe - doe `div` 1460 + doe `div` 36524 - doe `div` 146096)
              `div` 365)%Z in
  let doy := (doe - (365 * yoe + yoe `div` 4 - yoe `div` 100))%Z in
  let mp := ((5 * doy + 2) `div` 153)%Z in
  let d := (doy - (153 * mp + 2) `div` 5 + 1)%Z in
  let m := if bool_decide (mp < 10)%Z then (mp + 3)%Z else (mp - 9)%Z in
  let y := (yoe + era * 400 + (if bool_decide (m ≤ 2)%Z then 1 else 0))%Z in
  (y, m, d).

Fixpoint zeros (n : nat) : string :=
  match n with
  | O => EmptyString
  | S n' => String "0" (zeros n')
  end.

(** [String(n).padStart(width, '0')] *)
Definition padStart (width : nat) (n : Z) : string :=
  let digits := pretty n in
  zeros (width - String.length digits) +:+ digits.

(** The date part of [toISOString] for the years 0 to 9999. *)
Definition isoDateOfDay (day : Z) : string :=
  let '(y, m, d) := civilFromDays day in
  padStart 4 y +:+ "-" +:+ padStart 2 m +:+ "-" +:+ padStart 2 d.

(** A host zone at a constant offset from UTC (in milliseconds); offset 0
    is UTC itself. *)
Definition fixedLocalTime (offset t : Z) : Z := (t + offset)%Z.
Definition fixedUTC (offset t : Z) : Z := (t - offset)%Z.

(** The host zone Europe/Berlin around the end of summer time in 2024:
    UTC+2 until 2024-10-27T01:00:00Z, UTC+1 from then on. A local time
    that the change makes occur twice is read with the offset before the
    change, as ECMAScript has it. *)
Definition berlinChange : Z := 1729990800000.

Definition berlinLocalTime (t : Z) : Z :=
  if bool_decide (t < berlinChange)%Z then (t + 2 * msPerHour)%Z
  else (t + msPerHour)%Z.

Definition berlinUTC (t : Z) : Z :=
  if bool_decide (t < berlinChange + 2 * msPerHour)%Z
  then (t - 2 * msPerHour)%Z
  else (t - msPerHour)%Z.

(** The records of a user active on 2024-10-28 and on 2024-10-26, and a
    clock reading of 2024-10-28T09:30:00Z. *)
Definition activityWithGap : list DailyActivity :=
  [ {| da_id := "2024-10-28"; activityCount := 3 |};
    {| da_id := "2024-10-26"; activityCount := 1 |} ].

Definition morningOfOctober28 : Z := 1730107800000.

(** [calculateMedian(numbers)]. An index out of range reads [undefined],
    which makes the result [NaN]: [None] here. *)
Definition calculateMedian (numbers : list Qc) : option Qc :=
  let sorted := Js.sortNumeric numbers in
  let mid := (length sorted / 2)%nat in
  if bool_decide ((length sorted mod 2)%nat ≠ 0%nat)
  then sorted !! mid
  else
    match mid with
    | O => None
    | S mid' =>
        a ← sorted !! mid';
        b ← sorted !! mid;
        Some ((a + b) / 2)%Qc
    end.


(** A submitted [AssessmentSubmission], as far as the analytics read it. *)
Record Submission := {
  student : string;
  totalScore : Qc;
  timeTaken : option Z
}.

Record ScoreRange := {
  label : string;
  min : Qc;
  max : Qc
}.

Definition scoreRanges : list ScoreRange :=
  [ {| label := "0-20";   min := Qc_of_Z 0;  max := Qc_of_Z 20 |};
    {| label := "21-40";  min := Qc_of_Z 21; max := Qc_of_Z 40 |};
    {| label := "41-60";  min := Qc_of_Z 41; max := Qc_of_Z 60 |};
    {| label := "61-80";  min := Qc_of_Z 61; max := Qc_of_Z 80 |};
    {| label := "81-100"; min := Qc_of_Z 81; max := Qc_of_Z 100 |} ].

(** [(s.totalScore / assessment.totalPoints) * 100] *)
Definition percentage (totalPoints : Qc) (s : Submission) : Qc :=
  (totalScore s / totalPoints * Qc_of_Z 100)%Qc.

Definition inRange (totalPoints : Qc) (range : ScoreRange) (s : Submission) : Prop :=
  (min range ≤ percentage totalPoints s)%Qc ∧
  (percentage totalPoints s ≤ max range)%Qc.

#[global] Instance inRange_dec tp r s : Decision (inRange tp r s).
Proof. unfold inRange. apply _. Defined.

Record RangeCount := {
  range : string;
  count : nat
}.

(** [scoreRanges.map(range => ({ range: range.label, count: ... }))] *)
Definition scoreDistribution (totalPoints : Qc) (submissions : list Submission)
    : list RangeCount :=
  (λ r, {| range := label r;
           count := length (filter (inRange totalPoints r) submissions) |})
    <$> scoreRanges.

(** The sum of the range counts. *)
Definition countedSubmissions (dist : list RangeCount) : nat :=
  foldr (λ rc acc, (count rc + acc)%nat) 0%nat dist.

(** How many of the five ranges hold the percentage of [s]. *)
Definition rangesHolding (totalPoints : Qc) (s : Submission) : nat :=
  length (filter (λ r, inRange totalPoints r s) scoreRanges).

(** A submission that scored 13 of 64 points: 20.3125 percent. *)
Definition thirteenOfSixtyFour : Submission :=
  {| student := "64b000000000000000000001";
     totalScore := Qc_of_Z 13;
     timeTaken := None |}.

End Analytics.

(** ** Part II: properties *)

(** *** Properties of [routes/modules.js] *)

Module ModulesRouteFacts.
Import Db ModulesRoute.

Lemma findOne_Some {A} (P : A → bool) (coll : list A) (x : A) :
  findOne P coll = Some x → x ∈ coll ∧ P x = true.
Proof.
  unfold findOne. intros H. apply find_some in H as [Hin HP].
  split; [by apply list_elem_of_In | done].
Qed.

Lemma findOne_None {A} (P : A → bool) (coll : list A) :
  findOne P coll = None → ∀ x, x ∈ coll → P x = false.
Proof.
  unfold findOne. intros H x Hin.
  apply (find_none _ _ H). by apply list_elem_of_In.
Qed.

Lemma paginate_subset {A} (page limit : nat) (docs : list A) (x : A) :
  x ∈ paginate page limit docs → x ∈ docs.
Proof.
  unfold paginate. case_bool_decide.
  - apply subseteq_drop.
  - intros Hin. by apply subseteq_take, subseteq_drop in Hin.
Qed.

(** The fields of the query object that the later steps leave alone. *)
Lemma whenSome_preserves {A B} (proj : Filter → B) (x : option A)
    (step : A → Filter → Filter) (q : Filter) :
  (∀ v q', proj (step v q') = proj q') → proj (whenSome x step q) = proj q.
Proof. intros H. destruct x; simpl; auto. Qed.

Lemma when_preserves {B} (proj : Filter → B) (c : bool)
    (step : Filter → Filter) (q : Filter) :
  (∀ q', proj (step q') = proj q') → proj (when c step q) = proj q.
Proof. intros H. destruct c; simpl; auto. Qed.

Lemma roleScope_isActive user q : f_isActive (roleScope user q) = f_isActive q.
Proof. unfold roleScope. by repeat case_bool_decide. Qed.

Lemma listFilter_isActive user rq :
  f_isActive (listFilter user rq) =
  Some (match lq_isActive rq with
        | Some v => bool_decide (v = "true")
        | None => true
        end).
Proof.
  unfold listFilter.
  rewrite whenSome_preserves by (intros; by apply when_preserves).
  rewrite roleScope_isActive.
  rewrite when_preserves by done.
  by rewrite !whenSome_preserves by done.
Qed.


Lemma listFilter_other_groups user rq :
  roleName user ∉ staffRoles →
  f_groups (listFilter user rq) = Some (GroupsIn (u_groups user)).
Proof.
  intros Hrole.
  assert (Hinc : Js.includes staffRoles (roleName user) = false).
  { unfold Js.includes. by apply bool_decide_eq_false. }
  assert (roleName user ≠ "Admin" ∧ roleName user ≠ "HOD" ∧
          roleName user ≠ "Teacher") as (HA & HH & HT).
  { unfold staffRoles in Hrole. rewrite !not_elem_of_cons in Hrole. tauto. }
  unfold listFilter. rewrite Hinc.
  rewrite whenSome_preserves by done.
  unfold roleScope.
  by rewrite !bool_decide_eq_false_2 by done.
Qed.

Lemma student_not_staff : "Student" ∉ staffRoles.
Proof. unfold staffRoles. rewrite !not_elem_of_cons. repeat split; try discriminate. apply not_elem_of_nil. Qed.

Lemma existsb_includes (xs ys : list string) :
  existsb (Js.includes xs) ys = true ↔ ∃ g, g ∈ ys ∧ g ∈ xs.
Proof.
  rewrite existsb_exists. unfold Js.includes. split.
  - intros (g & Hin & Hg). exists g.
    split; [by apply list_elem_of_In | by apply bool_decide_eq_true in Hg].
  - intros (g & Hin & Hg). exists g.
    split; [by apply list_elem_of_In | by apply bool_decide_eq_true].
Qed.

Section ListFacts.
Variable regexTest : string → string → bool.

(** Every module of a listing is a stored module that satisfies the
    query the handler built. *)
Lemma listModules_matches db user rq data pagination x :
  listModules regexTest db user rq =
    {| status := 200; payload := ModuleList data pagination |} →
  x ∈ data →
  mwc_module x ∈ modules db ∧
  matches regexTest (listFilter user rq) (mwc_module x) = true.
Proof.
  unfold listModules. case_bool_decide; [done|].
  intros [= <- _] (m & -> & Hm)%list_elem_of_fmap. simpl.
  apply paginate_subset in Hm.
  rewrite merge_sort_Permutation in Hm.
  by apply list_elem_of_filter in Hm as [? ?].
Qed.

Lemma listModules_payload db user rq r :
  listModules regexTest db user rq = r →
  (status r = 500%nat ∧ ∃ e, payload r = Error e) ∨
  (status r = 200%nat ∧ ∃ data pagination,
     r = {| status := 200; payload := ModuleList data pagination |}).
Proof.
  unfold listModules. case_bool_decide; intros <-.
  - left. split; [done|]. by eexists.
  - right. split; [done|]. by do 2 eexists.
Qed.

Lemma matches_isActive q m v :
  matches regexTest q m = true → f_isActive q = Some v → m_isActive m = v.
Proof.
  unfold matches. rewrite !andb_true_iff. intros Hm Hq.
  destruct Hm as [[[[[[[Hm _] _] _] _] _] _] _]. rewrite Hq in Hm.
  by apply bool_decide_eq_true in Hm.
Qed.


Lemma matches_groups q m c :
  matches regexTest q m = true → f_groups q = Some c →
  matchGroups m c = true.
Proof.
  unfold matches. rewrite !andb_true_iff. intros [_ Hm] Hq.
  by rewrite Hq in Hm.
Qed.

(** C3: for a user with the Student role, every module that
    [GET /api/modules] returns is assigned to one of the student's
    groups, and without the [isActive] parameter it is active. *)
Theorem listModules_student_scope db user rq data pagination :
  roleName user = "Student" →
  listModules regexTest db user rq =
    {| status := 200; payload := ModuleList data pagination |} →
  ∀ x, x ∈ data →
    (∃ g, g ∈ m_groups (mwc_module x) ∧ g ∈ u_groups user) ∧
    (lq_isActive rq = None → m_isActive (mwc_module x) = true).
Proof.
  intros Hrole Hresp x Hx.
  edestruct listModules_matches as [_ Hm]; [exact Hresp | exact Hx |].
  split.
  - assert (Hq := listFilter_other_groups user rq).
    rewrite Hrole in Hq. specialize (Hq student_not_staff).
    pose proof (matches_groups _ _ _ Hm Hq) as Hg. simpl in Hg.
    by apply existsb_includes.
  - intros Hnone.
    apply (matches_isActive _ _ _ Hm).
    by rewrite listFilter_isActive, Hnone.
Qed.
End ListFacts.

Lemma findForWrite_Some db user id module :
  findForWrite db user id = Some module →
  module ∈ modules db ∧ m_id module = id.
Proof.
  unfold findForWrite. repeat case_bool_decide; try done;
    intros [Hin HP]%findOne_Some; (split; [done|]);
    rewrite ?andb_true_iff in HP; unfold hasId in HP;
    [|destruct HP as [HP _]..]; by apply bool_decide_eq_true in HP.
Qed.

Lemma findForWrite_hod db user id module :
  roleName user = "HOD" →
  findForWrite db user id = Some module →
  Some (m_department module) = u_department user.
Proof.
  intros Hrole. unfold findForWrite. rewrite Hrole. simpl.
  intros [_ HP]%findOne_Some. apply andb_true_iff in HP as [_ HP].
  by apply bool_decide_eq_true in HP.
Qed.

Section HodFacts.
Variable regexTest : string → string → bool.

End HodFacts.



Lemma listModules_student_scope_witness :
  (∃ g, g ∈ m_groups Sample.moduleC ∧ g ∈ u_groups Sample.student) ∧
  m_isActive Sample.moduleC = true.
Proof.
  destruct (listModules_student_scope Sample.noMatch Sample.db Sample.student
              Sample.noQuery
              [withCounts Sample.db Sample.moduleC;
               withCounts Sample.db Sample.moduleA]
              {| current := 1; pages := Some 1%nat; total := 2; limit := 10 |}
              eq_refl ltac:(by vm_compute)
              (withCounts Sample.db Sample.moduleC) ltac:(by left))
    as [Hgroup Hactive].
  split; [exact Hgroup | by apply Hactive].
Defined.

Lemma replaceFirst_unique {A} (P : A → bool) (key : A → string)
    (f : A → A) (y : A) (coll : list A) :
  NoDup (key <$> coll) →
  (∀ x, P x = true ↔ key x = key y) →
  y ∈ coll →
  replaceFirst P (λ _, f y) coll = (λ x, if P x then f x else x) <$> coll.
Proof.
  intros Hnd HP Hy. induction coll as [|x coll IH]; [done|].
  rewrite fmap_cons in Hnd. apply NoDup_cons in Hnd as [Hx Hnd].
  simpl. destruct (P x) eqn:HPx.
  - assert (y = x) as ->.
    { apply elem_of_cons in Hy as [->|Hy]; [done|]. exfalso. apply Hx.
      apply HP in HPx. rewrite HPx. by apply list_elem_of_fmap_2. }
    f_equal. symmetry. etrans; [|apply list_fmap_id].
    apply list_fmap_ext. intros i z Hz.
    destruct (P z) eqn:HPz; [|done]. exfalso. apply Hx.
    apply HP in HPz. rewrite <- HPz.
    apply list_elem_of_fmap_2. by eapply list_elem_of_lookup_2.
  - f_equal. apply IH; [done|].
    apply elem_of_cons in Hy as [->|Hy]; [|done].
    assert (P x = true) by by apply HP. congruence.
Qed.

Lemma filter_length_pos {A} (P : A → Prop) `{∀ x, Decision (P x)}
    (l : list A) :
  (0 < length (filter P l))%nat ↔ ∃ x, x ∈ l ∧ P x.
Proof.
  split.
  - destruct (filter P l) as [|x l'] eqn:Hf; simpl; [lia|]. intros _.
    exists x. apply and_comm, (list_elem_of_filter P). rewrite Hf. by left.
  - intros (x & Hin & HP).
    assert (Hx : x ∈ filter P l) by by apply list_elem_of_filter.
    destruct (filter P l); [by apply elem_of_nil in Hx | simpl; lia].
Qed.

Lemma deactivate_sameExceptActive m :
  sameExceptActive m (deactivate m) ∧ m_isActive (deactivate m) = false.
Proof. by repeat split. Qed.

(** For a well-formed id of a module the user may write,
    [DELETE /api/modules/:id] answers 400 and leaves the database as it
    was when the module is used by an active assessment or is a
    prerequisite of another active module; every answer other than 400
    is the success answer, after which the stored module differs from
    before in [isActive] alone, now false, and nothing else in the database
    differs; and the request does succeed whenever no active assessment
    and no active module refers to the module. *)
Theorem deleteModule_soft_delete db user id module :
  NoDup (m_id <$> modules db) →
  Js.isMongoId id = true →
  findForWrite db user id = Some module →
  (usedByActiveAssessment db id ∨ prerequisiteOfAnother db id →
     ∃ r, deleteModule db user id = (db, r) ∧ status r = 400%nat) ∧
  (∀ db' r, deleteModule db user id = (db', r) → status r ≠ 400%nat →
     r = {| status := 200; payload := Message "Module deleted successfully" |} ∧
     db' = withModules db
             ((λ m, if hasId id m then deactivate m else m) <$> modules db) ∧
     (∀ m, sameExceptActive m (deactivate m) ∧
           m_isActive (deactivate m) = false)) ∧
  ((∀ a, a ∈ assessments db → a_isActive a = true → id ∉ a_modules a) →
   (∀ m, m ∈ modules db → m_isActive m = true → id ∉ m_prerequisites m) →
   (deleteModule db user id).2 =
     {| status := 200; payload := Message "Module deleted successfully" |}).
Proof.
  intros Hnd Hid Hfind.
  destruct (findForWrite_Some _ _ _ _ Hfind) as [Hin Hmid].
  unfold deleteModule. rewrite Hid, Hfind. simpl.
  unfold activeAssessments, dependentModules.
  split; [|split].
  - intros [(a & Ha & Hact & Hmem)|(m & Hm & _ & Hact & Hmem)].
    + rewrite bool_decide_eq_true_2; [by eexists|].
      apply filter_length_pos. by exists a.
    + case_bool_decide; [by eexists|].
      rewrite bool_decide_eq_true_2; [by eexists|].
      apply filter_length_pos. by exists m.
  - intros db' r. repeat case_bool_decide; intros [= <- <-]; try done.
    intros _. split; [done|]. split; [|apply deactivate_sameExceptActive].
    unfold saveModule. f_equal.
    rewrite (replaceFirst_unique _ m_id deactivate module).
    + apply list_fmap_ext. intros i x _. unfold hasId. simpl.
      by rewrite Hmid.
    + done.
    + intros x. by rewrite bool_decide_eq_true.
    + done.
  - intros Hass Hpre.
    rewrite bool_decide_eq_false_2.
    2: { rewrite filter_length_pos. intros (a & Ha & Hact & Hmem).
         by apply (Hass a). }
    rewrite bool_decide_eq_false_2; [done|].
    rewrite filter_length_pos. intros (m & Hm & Hmem & Hact).
    by apply (Hpre m).
Qed.


Lemma deleteModule_soft_delete_witness :
  (∃ r, deleteModule Sample.db Sample.admin Sample.modC = (Sample.db, r) ∧
        status r = 400%nat) ∧
  (deleteModule Sample.db Sample.admin Sample.modD).2 =
    {| status := 200; payload := Message "Module deleted successfully" |}.
Proof.
  split.
  - destruct (deleteModule_soft_delete Sample.db Sample.admin Sample.modC
                Sample.moduleC) as (Hreject & _).
    + apply (bool_decide_unpack _). by vm_compute.
    + reflexivity.
    + by vm_compute.
    + apply Hreject. left.
      exists {| a_id := Sample.assessment1; a_modules := [Sample.modC];
                a_isActive := true |}.
      repeat split; constructor.
  - destruct (deleteModule_soft_delete Sample.db Sample.admin Sample.modD
                Sample.moduleD) as (_ & _ & Hok).
    + apply (bool_decide_unpack _). by vm_compute.
    + reflexivity.
    + by vm_compute.
    + apply Hok.
      * intros a Ha _. revert a Ha. apply Forall_forall.
        repeat constructor; apply (bool_decide_unpack _); by vm_compute.
      * intros m Hm _. revert m Hm. apply Forall_forall.
        repeat constructor; apply (bool_decide_unpack _); by vm_compute.
Defined.

(** C8: a module that lists itself as its only prerequisite is used by no
    active assessment and is a prerequisite of no other module, and still
    [DELETE /api/modules/:id] answers 400 and leaves it active, since
    [Module.countDocuments({ prerequisites: id, isActive: true })] counts
    the module itself. Such a module is stored by
    [PUT /api/modules/:id]: in a department with two modules, the update
    that sets the prerequisites of B to B itself is answered 200, as the
    query for the valid prerequisites keeps the second of its two [_id]
    keys only. *)
Theorem deleteModule_refuses_own_prerequisite :
  let stored := updateModule Sample.acyclicDb Sample.admin Sample.modB
                  Sample.requireB in
  let db := stored.1 in
  status stored.2 = 200%nat ∧
  (∃ m, findForWrite db Sample.admin Sample.modB = Some m ∧
        m_prerequisites m = [Sample.modB] ∧ m_isActive m = true) ∧
  ¬ usedByActiveAssessment db Sample.modB ∧
  ¬ prerequisiteOfAnother db Sample.modB ∧
  deleteModule db Sample.admin Sample.modB =
    (db, reject 400
           "Cannot delete module that is a prerequisite for other modules").
Proof.
  split; [by vm_compute|].
  split; [eexists; by vm_compute|].
  split.
  { intros (a & Ha & _). vm_compute in Ha. by apply elem_of_nil in Ha. }
  split; [|by vm_compute].
  intros (m & Hm & Hid & _ & Hpre). vm_compute in Hm.
  apply elem_of_cons in Hm as [->|Hm].
  { vm_compute in Hpre. by apply elem_of_nil in Hpre. }
  apply list_elem_of_singleton in Hm as ->. by apply Hid.
Qed.

(** [Question.find] returns each stored question at most once, so a
    request whose ids are all found names no id twice. *)
Lemma found_all_NoDup db (questionIds : list string) :
  NoDup (q_id <$> questions db) →
  length (filter (λ q, q_id q ∈ questionIds ∧ q_isActive q = true)
                 (questions db)) = length questionIds →
  NoDup questionIds.
Proof.
  intros Hnd Hlen.
  set (found := filter (λ q, q_id q ∈ questionIds ∧ q_isActive q = true)
                       (questions db)) in *.
  assert (Hfnd : NoDup (q_id <$> found)).
  { apply (sublist_NoDup _ (q_id <$> questions db)); [exact Hnd|].
    apply fmap_sublist, sublist_filter. }
  assert (Hsub : q_id <$> found ⊆+ questionIds).
  { apply NoDup_submseteq; [done|].
    intros x (q & -> & Hq)%list_elem_of_fmap.
    by apply list_elem_of_filter in Hq as [[? _] _]. }
  assert (Hperm : q_id <$> found ≡ₚ questionIds).
  { apply submseteq_length_Permutation; [done|].
    by rewrite length_fmap, Hlen. }
  by rewrite <- Hperm.
Qed.

(** A request that spells its ids in lower case spells them as they are
    stored. *)
Lemma castObjectId_lower_case (ids : list string) :
  Forall (λ q, castObjectId q = q) ids → castObjectId <$> ids = ids.
Proof.
  induction 1 as [|q ids Hq _ IH]; [done|]. rewrite fmap_cons. by f_equal.
Qed.

(** When [POST /api/modules/:id/questions] succeeds, the handler has
    stored the module it read with some ids appended to its question list;
    if the request spells its ids in lower case and that list had no
    duplicate before, it has none after. The questions collection has one
    document per id, as MongoDB keeps it. *)
Theorem addQuestions_distinct_in_lower_case
    db user id (questionIds : list string) db' r :
  NoDup (q_id <$> questions db) →
  Forall (λ q, castObjectId q = q) questionIds →
  addQuestions db user id questionIds = (db', r) →
  status r = 200%nat →
  ∃ module added,
    findForWrite db user id = Some module ∧
    db' = saveModule db
            (withQuestions module (m_questions module ++ added)) ∧
    (NoDup (m_questions module) → NoDup (m_questions module ++ added)).
Proof.
  intros Hnd Hlower. unfold addQuestions.
  case_match; [by intros [= <- <-]|].
  destruct (findForWrite db user id) as [module|]; [|by intros [= <- <-]].
  case_bool_decide as Hlen; [by intros [= <- <-]|].
  case_bool_decide; [by intros [= <- <-]|].
  case_bool_decide; [by intros [= <- <-]|].
  intros [= <- <-] _.
  exists module,
    (castObjectId <$> filter (λ q, q ∉ m_questions module) questionIds).
  split; [done|]. split; [done|]. intros Hqs.
  rewrite castObjectId_lower_case in Hlen by done.
  rewrite castObjectId_lower_case.
  2: { apply Forall_forall. intros x [_ Hx]%list_elem_of_filter.
       by apply (proj1 (Forall_forall _ _) Hlower). }
  apply NoDup_app. split; [done|]. split.
  - intros x Hx Hadd. by apply list_elem_of_filter in Hadd as [? _].
  - apply NoDup_filter. apply (found_all_NoDup db); [done|].
    by destruct (decide (length (filter (λ q, q_id q ∈ questionIds ∧
                                               q_isActive q = true)
                                        (questions db))
                         = length questionIds)).
Qed.

Lemma addQuestions_distinct_in_lower_case_witness :
  ∃ module added,
    findForWrite Sample.db Sample.admin Sample.modC = Some module ∧
    (addQuestions Sample.db Sample.admin Sample.modC
       [Sample.question1; Sample.question2]).1 =
      saveModule Sample.db
        (withQuestions module (m_questions module ++ added)) ∧
    (NoDup (m_questions module) → NoDup (m_questions module ++ added)).
Proof.
  apply (addQuestions_distinct_in_lower_case Sample.db Sample.admin
           Sample.modC [Sample.question1; Sample.question2] _
           (addQuestions Sample.db Sample.admin Sample.modC
              [Sample.question1; Sample.question2]).2).
  - apply (bool_decide_unpack _). by vm_compute.
  - apply (bool_decide_unpack _). by vm_compute.
  - by destruct (addQuestions _ _ _ _).
  - by vm_compute.
Defined.

(** C10: module C holds question 1 once. The request that names question 1
    with its letters in upper case is answered 200, and afterwards the
    question list of C holds question 1 twice: the cast in [Question.find]
    finds the question, [module.questions.includes] compares the upper-case
    text with the stored id and does not filter it out, and [push] stores
    the id it is cast to. *)
Theorem addQuestions_stores_question_twice :
  let out := addQuestions Sample.db Sample.admin Sample.modC
               ["DDDDDDDDDDDDDDDDDDDDDD01"] in
  Js.isMongoId "DDDDDDDDDDDDDDDDDDDDDD01" = true ∧
  (∃ m, findForWrite Sample.db Sample.admin Sample.modC = Some m ∧
        NoDup (m_questions m)) ∧
  status out.2 = 200%nat ∧
  (∃ m', findForWrite out.1 Sample.admin Sample.modC = Some m' ∧
         m_questions m' = [Sample.question1; Sample.question1] ∧
         ¬ NoDup (m_questions m')).
Proof.
  split; [by vm_compute|]. split.
  { eexists. split; [by vm_compute|]. simpl.
    apply (bool_decide_unpack _). by vm_compute. }
  split; [by vm_compute|].
  eexists. split; [by vm_compute|]. split; [done|]. simpl.
  intros Hnd. apply NoDup_cons in Hnd as [Hnotin _].
  apply Hnotin. by left.
Qed.

(** **** The cycle check *)

Section CycleCheck.
Variable loaded : list ModuleDoc.

Local Abbreviation E := (loadedEdge loaded).
Local Abbreviation dfsInv := (dfsInv loaded).
Local Abbreviation noCycleFromFinished := (noCycleFromFinished loaded).
Local Abbreviation visitSpec := (visitSpec loaded).
Local Abbreviation returnsWithin := (returnsWithin loaded).

Lemma finished_closed st a x :
  dfsInv st → a ∈ finished st → rtc E a x → x ∈ finished st.
Proof.
  intros [_ Hclosed] Ha Hreach. induction Hreach as [|a b x Hab _ IH]; [done|].
  apply IH. by apply (Hclosed a).
Qed.

Lemma forEachPrerequisite_spec visit prereqs st b st' :
  visitSpec visit →
  dfsInv st → noCycleFromFinished st →
  (∀ p s, p ∈ prereqs → s ∈ recursionStack st → tc E s p) →
  forEachPrerequisite visit prereqs st = Some (b, st') →
  if b then ∃ p x, p ∈ prereqs ∧ rtc E p x ∧ tc E x x
  else recursionStack st' = recursionStack st ∧
       visited st ⊆ visited st' ∧
       (∀ p, p ∈ prereqs → p ∈ finished st') ∧
       dfsInv st' ∧ noCycleFromFinished st'.
Proof.
  intros Hvisit. revert st.
  induction prereqs as [|p prereqs IH]; intros st Hinv Hnc Hpath; simpl.
  - intros [= <- <-]. split; [done|]. split; [done|]. split; [|done].
    intros p Hp. by apply elem_of_nil in Hp.
  - destruct (visit st p) as [[[] st1]|] eqn:Hp; [| |done].
    + intros [= <- <-].
      destruct (Hvisit st p true st1 Hinv Hnc) as (x & Hx & Hcyc); [|done|].
      { intros s Hs. apply Hpath; [by left | done]. }
      exists p, x. split; [by left | done].
    + destruct (Hvisit st p false st1 Hinv Hnc)
        as (Hstack & Hvis & Hfin & Hinv1 & Hnc1); [|done|].
      { intros s Hs. apply Hpath; [by left | done]. }
      intros Hrest. specialize (IH st1 Hinv1 Hnc1).
      destruct b.
      * destruct IH as (q & x & Hq & Hx); [|done|].
        { intros q s Hq Hs. rewrite Hstack in Hs.
          apply Hpath; [by right | done]. }
        exists q, x. split; [by right | done].
      * destruct IH as (Hstack2 & Hvis2 & Hfin2 & Hinv2 & Hnc2); [|done|].
        { intros q s Hq Hs. rewrite Hstack in Hs.
          apply Hpath; [by right | done]. }
        split; [congruence|]. split; [by etrans|]. split; [|done].
        intros q [->|Hq]%elem_of_cons; [|by apply Hfin2].
        unfold finished in *. rewrite Hstack2.
        apply elem_of_difference in Hfin as [Hv Hs].
        apply elem_of_difference. split; [by apply Hvis2 | done].
Qed.

Lemma tc_first {A} (R : relation A) x y :
  tc R x y → ∃ c, R x c ∧ rtc R c y.
Proof.
  intros [a b Hab|a b c Hab Hbc].
  - by exists b.
  - exists b. split; [done | by apply tc_rtc].
Qed.

Lemma prerequisitesOf_edge cur p :
  p ∈ prerequisitesOf loaded cur ↔ E cur p.
Proof. done. Qed.

(** The search function meets its specification at every depth. *)
Lemma hasCycle_spec fuel : visitSpec (hasCycle fuel loaded).
Proof.
  induction fuel as [|fuel IH]; intros st cur b st' Hinv Hnc Hpath; [done|].
  simpl. case_bool_decide as Hstack.
  { intros [= <- <-]. exists cur. split; [done | by apply Hpath]. }
  case_bool_decide as Hvis.
  { intros [= <- <-]. split; [done|]. split; [done|]. split; [|done].
    by apply elem_of_difference. }
  set (st1 := {| visited := {[cur]} ∪ visited st;
                 recursionStack := {[cur]} ∪ recursionStack st |}).
  assert (Hfin1 : finished st1 = finished st).
  { unfold finished, st1. simpl. apply set_eq. intros x.
    rewrite !elem_of_difference, !elem_of_union, !elem_of_singleton.
    split; [tauto|]. intros [Hx Hs]. split; [by right|].
    intros [->|?]; done. }
  assert (Hinv1 : dfsInv st1).
  { destruct Hinv as [Hsub Hclosed]. split.
    - unfold st1. simpl. intros x.
      rewrite !elem_of_union. intros [?|?]; [by left | right; by apply Hsub].
    - rewrite Hfin1. apply Hclosed. }
  assert (Hnc1 : noCycleFromFinished st1).
  { unfold ModulesRoute.noCycleFromFinished. rewrite Hfin1. apply Hnc. }
  assert (Hpath1 : ∀ p s, p ∈ prerequisitesOf loaded cur →
                     s ∈ recursionStack st1 → tc E s p).
  { intros p s Hp. unfold st1. simpl.
    rewrite elem_of_union, elem_of_singleton. intros [->|Hs].
    - by apply tc_once.
    - eapply tc_r; [by apply Hpath | done]. }
  destruct (forEachPrerequisite (hasCycle fuel loaded)
              (prerequisitesOf loaded cur) st1) as [[[] st2]|] eqn:Hloop;
    [| |done].
  - intros [= <- <-].
    destruct (forEachPrerequisite_spec _ _ _ _ _ IH Hinv1 Hnc1 Hpath1 Hloop)
      as (p & x & Hp & Hx & Hcyc).
    exists x. split; [|done]. by eapply rtc_l.
  - intros [= <- <-].
    destruct (forEachPrerequisite_spec _ _ _ _ _ IH Hinv1 Hnc1 Hpath1 Hloop)
      as (Hstack2 & Hvis2 & Hfin2 & Hinv2 & Hnc2).
    simpl. rewrite Hstack2. unfold st1 at 1. simpl.
    assert (Hpop : ({[cur]} ∪ recursionStack st) ∖ {[cur]}
                   = recursionStack st).
    { apply set_eq. intros x.
      rewrite elem_of_difference, elem_of_union, elem_of_singleton.
      split; [tauto|]. intros Hx. split; [by right|]. by intros ->. }
    rewrite Hpop.
    assert (Hcur2 : cur ∈ visited st2).
    { apply Hvis2. unfold st1. simpl. apply elem_of_union. left.
      by apply elem_of_singleton. }
    assert (Hfin3 : ∀ x, x ∈ visited st2 ∖ recursionStack st ↔
                         x ∈ finished st2 ∨ x = cur).
    { intros x. unfold finished. rewrite Hstack2. unfold st1. simpl.
      rewrite !elem_of_difference, elem_of_union, elem_of_singleton.
      split.
      - intros [Hx Hs]. destruct (decide (x = cur)); [by right|].
        left. split; [done|]. tauto.
      - intros [[Hx Hs]| ->]; [tauto | done]. }
    assert (Hnot2 : cur ∉ finished st2).
    { unfold finished. rewrite Hstack2. unfold st1. simpl.
      rewrite elem_of_difference, elem_of_union, elem_of_singleton. tauto. }
    split; [done|]. split.
    { etrans; [|exact Hvis2]. unfold st1. simpl.
      intros x Hx. apply elem_of_union. by right. }
    split; [unfold finished; simpl; apply Hfin3; by right|].
    split; [split|].
    + simpl. destruct Hinv as [Hsub _]. intros x Hx.
      apply Hvis2. unfold st1. simpl. apply elem_of_union. right.
      by apply Hsub.
    + unfold finished at 1 2. simpl. intros a c Ha Hac.
      apply Hfin3. left. apply Hfin3 in Ha as [Ha| ->].
      * by apply (proj2 Hinv2 a).
      * by apply Hfin2.
    + unfold ModulesRoute.noCycleFromFinished, finished at 1. simpl.
      intros a x Ha Hreach Hcyc. apply Hfin3 in Ha as [Ha| ->].
      { by apply (Hnc2 a x). }
      apply rtc_inv in Hreach as [<- |(c & Hc & Hreach)].
      * apply tc_first in Hcyc as (c & Hc & Hback).
        apply Hnot2. apply (finished_closed st2 c); [done | | done].
        by apply Hfin2.
      * apply (Hnc2 c x); [by apply Hfin2 | done | done].
Qed.
Lemma forEachPrerequisite_total n visit prereqs st :
  returnsWithin n visit →
  (size (loadedIds loaded ∖ visited st) ≤ n)%nat →
  ∃ b st', forEachPrerequisite visit prereqs st = Some (b, st') ∧
           visited st ⊆ visited st'.
Proof.
  intros Hvisit. revert st.
  induction prereqs as [|p prereqs IH]; intros st Hsize; simpl.
  - by exists false, st.
  - destruct (Hvisit st p Hsize) as (b & st1 & -> & Hvis).
    destruct b; [by exists true, st1|].
    destruct (IH st1) as (b & st2 & -> & Hvis2).
    + etrans; [|exact Hsize]. apply subseteq_size.
      intros x. rewrite !elem_of_difference. intros [Hx Hn].
      split; [done|]. intros Hv. by apply Hn, Hvis.
    + exists b, st2. split; [done | by etrans].
Qed.

Lemma prerequisitesOf_not_loaded cur :
  cur ∉ loadedIds loaded → prerequisitesOf loaded cur = [].
Proof.
  intros Hcur. unfold prerequisitesOf.
  destruct (find (hasId cur) loaded) as [m|] eqn:Hfind; [|done].
  exfalso. apply Hcur. apply find_some in Hfind as [Hin Hid].
  unfold loadedIds. apply elem_of_list_to_set, list_elem_of_fmap.
  exists m. split; [|by apply list_elem_of_In].
  symmetry. by apply bool_decide_eq_true in Hid.
Qed.

Lemma hasCycle_unfold fuel st cur :
  hasCycle (S fuel) loaded st cur =
  if bool_decide (cur ∈ recursionStack st) then Some (true, st)
  else if bool_decide (cur ∈ visited st) then Some (false, st)
  else
    let st1 := {| visited := {[cur]} ∪ visited st;
                  recursionStack := {[cur]} ∪ recursionStack st |} in
    match forEachPrerequisite (hasCycle fuel loaded)
            (prerequisitesOf loaded cur) st1 with
    | None => None
    | Some (true, st2) => Some (true, st2)
    | Some (false, st2) =>
        Some (false,
              {| visited := visited st2;
                 recursionStack := recursionStack st2 ∖ {[cur]} |})
    end.
Proof. done. Qed.

Lemma hasCycle_total fuel : returnsWithin fuel (hasCycle (S fuel) loaded).
Proof.
  induction fuel as [|fuel IH]; intros st cur Hsize;
    rewrite hasCycle_unfold; cbv zeta.
  - case_bool_decide; [by exists true, st|].
    case_bool_decide as Hvis; [by exists false, st|].
    rewrite prerequisitesOf_not_loaded.
    + simpl. eexists false, _. split; [done|]. simpl.
      intros x Hx. apply elem_of_union. by right.
    + intros Hcur. assert (Hpos : cur ∈ loadedIds loaded ∖ visited st)
        by by apply elem_of_difference.
      assert (loadedIds loaded ∖ visited st ≡ ∅) as Hempty.
      { apply size_empty_iff. lia. }
      rewrite Hempty in Hpos. by apply not_elem_of_empty in Hpos.
  - case_bool_decide; [by exists true, st|].
    case_bool_decide as Hvis; [by exists false, st|].
    set (st1 := {| visited := {[cur]} ∪ visited st;
                   recursionStack := {[cur]} ∪ recursionStack st |}).
    assert (Hgrow : visited st ⊆ visited st1).
    { unfold st1. simpl. intros x Hx. apply elem_of_union. by right. }
    destruct (decide (cur ∈ loadedIds loaded)) as [Hcur|Hcur].
    + destruct (forEachPrerequisite_total fuel (hasCycle (S fuel) loaded)
                  (prerequisitesOf loaded cur) st1 IH)
        as (b & st2 & Hloop & Hvis2).
      { assert (Hlt : (size (loadedIds loaded ∖ visited st1)
                       < size (loadedIds loaded ∖ visited st))%nat);
          [|lia].
        apply subset_size. split.
        - intros x. rewrite !elem_of_difference. intros [Hx Hn].
          split; [done|]. intros Hv. by apply Hn, Hgrow.
        - intros Hsub. specialize (Hsub cur).
          rewrite !elem_of_difference in Hsub.
          destruct Hsub as [_ Hn]; [done|]. apply Hn. unfold st1. simpl.
          apply elem_of_union. left. by apply elem_of_singleton. }
      fold st1. rewrite Hloop.
      destruct b; eexists _, _; (split; [done|]); simpl; by etrans.
    + rewrite prerequisitesOf_not_loaded by done. simpl.
      by eexists false, _.
Qed.
End CycleCheck.

Lemma tc_subrel {A} (R1 R2 : relation A) x y :
  (∀ a b, R1 a b → R2 a b) → tc R1 x y → tc R2 x y.
Proof.
  intros Hsub. induction 1 as [a b Hab|a b c Hab _ IH].
  - by apply tc_once, Hsub.
  - eapply tc_l; [by apply Hsub | done].
Qed.

Lemma size_loadedIds loaded : (size (loadedIds loaded) ≤ length loaded)%nat.
Proof.
  unfold loadedIds. induction loaded as [|m loaded IH]; simpl.
  - change (size (∅ : gset string) ≤ 0)%nat. by rewrite size_empty.
  - rewrite size_union_alt, size_singleton. simpl. apply le_n_S.
    etrans; [|exact IH]. apply subseteq_size.
    intros x. rewrite elem_of_difference. tauto.
Qed.

(** [checkCircularDependency] always returns. *)
Lemma checkCircularDependency_total db departmentId moduleIds :
  is_Some (checkCircularDependency db departmentId moduleIds).
Proof.
  unfold checkCircularDependency, checkCircularDependencyWith.
  set (loaded := loadedModules db departmentId moduleIds).
  destruct (forEachPrerequisite_total loaded (length loaded)
              (hasCycle (S (length loaded)) loaded) moduleIds
              {| visited := ∅; recursionStack := ∅ |})
    as (b & st' & -> & _).
  - apply hasCycle_total.
  - etrans; [|apply size_loadedIds]. apply subseteq_size.
    intros x. rewrite elem_of_difference. tauto.
  - by eexists.
Qed.

(** What the function decides: whether a cycle can be reached from one of
    the ids along edges that leave the modules it has loaded. *)
Lemma checkCircularDependency_decides db departmentId moduleIds b :
  checkCircularDependency db departmentId moduleIds = Some b →
  b = true ↔
  cycleReachable (loadedEdge (loadedModules db departmentId moduleIds))
    moduleIds.
Proof.
  unfold checkCircularDependency, checkCircularDependencyWith.
  set (loaded := loadedModules db departmentId moduleIds).
  destruct (forEachPrerequisite _ moduleIds _) as [[r st']|] eqn:Hloop;
    [|done].
  intros [= <-]. simpl.
  pose proof (forEachPrerequisite_spec loaded _ moduleIds
                {| visited := ∅; recursionStack := ∅ |} r st'
                (hasCycle_spec loaded (S (length loaded)))) as Hspec.
  assert (Hempty : ∀ a, a ∉ finished {| visited := ∅; recursionStack := ∅ |}).
  { intros a Ha. unfold finished in Ha. simpl in Ha.
    apply elem_of_difference in Ha as [Ha _].
    by apply not_elem_of_empty in Ha. }
  specialize (Hspec).
  assert (Hinv0 : dfsInv loaded {| visited := ∅; recursionStack := ∅ |}).
  { split; [done|]. intros a c Ha. by apply Hempty in Ha. }
  assert (Hnc0 : noCycleFromFinished loaded
                   {| visited := ∅; recursionStack := ∅ |}).
  { intros a x Ha. by apply Hempty in Ha. }
  specialize (Hspec Hinv0 Hnc0).
  assert (Hpath0 : ∀ p s, p ∈ moduleIds →
            s ∈ recursionStack {| visited := ∅; recursionStack := ∅ |} →
            tc (loadedEdge loaded) s p).
  { intros p s _ Hs. simpl in Hs. by apply not_elem_of_empty in Hs. }
  specialize (Hspec Hpath0 Hloop).
  destruct r.
  - destruct Hspec as (p & x & Hp & Hx & Hcyc).
    split; [|done]. intros _. by exists p, x.
  - destruct Hspec as (_ & _ & Hfin & _ & Hnc).
    split; [done|]. intros (i & x & Hi & Hx & Hcyc). exfalso.
    apply (Hnc i x); [by apply Hfin | done | done].
Qed.

Lemma loadedEdge_prerequisiteEdge db departmentId moduleIds a b :
  loadedEdge (loadedModules db departmentId moduleIds) a b →
  prerequisiteEdge db departmentId a b.
Proof.
  unfold loadedEdge, prerequisitesOf, prerequisiteEdge, loadedModules.
  destruct (find _ _) as [m|] eqn:Hfind; [|by intros ?%elem_of_nil].
  intros Hb. apply find_some in Hfind as [Hin Hid].
  apply list_elem_of_In, list_elem_of_filter in Hin as [[_ Hd] Hin].
  apply bool_decide_eq_true in Hid. by exists m.
Qed.

(** A positive answer is never wrong: the department's prerequisite graph
    then has a cycle reachable from one of the ids. *)
Lemma checkCircularDependency_sound db departmentId moduleIds :
  checkCircularDependency db departmentId moduleIds = Some true →
  cycleReachable (prerequisiteEdge db departmentId) moduleIds.
Proof.
  intros Hcheck.
  apply checkCircularDependency_decides in Hcheck as [Hcyc _].
  destruct (Hcyc eq_refl) as (i & x & Hi & Hx & Hloop).
  exists i, x. split; [done|]. split.
  - eapply rtc_subrel; [|exact Hx].
    intros ??. apply loadedEdge_prerequisiteEdge.
  - eapply tc_subrel; [|exact Hloop].
    intros ??. apply loadedEdge_prerequisiteEdge.
Qed.

(** C1 fails on the code: modules A and B of one department are each
    other's prerequisite, so a cycle is reachable from A in the
    department's prerequisite graph; asked about [A] alone the function
    loads only A, never follows B's edge and answers false, and a module
    with the prerequisite list [A] is created. *)
Theorem checkCircularDependency_misses_cycle :
  cycleReachable (prerequisiteEdge Sample.db Sample.deptCS) [Sample.modA] ∧
  checkCircularDependency Sample.db Sample.deptCS [Sample.modA] = Some false ∧
  status (createModule Sample.env Sample.db Sample.admin
            (Sample.newModuleIn Sample.deptCS (Some [Sample.modA]))).2
    = 201%nat.
Proof.
  split; [|split; by vm_compute].
  exists Sample.modA, Sample.modA. split; [by left|]. split; [done|].
  apply (tc_l _ _ Sample.modB); [|apply tc_once].
  - exists Sample.moduleA. repeat split; [by left | by left].
  - exists Sample.moduleB. repeat split; [right; by left | by left].
Qed.

(** With both modules among the ids the same cycle is found. *)
Example checkCircularDependency_finds_cycle :
  checkCircularDependency Sample.db Sample.deptCS [Sample.modA; Sample.modB]
    = Some true.
Proof. by vm_compute. Qed.

(** The update handler checks the prerequisites that are stored, not the
    ones it is about to store: making A require B, which requires A, passes
    the check, and the stored graph then has a cycle. *)
Example updateModule_stores_cycle :
  let result := updateModule Sample.acyclicDb Sample.admin Sample.modA
                  Sample.requireB in
  status result.2 = 200%nat ∧
  cycleReachable (prerequisiteEdge result.1 Sample.deptCS) [Sample.modA].
Proof.
  split; [by vm_compute|].
  exists Sample.modA, Sample.modA. split; [by left|]. split; [done|].
  apply (tc_l _ _ Sample.modB); [|apply tc_once].
  - eexists. split; [by left|]. by repeat split; [left].
  - eexists. split; [right; by left|]. by repeat split; [left].
Qed.

Lemma createModuleValidation_department b :
  createModuleValidation b = true → ∃ d, cb_department b = Some d.
Proof.
  unfold createModuleValidation. rewrite !andb_true_iff.
  intros [[_ Hd] _]. destruct (cb_department b) as [d|]; [by exists d | done].
Qed.

Lemma checkGroups_not_circular db user department ids r :
  checkGroups db user department ids = Some r →
  payload r ≠ Error "Circular dependency detected in prerequisites".
Proof.
  unfold checkGroups. repeat case_bool_decide; by intros [= <-].
Qed.

Ltac other_answer :=
  let Heq := fresh "Heq" in
  let Hp := fresh "Hp" in
  intros Heq Hp; simpl in Heq; inversion Heq; subst;
  unfold reject in Hp; simpl in Hp;
  discriminate Hp.

(** Creation is refused with the circular-dependency error only when the
    request has prerequisites and the check on them returned true; the
    answer is then 400 and nothing is stored. *)
Lemma createModule_circular_rejection env db user b db' r :
  createModule env db user b = (db', r) →
  payload r = Error "Circular dependency detected in prerequisites" →
  db' = db ∧ status r = 400%nat ∧
  ∃ d ps, cb_department b = Some d ∧ cb_prerequisites b = Some ps ∧
          ps ≠ [] ∧ checkCircularDependency db d ps = Some true.
Proof.
  unfold createModule.
  destruct (createModuleValidation b) eqn:Hval; simpl; [|other_answer].
  destruct (createModuleValidation_department b Hval) as [d Hd].
  rewrite Hd. simpl.
  destruct (findOne _ (departments db)) as [doc|]; [|other_answer].
  destruct (d_isActive doc); simpl; [|other_answer].
  destruct (bool_decide (roleName user = "HOD") && _).
  { other_answer. }
  destruct (if bool_decide (0 < length (Js.orDefault (cb_groups b) []))%nat
            then _ else _) as [r0|] eqn:Hgroups.
  { intros Heq Hp. inversion Heq; subst. case_bool_decide; [|done].
    by destruct (checkGroups_not_circular _ _ _ _ _ Hgroups). }
  clear Hgroups. destruct (cb_prerequisites b) as [ps|]; simpl.
  - case_bool_decide as Hlen; [|other_answer].
    case_bool_decide; [other_answer|].
    unfold checkCycle.
    destruct (checkCircularDependency db d ps) as [[]|] eqn:Hcheck;
      [|other_answer..].
    intros Heq _. inversion Heq; subst. split; [done|]. split; [done|].
    exists d, ps. repeat split; try done. intros ->. simpl in Hlen. lia.
  - other_answer.
Qed.

(** **** More on the cycle check *)

Lemma forEachPrerequisite_mono visit1 visit2 prereqs st r :
  (∀ st' cur r', visit1 st' cur = Some r' → visit2 st' cur = Some r') →
  forEachPrerequisite visit1 prereqs st = Some r →
  forEachPrerequisite visit2 prereqs st = Some r.
Proof.
  intros Hvisit. revert st.
  induction prereqs as [|p prereqs IH]; intros st; simpl; [done|].
  destruct (visit1 st p) as [[b st1]|] eqn:Hp; [|done].
  rewrite (Hvisit _ _ _ Hp). destruct b; [done | apply IH].
Qed.

(** More fuel never changes a result. *)
Lemma hasCycle_fuel_mono loaded fuel1 fuel2 st cur r :
  (fuel1 ≤ fuel2)%nat →
  hasCycle fuel1 loaded st cur = Some r →
  hasCycle fuel2 loaded st cur = Some r.
Proof.
  revert fuel2 st cur r.
  induction fuel1 as [|fuel1 IH]; intros fuel2 st cur r Hle; [done|].
  destruct fuel2 as [|fuel2]; [lia|].
  rewrite !hasCycle_unfold. cbv zeta.
  case_bool_decide; [done|]. case_bool_decide; [done|].
  destruct (forEachPrerequisite (hasCycle fuel1 loaded) _ _)
    as [[b st2]|] eqn:Hloop; [|done].
  rewrite (forEachPrerequisite_mono _ (hasCycle fuel2 loaded) _ _ _
             ltac:(intros ???; apply IH; lia) Hloop).
  done.
Qed.

(** X1: the recursion of [checkCircularDependency] goes at most one level
    deeper than there are loaded modules: the function returns, and any
    larger bound on the depth gives the same answer. *)
Theorem checkCircularDependency_depth_bound db departmentId moduleIds fuel :
  (length (loadedModules db departmentId moduleIds) < fuel)%nat →
  ∃ b, checkCircularDependency db departmentId moduleIds = Some b ∧
       checkCircularDependencyWith fuel db departmentId moduleIds = Some b.
Proof.
  intros Hfuel.
  destruct (checkCircularDependency_total db departmentId moduleIds)
    as [b Hb].
  exists b. split; [done|].
  unfold checkCircularDependency, checkCircularDependencyWith in *.
  destruct (forEachPrerequisite _ moduleIds _) as [[b' st']|] eqn:Hloop;
    [|done].
  rewrite (forEachPrerequisite_mono _
             (hasCycle fuel (loadedModules db departmentId moduleIds))
             _ _ _
             ltac:(intros ???;
                   apply (hasCycle_fuel_mono _
                            (S (length (loadedModules db departmentId
                                                     moduleIds)))); lia)
             Hloop).
  done.
Qed.

Lemma checkCircularDependency_depth_bound_witness :
  ∃ b, checkCircularDependency Sample.db Sample.deptCS
         [Sample.modA; Sample.modB] = Some b ∧
       checkCircularDependencyWith 7 Sample.db Sample.deptCS
         [Sample.modA; Sample.modB] = Some b.
Proof.
  apply checkCircularDependency_depth_bound. vm_compute. lia.
Defined.

(** X2: [checkCircularDependency] always answers, and its answer is true
    exactly when a cycle can be reached from one of the given ids along
    prerequisite edges that leave the modules it has loaded (the modules of
    the department whose id is among the given ids). *)
Theorem checkCircularDependency_answer db departmentId moduleIds :
  ∃ b, checkCircularDependency db departmentId moduleIds = Some b ∧
       (b = true ↔
        cycleReachable (loadedEdge (loadedModules db departmentId moduleIds))
          moduleIds).
Proof.
  destruct (checkCircularDependency_total db departmentId moduleIds)
    as [b Hb].
  exists b. split; [done|]. by apply checkCircularDependency_decides.
Qed.

Lemma unique_by_id (l : list ModuleDoc) m m' :
  NoDup (m_id <$> l) → m ∈ l → m' ∈ l → m_id m = m_id m' → m = m'.
Proof.
  intros Hnd Hm Hm' Hid.
  apply list_elem_of_lookup in Hm as [i Hi].
  apply list_elem_of_lookup in Hm' as [j Hj].
  assert (i = j) as ->.
  { apply (NoDup_lookup (m_id <$> l) i j (m_id m)); [done| |].
    - by rewrite list_lookup_fmap, Hi.
    - by rewrite list_lookup_fmap, Hj, Hid. }
  congruence.
Qed.

(** An edge of the department's graph that leaves one of the given ids is
    an edge the function follows, when module ids are unique. *)
Lemma prerequisiteEdge_loadedEdge db departmentId moduleIds a b :
  NoDup (m_id <$> modules db) →
  a ∈ moduleIds →
  prerequisiteEdge db departmentId a b →
  loadedEdge (loadedModules db departmentId moduleIds) a b.
Proof.
  intros Hnd Ha (m & Hm & Hd & Hid & Hb).
  unfold loadedEdge, prerequisitesOf.
  assert (Hloaded : m ∈ loadedModules db departmentId moduleIds).
  { apply list_elem_of_filter. by rewrite Hid. }
  destruct (find _ _) as [m'|] eqn:Hfind.
  - apply find_some in Hfind as [Hin Hid'].
    apply bool_decide_eq_true in Hid'.
    apply list_elem_of_In, list_elem_of_filter in Hin as [_ Hin].
    by rewrite (unique_by_id (modules db) m' m Hnd Hin Hm ltac:(congruence)).
  - exfalso. apply list_elem_of_In in Hloaded.
    pose proof (find_none _ _ Hfind m Hloaded) as Hno.
    apply bool_decide_eq_false in Hno. by apply Hno.
Qed.

(** X3: a true answer is never wrong, and when the given ids are closed
    under prerequisites (every prerequisite of a listed module of the
    department is listed too) and module ids are unique, the answer is
    exact for the department's whole prerequisite graph. *)
Theorem checkCircularDependency_exact_when_closed db departmentId moduleIds :
  (checkCircularDependency db departmentId moduleIds = Some true →
   cycleReachable (prerequisiteEdge db departmentId) moduleIds) ∧
  (NoDup (m_id <$> modules db) →
   (∀ a b, a ∈ moduleIds → prerequisiteEdge db departmentId a b →
           b ∈ moduleIds) →
   cycleReachable (prerequisiteEdge db departmentId) moduleIds →
   checkCircularDependency db departmentId moduleIds = Some true).
Proof.
  split; [apply checkCircularDependency_sound|].
  intros Hnd Hclosed (i & x & Hi & Hreach & Hcyc).
  assert (Hrtc : ∀ a c, a ∈ moduleIds →
            rtc (prerequisiteEdge db departmentId) a c →
            c ∈ moduleIds ∧
            rtc (loadedEdge (loadedModules db departmentId moduleIds)) a c).
  { intros a c Ha Hac. induction Hac as [|a b c Hab _ IH]; [done|].
    destruct (IH (Hclosed a b Ha Hab)) as [Hc Hbc]. split; [done|].
    eapply rtc_l; [|exact Hbc]. by apply prerequisiteEdge_loadedEdge. }
  destruct (Hrtc i x Hi Hreach) as [Hx Hreach'].
  assert (Hcyc' : tc (loadedEdge (loadedModules db departmentId moduleIds)) x x).
  { apply tc_first in Hcyc as (c & Hxc & Hcx).
    destruct (Hrtc c x (Hclosed x c Hx Hxc) Hcx) as [_ Hcx'].
    eapply tc_rtc_r; [apply tc_once|exact Hcx'].
    by apply prerequisiteEdge_loadedEdge. }
  destruct (checkCircularDependency_total db departmentId moduleIds)
    as [b Hb].
  rewrite Hb. f_equal.
  apply (checkCircularDependency_decides _ _ _ _ Hb). by exists i, x.
Qed.

Lemma checkCircularDependency_exact_when_closed_witness :
  checkCircularDependency Sample.db Sample.deptCS
    [Sample.modA; Sample.modB] = Some true.
Proof.
  apply checkCircularDependency_exact_when_closed.
  - apply (bool_decide_unpack _). by vm_compute.
  - intros a b Ha (m & Hm & _ & Hid & Hb). subst a. simpl in Hm.
    repeat (apply elem_of_cons in Hm as [->|Hm]);
      try (by apply elem_of_nil in Hm);
      simpl in Hb;
      repeat (apply elem_of_cons in Hb as [->|Hb]);
      try (by apply elem_of_nil in Hb);
      apply (bool_decide_unpack _); by vm_compute.
  - exists Sample.modA, Sample.modA. split; [by left|]. split; [done|].
    apply (tc_l _ _ Sample.modB); [|apply tc_once].
    + exists Sample.moduleA. repeat split; [by left | by left].
    + exists Sample.moduleB. repeat split; [right; by left | by left].
Defined.

(** **** Creating a module *)

(** A [find] by [$in] over a collection with one document per id that
    returns as many documents as ids were asked for has found each id,
    once. *)
Lemma found_all_perm {A} (key : A → string) (P : A → Prop)
    `{∀ x, Decision (P x)} (coll : list A) (ids : list string) :
  NoDup (key <$> coll) →
  length (filter (λ x, key x ∈ ids ∧ P x) coll) = length ids →
  key <$> filter (λ x, key x ∈ ids ∧ P x) coll ≡ₚ ids.
Proof.
  intros Hnd Hlen.
  apply submseteq_length_Permutation; [|by rewrite length_fmap, Hlen].
  apply NoDup_submseteq.
  - apply (sublist_NoDup _ (key <$> coll)); [exact Hnd|].
    apply fmap_sublist, sublist_filter.
  - intros x (q & -> & Hq)%list_elem_of_fmap.
    by apply list_elem_of_filter in Hq as [[? _] _].
Qed.

Lemma checkGroups_status db user department ids r :
  checkGroups db user department ids = Some r → status r ≠ 201%nat.
Proof.
  unfold checkGroups. repeat case_bool_decide; by intros [= <-].
Qed.

Lemma checkCycle_status db department ids failure r :
  checkCycle db department ids failure = Some r → status r ≠ 201%nat.
Proof.
  unfold checkCycle. destruct (checkCircularDependency _ _ _) as [[]|];
    by intros [= <-].
Qed.

(** X5: every answer of [POST /api/modules] other than 201 leaves the
    database as it was. A 201 answer adds exactly one module: it carries
    the new id, is active, belongs to the requested department, which
    exists and is active (and is the HOD's own when a HOD asks), is owned by
    the requesting user and starts without questions and notes. When module
    ids are unique, each of its prerequisites is an active module of the
    same department. *)
Theorem createModule_effect env db user b db' r :
  createModule env db user b = (db', r) →
  (status r ≠ 201%nat → db' = db) ∧
  (status r = 201%nat →
   ∃ m departmentDoc,
     db' = insertModule db m ∧
     m_id m = newObjectId env ∧ m_isActive m = true ∧
     m_createdBy m = u_id user ∧ m_questions m = [] ∧ m_notes m = [] ∧
     cb_department b = Some (m_department m) ∧
     departmentDoc ∈ departments db ∧
     d_id departmentDoc = m_department m ∧ d_isActive departmentDoc = true ∧
     (roleName user = "HOD" → Some (m_department m) = u_department user) ∧
     (NoDup (m_id <$> modules db) →
      ∀ p, p ∈ m_prerequisites m →
        ∃ pm, pm ∈ modules db ∧ m_id pm = p ∧
              m_department pm = m_department m ∧ m_isActive pm = true)).
Proof.
  unfold createModule.
  destruct (createModuleValidation b) eqn:Hval; simpl.
  2: { intros [= <- <-]. split; [done | by intros ?]. }
  destruct (createModuleValidation_department b Hval) as [d Hd].
  rewrite Hd. simpl.
  destruct (findOne _ (departments db)) as [doc|] eqn:Hdoc.
  2: { intros [= <- <-]. split; [done | by intros ?]. }
  apply findOne_Some in Hdoc as [Hdoc Hdid].
  apply bool_decide_eq_true in Hdid.
  destruct (d_isActive doc) eqn:Hact; simpl.
  2: { intros [= <- <-]. split; [done | by intros ?]. }
  destruct (bool_decide (roleName user = "HOD") && _) eqn:Hhod.
  { intros [= <- <-]. split; [done | by intros ?]. }
  destruct (if bool_decide (0 < length (Js.orDefault (cb_groups b) []))%nat
            then _ else _) as [r0|] eqn:Hgroups.
  { intros [= <- <-]. split; [done|]. intros Hs. exfalso.
    case_bool_decide; [|done].
    by apply (checkGroups_status _ _ _ _ _ Hgroups). }
  clear Hgroups.
  destruct (if bool_decide (0 < length (Js.orDefault (cb_prerequisites b) []))%nat
            then _ else _) as [r0|] eqn:Hpre.
  { intros [= <- <-]. split; [done|]. intros Hs. exfalso.
    case_bool_decide; [|done]. case_bool_decide; [by simplify_eq|].
    by apply (checkCycle_status _ _ _ _ _ Hpre). }
  intros [= <- <-]. split; [done|]. intros _.
  eexists _, doc. split; [done|]. simpl.
  repeat split; try done.
  - intros Hrole. rewrite Hrole in Hhod. simpl in Hhod.
    apply negb_false_iff, bool_decide_eq_true in Hhod. congruence.
  - intros Hnd p Hp.
    case_bool_decide as Hlen.
    2: { destruct (Js.orDefault (cb_prerequisites b) []);
           [by apply elem_of_nil in Hp | simpl in Hlen; lia]. }
    case_bool_decide as Hcount; [done|].
    assert (Hperm := found_all_perm m_id
              (λ m, m_department m = d ∧ m_isActive m = true)
              (modules db) (Js.orDefault (cb_prerequisites b) []) Hnd).
    destruct (decide (length (filter (λ m, m_id m ∈ Js.orDefault (cb_prerequisites b) [] ∧
                                    m_department m = d ∧ m_isActive m = true)
                                 (modules db))
                      = length (Js.orDefault (cb_prerequisites b) [])))
      as [Heq|Hne]; [|done].
    specialize (Hperm Heq). rewrite <- Hperm in Hp.
    apply list_elem_of_fmap in Hp as (pm & -> & Hpm).
    apply list_elem_of_filter in Hpm as [(_ & Hdep & Hactive) Hin].
    by exists pm.
Qed.

Lemma createModule_effect_witness :
  ∃ m departmentDoc,
    (createModule Sample.env Sample.db Sample.admin
       (Sample.newModuleIn Sample.deptCS (Some [Sample.modA]))).1
      = insertModule Sample.db m ∧
    m_id m = newObjectId Sample.env ∧ m_isActive m = true ∧
    m_createdBy m = u_id Sample.admin ∧ m_questions m = [] ∧ m_notes m = [] ∧
    cb_department (Sample.newModuleIn Sample.deptCS (Some [Sample.modA]))
      = Some (m_department m) ∧
    departmentDoc ∈ departments Sample.db ∧
    d_id departmentDoc = m_department m ∧ d_isActive departmentDoc = true.
Proof.
  destruct (createModule_effect Sample.env Sample.db Sample.admin
              (Sample.newModuleIn Sample.deptCS (Some [Sample.modA]))
              _ _ (surjective_pairing _)) as [_ Hok].
  destruct (Hok ltac:(by vm_compute))
    as (m & doc & H1 & H2 & H3 & H4 & H5 & H6 & H7 & H8 & H9 & H10 & _).
  by exists m, doc.
Defined.

(** **** Who can write what *)

Lemma replaceFirst_Forall2 {A} (R : A → A → Prop) (P : A → bool)
    (f : A → A) (coll : list A) :
  (∀ x, R x x) → (∀ x, R x (f x)) →
  Forall2 R coll (replaceFirst P f coll).
Proof.
  intros Hrefl Hf. induction coll as [|x coll IH]; simpl; [constructor|].
  destruct (P x); constructor; auto.
  clear IH. induction coll; constructor; auto.
Qed.

Lemma sameIdentity_refl m : sameIdentity m m.
Proof. by repeat split. Qed.

Lemma sameIdentity_applyUpdate b m : sameIdentity m (applyUpdate b m).
Proof. by repeat split. Qed.

(** X6: whatever [PUT /api/modules/:id] is sent, no stored module changes
    its id, department, owner, questions, notes, active flag or creation
    time, no module is added or removed, the other collections stay as they
    were, and every answer other than 200 leaves the database untouched. *)
Theorem updateModule_preserves_identity db user id b db' r :
  updateModule db user id b = (db', r) →
  Forall2 sameIdentity (modules db) (modules db') ∧
  db' = withModules db (modules db') ∧
  (status r ≠ 200%nat → db' = db).
Proof.
  assert (Hsame : Forall2 sameIdentity (modules db) (modules db) ∧
                  db = withModules db (modules db)).
  { split; [|by destruct db].
    apply Forall_Forall2_diag, Forall_forall. intros m _.
    apply sameIdentity_refl. }
  unfold updateModule.
  destruct (negb _); [by intros [= <- <-]; destruct Hsame|].
  destruct (findForWrite db user id) as [module|];
    [|by intros [= <- <-]; destruct Hsame].
  destruct (match ub_groups b with Some _ => _ | None => _ end) as [r0|];
    [by intros [= <- <-]; destruct Hsame|].
  destruct (match ub_prerequisites b with Some _ => _ | None => _ end)
    as [r0|]; [by intros [= <- <-]; destruct Hsame|].
  intros [= <- <-]. simpl. split; [|done].
  apply replaceFirst_Forall2;
    [apply sameIdentity_refl | apply sameIdentity_applyUpdate].
Qed.

Lemma findForWrite_other_role db user id :
  roleName user ∉ staffRoles → findForWrite db user id = None.
Proof.
  intros Hrole. unfold staffRoles in Hrole.
  rewrite !not_elem_of_cons in Hrole. destruct Hrole as (HA & HH & HT & _).
  unfold findForWrite.
  rewrite (bool_decide_eq_false_2 _ HA), (bool_decide_eq_false_2 _ HH),
    (bool_decide_eq_false_2 _ HT). done.
Qed.

(** X7: a user whose role is none of Admin, HOD and Teacher cannot change a
    module: update, delete, adding questions, removing a question and
    removing a note are all answered with 400 or 404 and leave the database
    as it was. *)
Theorem module_writes_need_staff_role db user id :
  roleName user ∉ staffRoles →
  (∀ b, refused db (updateModule db user id b)) ∧
  refused db (deleteModule db user id) ∧
  (∀ questionIds, refused db (addQuestions db user id questionIds)) ∧
  (∀ questionId, refused db (removeQuestion db user id questionId)) ∧
  (∀ noteId, refused db (removeNote db user id noteId)).
Proof.
  intros Hrole. pose proof (findForWrite_other_role db user id Hrole) as Hnone.
  assert (Hno : refused db (db, reject 404 "Module not found or access denied")).
  { split; [done | by right]. }
  assert (Hbad : refused db (db, reject 400 "Validation failed")).
  { split; [done | by left]. }
  split; [|split; [|split; [|split]]]; intros.
  - unfold updateModule. destruct (negb _); [done|]. by rewrite Hnone.
  - unfold deleteModule. destruct (negb _); [done|]. by rewrite Hnone.
  - unfold addQuestions. destruct (negb _); [done|]. by rewrite Hnone.
  - unfold removeQuestion. destruct (negb _); [done|]. by rewrite Hnone.
  - unfold removeNote. destruct (negb _); [done|]. by rewrite Hnone.
Qed.

Lemma module_writes_need_staff_role_witness :
  refused Sample.db (deleteModule Sample.db Sample.student Sample.modD).
Proof.
  destruct (module_writes_need_staff_role Sample.db Sample.student Sample.modD
              student_not_staff) as (_ & Hdelete & _).
  exact Hdelete.
Defined.

(** A successful write has found its module. *)
Lemma updateModule_found db user id b db' r :
  updateModule db user id b = (db', r) → status r = 200%nat →
  is_Some (findForWrite db user id).
Proof.
  unfold updateModule. destruct (negb _); [by intros [= <- <-]|].
  destruct (findForWrite db user id); [by eexists | by intros [= <- <-]].
Qed.

Lemma deleteModule_found db user id db' r :
  deleteModule db user id = (db', r) → status r = 200%nat →
  is_Some (findForWrite db user id).
Proof.
  unfold deleteModule. destruct (negb _); [by intros [= <- <-]|].
  destruct (findForWrite db user id); [by eexists | by intros [= <- <-]].
Qed.

Lemma addQuestions_found db user id questionIds db' r :
  addQuestions db user id questionIds = (db', r) → status r = 200%nat →
  is_Some (findForWrite db user id).
Proof.
  unfold addQuestions. destruct (negb _); [by intros [= <- <-]|].
  destruct (findForWrite db user id); [by eexists | by intros [= <- <-]].
Qed.

Lemma removeQuestion_found db user id questionId db' r :
  removeQuestion db user id questionId = (db', r) → status r = 200%nat →
  is_Some (findForWrite db user id).
Proof.
  unfold removeQuestion. destruct (negb _); [by intros [= <- <-]|].
  destruct (findForWrite db user id); [by eexists | by intros [= <- <-]].
Qed.

Lemma removeNote_found db user id noteId db' r :
  removeNote db user id noteId = (db', r) → status r = 200%nat →
  is_Some (findForWrite db user id).
Proof.
  unfold removeNote. destruct (negb _); [by intros [= <- <-]|].
  destruct (findForWrite db user id); [by eexists | by intros [= <- <-]].
Qed.

Lemma findForWrite_teacher db user id module :
  roleName user = "Teacher" →
  findForWrite db user id = Some module →
  m_createdBy module = u_id user.
Proof.
  intros Hrole. unfold findForWrite. rewrite Hrole. simpl.
  intros [_ HP]%findOne_Some. apply andb_true_iff in HP as [_ HP].
  by apply bool_decide_eq_true in HP.
Qed.

Lemma findForWrite_writable db user id :
  is_Some (findForWrite db user id) → writable db user id.
Proof.
  intros [m Hm]. exists m.
  destruct (findForWrite_Some _ _ _ _ Hm) as [Hin Hid].
  repeat split; try done.
  - intros Hrole. by apply (findForWrite_teacher db user id).
  - intros Hrole. by apply (findForWrite_hod db user id).
Qed.

(** X8: a write that is answered with 200 (update, delete, adding
    questions, removing a question or a note) was aimed at a stored module
    with the given id that a Teacher created themselves and that, for a
    HOD, belongs to the HOD's department. *)
Theorem module_writes_are_scoped db user id db' r :
  status r = 200%nat →
  (∀ b, updateModule db user id b = (db', r) → writable db user id) ∧
  (deleteModule db user id = (db', r) → writable db user id) ∧
  (∀ questionIds, addQuestions db user id questionIds = (db', r) →
                  writable db user id) ∧
  (∀ questionId, removeQuestion db user id questionId = (db', r) →
                 writable db user id) ∧
  (∀ noteId, removeNote db user id noteId = (db', r) → writable db user id).
Proof.
  intros Hok. split; [|split; [|split; [|split]]]; intros;
    apply findForWrite_writable.
  - by eapply updateModule_found.
  - by eapply deleteModule_found.
  - by eapply addQuestions_found.
  - by eapply removeQuestion_found.
  - by eapply removeNote_found.
Qed.

Lemma module_writes_are_scoped_witness :
  writable Sample.db Sample.teacher Sample.modD.
Proof.
  destruct (module_writes_are_scoped Sample.db Sample.teacher Sample.modD
              (deleteModule Sample.db Sample.teacher Sample.modD).1
              (deleteModule Sample.db Sample.teacher Sample.modD).2
              ltac:(by vm_compute)) as (_ & Hdelete & _).
  apply Hdelete. apply surjective_pairing.
Defined.

(** **** Soft deletion and the other endpoints *)

(** The database after a successful delete. *)
Lemma deleteModule_success db user id db' r :
  NoDup (m_id <$> modules db) →
  deleteModule db user id = (db', r) → status r = 200%nat →
  ∃ module,
    findForWrite db user id = Some module ∧
    Js.isMongoId id = true ∧
    activeAssessments db id = 0%nat ∧ dependentModules db id = 0%nat ∧
    r = {| status := 200; payload := Message "Module deleted successfully" |} ∧
    db' = withModules db
            ((λ m, if hasId id m then deactivate m else m) <$> modules db).
Proof.
  intros Hnd. unfold deleteModule.
  destruct (Js.isMongoId id) eqn:Hid; simpl; [|by intros [= <- <-]].
  destruct (findForWrite db user id) as [module|] eqn:Hfind;
    [|by intros [= <- <-]].
  destruct (findForWrite_Some _ _ _ _ Hfind) as [Hin Hmid].
  case_bool_decide as Hass; [by intros [= <- <-]|].
  case_bool_decide as Hdep; [by intros [= <- <-]|].
  intros [= <- <-] _. exists module.
  repeat split; try done; try lia.
  unfold saveModule. f_equal.
  rewrite (replaceFirst_unique _ m_id deactivate module).
  - apply list_fmap_ext. intros i x _. unfold hasId. simpl. by rewrite Hmid.
  - done.
  - intros x. by rewrite bool_decide_eq_true.
  - done.
Qed.

Section AfterDelete.
Variable regexTest : string → string → bool.

(** X9: after a successful [DELETE /api/modules/:id] no listing made
    without the [isActive] parameter shows the module, whoever asks, while
    an Admin who asks for it by id still gets it, now inactive. Module ids
    are unique. *)
Theorem deleted_module_hidden_from_listing db user id db' r :
  NoDup (m_id <$> modules db) →
  deleteModule db user id = (db', r) → status r = 200%nat →
  (∀ reader rq data pagination x,
     lq_isActive rq = None →
     listModules regexTest db' reader rq =
       {| status := 200; payload := ModuleList data pagination |} →
     x ∈ data → m_id (mwc_module x) ≠ id) ∧
  (∀ reader, roleName reader = "Admin" →
     ∃ m, getModule db' reader id =
            {| status := 200; payload := ModuleDetails (withCounts db' m) |} ∧
          m_id m = id ∧ m_isActive m = false).
Proof.
  intros Hnd Hdel Hok.
  destruct (deleteModule_success _ _ _ _ _ Hnd Hdel Hok)
    as (module & Hfind & Hid & _ & _ & _ & ->).
  destruct (findForWrite_Some _ _ _ _ Hfind) as [Hin Hmid].
  assert (Hinactive : ∀ m, m ∈ (λ m, if hasId id m then deactivate m else m)
                                   <$> modules db →
                           m_id m = id → m_isActive m = false).
  { intros m (m0 & -> & Hm0)%list_elem_of_fmap. unfold hasId.
    case_bool_decide as Hc; [done|]. intros Hm. by destruct Hc. }
  split.
  - intros reader rq data pagination x Hnone Hresp Hx Hxid.
    edestruct listModules_matches as [Hstored Hm]; [exact Hresp | exact Hx |].
    pose proof (matches_isActive regexTest _ _ true Hm) as Hactive.
    rewrite listFilter_isActive, Hnone in Hactive.
    specialize (Hactive eq_refl).
    simpl in Hstored. rewrite (Hinactive _ Hstored Hxid) in Hactive. done.
  - intros reader Hrole. unfold getModule, findForRead.
    rewrite Hid, Hrole. simpl.
    destruct (findOne (hasId id) _) as [m|] eqn:Hm.
    + apply findOne_Some in Hm as [Hm Hmid'].
      apply bool_decide_eq_true in Hmid'. exists m.
      split; [done|]. split; [done|]. by apply Hinactive.
    + exfalso.
      pose proof (findOne_None _ _ Hm (deactivate module)) as Hno.
      assert (Hthere : deactivate module ∈
                (λ m, if hasId id m then deactivate m else m) <$> modules db).
      { apply list_elem_of_fmap. exists module. split; [|done].
        unfold hasId. by rewrite bool_decide_eq_true_2. }
      specialize (Hno Hthere). unfold hasId in Hno. simpl in Hno.
      by rewrite bool_decide_eq_true_2 in Hno.
Qed.
End AfterDelete.

Lemma deleted_module_hidden_from_listing_witness :
  ∃ m, getModule (deleteModule Sample.db Sample.admin Sample.modD).1
         Sample.admin Sample.modD =
         {| status := 200;
            payload := ModuleDetails
              (withCounts (deleteModule Sample.db Sample.admin Sample.modD).1 m) |} ∧
       m_id m = Sample.modD ∧ m_isActive m = false.
Proof.
  destruct (deleted_module_hidden_from_listing Sample.noMatch
              Sample.db Sample.admin Sample.modD
              (deleteModule Sample.db Sample.admin Sample.modD).1
              (deleteModule Sample.db Sample.admin Sample.modD).2)
    as [_ Hget].
  - apply (bool_decide_unpack _). by vm_compute.
  - apply surjective_pairing.
  - by vm_compute.
  - by apply Hget.
Defined.

Lemma findOne_fmap {A} (P : A → bool) (g : A → A) (coll : list A) :
  (∀ x, P (g x) = P x) →
  findOne P (g <$> coll) = g <$> findOne P coll.
Proof.
  intros HP. unfold findOne. induction coll as [|x coll IH]; simpl; [done|].
  rewrite HP. by destruct (P x).
Qed.

Lemma filter_fmap_length_le {A} (Q : A → Prop) `{∀ x, Decision (Q x)}
    (g : A → A) (coll : list A) :
  (∀ x, Q (g x) → Q x) →
  (length (filter Q (g <$> coll)) ≤ length (filter Q coll))%nat.
Proof.
  intros HQ. induction coll as [|x coll IH]; [done|].
  rewrite fmap_cons, !filter_cons. destruct (decide (Q (g x))) as [Hg|Hg].
  - rewrite decide_True by by apply HQ. simpl. by apply le_n_S.
  - destruct (decide (Q x)); simpl; [by apply le_S | done].
Qed.

(** The lookup of the write endpoints does not look at [isActive]. *)
Lemma findForWrite_after_deactivation db user id :
  findForWrite
    (withModules db ((λ m, if hasId id m then deactivate m else m)
                       <$> modules db)) user id =
  (λ m, if hasId id m then deactivate m else m) <$> findForWrite db user id.
Proof.
  unfold findForWrite. simpl.
  repeat case_bool_decide; try done; apply findOne_fmap;
    intros x; unfold hasId, inDepartment;
    destruct (bool_decide (m_id x = id)) eqn:Hx; simpl; by rewrite ?Hx.
Qed.

(** X10: deleting a module a second time succeeds again and changes
    nothing more: the second request gets the same answer and leaves the
    database as the first one left it. Module ids are unique. *)
Theorem deleteModule_twice db user id db' r :
  NoDup (m_id <$> modules db) →
  deleteModule db user id = (db', r) → status r = 200%nat →
  deleteModule db' user id = (db', r).
Proof.
  intros Hnd Hdel Hok.
  destruct (deleteModule_success _ _ _ _ _ Hnd Hdel Hok)
    as (module & Hfind & Hid & Hass & Hdep & -> & ->).
  destruct (findForWrite_Some _ _ _ _ Hfind) as [Hin Hmid].
  unfold deleteModule. rewrite Hid. simpl.
  rewrite findForWrite_after_deactivation, Hfind. simpl.
  assert (Hh : hasId id module = true).
  { unfold hasId. by rewrite bool_decide_eq_true_2. }
  rewrite Hh.
  set (g := λ m, if hasId id m then deactivate m else m).
  assert (Hass' : activeAssessments (withModules db (g <$> modules db)) id
                  = 0%nat) by done.
  assert (Hdep' : dependentModules (withModules db (g <$> modules db)) id
                  = 0%nat).
  { unfold dependentModules in *. simpl.
    pose proof (filter_fmap_length_le
                  (λ m, id ∈ m_prerequisites m ∧ m_isActive m = true)
                  g (modules db)) as Hle.
    assert (Hg : ∀ x, id ∈ m_prerequisites (g x) ∧ m_isActive (g x) = true →
                      id ∈ m_prerequisites x ∧ m_isActive x = true).
    { intros x. unfold g. by destruct (hasId id x); [intros [_ ?]|]. }
    specialize (Hle Hg). lia. }
  rewrite Hass', Hdep'. simpl. f_equal.
  unfold saveModule. simpl. f_equal.
  rewrite (replaceFirst_unique _ m_id deactivate (deactivate module)).
  - rewrite <- list_fmap_compose. apply list_fmap_ext. intros i x _.
    simpl. unfold g, hasId.
    destruct (bool_decide (m_id x = id)) eqn:Hx; simpl.
    + by destruct (bool_decide (m_id x = m_id module)).
    + by rewrite Hmid, Hx.
  - rewrite <- list_fmap_compose.
    erewrite list_fmap_ext; [exact Hnd|]. intros i x _. simpl. unfold g.
    by destruct (hasId id x).
  - intros x. by rewrite bool_decide_eq_true.
  - apply list_elem_of_fmap. exists module. split; [|done].
    unfold g, hasId. by rewrite bool_decide_eq_true_2.
Qed.

Lemma deleteModule_twice_witness :
  deleteModule (deleteModule Sample.db Sample.admin Sample.modD).1
    Sample.admin Sample.modD =
  ((deleteModule Sample.db Sample.admin Sample.modD).1,
   (deleteModule Sample.db Sample.admin Sample.modD).2).
Proof.
  apply (deleteModule_twice Sample.db).
  - apply (bool_decide_unpack _). by vm_compute.
  - apply surjective_pairing.
  - by vm_compute.
Defined.

(** **** The page of a listing *)

#[local] Instance listOrder_transitive : Transitive listOrder.
Proof. intros m1 m2 m3. unfold listOrder. lia. Qed.

#[local] Instance listOrder_total : Total listOrder.
Proof. intros m1 m2. unfold listOrder. lia. Qed.

Lemma paginate_StronglySorted {A} (R : relation A) page limit (docs : list A) :
  StronglySorted R docs → StronglySorted R (paginate page limit docs).
Proof.
  intros Hs. unfold paginate.
  assert (Hdrop : StronglySorted R (drop ((page - 1) * limit) docs)).
  { rewrite <- (take_drop ((page - 1) * limit) docs) in Hs.
    by apply StronglySorted_app_1_r in Hs. }
  case_bool_decide; [done|].
  rewrite <- (take_drop limit (drop _ docs)) in Hdrop.
  by apply StronglySorted_app_1_l in Hdrop.
Qed.

Lemma paginate_length {A} page limit (docs : list A) :
  (length (paginate page limit docs) ≤ length docs)%nat ∧
  (limit ≠ 0%nat → length (paginate page limit docs) ≤ limit)%nat.
Proof.
  unfold paginate. case_bool_decide.
  - rewrite length_drop. split; [lia | done].
  - rewrite length_take, length_drop. split; lia.
Qed.

(** [Math.ceil(total / limit)] is the least number of pages of [limit]
    entries that hold [total] entries. *)
Lemma pageCount_ceil total limit :
  limit ≠ 0%nat →
  ∃ p, pageCount total limit = Some p ∧
       (total ≤ p * limit)%nat ∧ (p * limit < total + limit)%nat.
Proof.
  intros Hl. unfold pageCount. rewrite bool_decide_eq_false_2 by done.
  eexists. split; [done|].
  pose proof (Nat.div_mod_eq (total + limit - 1) limit) as Hdiv.
  pose proof (Nat.mod_upper_bound (total + limit - 1) limit Hl) as Hmod.
  split; nia.
Qed.

Section PageFacts.
Variable regexTest : string → string → bool.

(** X11: a page of [GET /api/modules] is in the requested order (ascending
    [sortOrder], newest first among equals), is never longer than the limit
    asked for, while [total] counts every stored module that satisfies the
    query and [pages] is the least number of pages of that size that hold
    them all. *)
Theorem listModules_page db user rq data pagination :
  listModules regexTest db user rq =
    {| status := 200; payload := ModuleList data pagination |} →
  StronglySorted listOrder (mwc_module <$> data) ∧
  total pagination =
    length (filter (λ m, matches regexTest (listFilter user rq) m = true)
                   (modules db)) ∧
  (length data ≤ total pagination)%nat ∧
  (limit pagination ≠ 0%nat →
   (length data ≤ limit pagination)%nat ∧
   ∃ p, pages pagination = Some p ∧
        (total pagination ≤ p * limit pagination)%nat ∧
        (p * limit pagination < total pagination + limit pagination)%nat).
Proof.
  unfold listModules. case_bool_decide; [done|].
  intros [= <- <-]. simpl.
  set (found := filter _ (modules db)).
  set (page := Js.orDefault (lq_page rq) 1%nat).
  set (limit := Js.orDefault (lq_limit rq) 10%nat).
  assert (Hmod : mwc_module <$> (withCounts db <$>
                   paginate page limit (merge_sort listOrder found))
                 = paginate page limit (merge_sort listOrder found)).
  { rewrite <- list_fmap_compose. apply list_fmap_id. }
  rewrite Hmod, length_fmap.
  destruct (paginate_length page limit (merge_sort listOrder found))
    as [Hlen Hlim].
  assert (Hsame : length (merge_sort listOrder found) = length found).
  { by rewrite merge_sort_Permutation. }
  rewrite Hsame in Hlen.
  split; [|split; [done|split; [done|]]].
  - apply paginate_StronglySorted, StronglySorted_merge_sort; apply _.
  - intros Hl. split; [by apply Hlim | by apply pageCount_ceil].
Qed.
End PageFacts.

Lemma listModules_page_witness :
  StronglySorted listOrder [Sample.moduleC; Sample.moduleA].
Proof.
  destruct (listModules_page Sample.noMatch Sample.db Sample.student
              Sample.noQuery
              [withCounts Sample.db Sample.moduleC;
               withCounts Sample.db Sample.moduleA]
              {| current := 1; pages := Some 1%nat; total := 2; limit := 10 |}
              ltac:(by vm_compute)) as [Hsorted _].
  exact Hsorted.
Defined.

(** **** Questions of a module *)

(** Saving a changed copy of the one stored module with that id changes
    that module and no other. *)
Lemma saveModule_unique db (f : ModuleDoc → ModuleDoc) m :
  NoDup (m_id <$> modules db) → m ∈ modules db →
  (∀ x, m_id (f x) = m_id x) →
  saveModule db (f m) =
  withModules db ((λ x, if hasId (m_id m) x then f x else x) <$> modules db).
Proof.
  intros Hnd Hin Hf. unfold saveModule. f_equal.
  rewrite (replaceFirst_unique _ m_id f m); [|done| |done].
  - apply list_fmap_ext. intros i x _. unfold hasId. simpl. by rewrite Hf.
  - intros x. by rewrite bool_decide_eq_true, Hf.
Qed.

(** The lookup of the write endpoints depends on id, department and owner
    alone. *)
Lemma findForWrite_fmap db user id (g : ModuleDoc → ModuleDoc) :
  (∀ m, m_id (g m) = m_id m ∧ m_department (g m) = m_department m ∧
        m_createdBy (g m) = m_createdBy m) →
  findForWrite (withModules db (g <$> modules db)) user id =
  g <$> findForWrite db user id.
Proof.
  intros Hg. unfold findForWrite. simpl.
  repeat case_bool_decide; try done; apply findOne_fmap;
    intros x; destruct (Hg x) as (Hi & Hd & Hc);
    unfold hasId, inDepartment; by rewrite Hi, ?Hd, ?Hc.
Qed.

Lemma filter_all {A} (P : A → Prop) `{∀ x, Decision (P x)} (l : list A) :
  (∀ x, x ∈ l → P x) → filter P l = l.
Proof.
  intros HP. induction l as [|x l IH]; [done|].
  rewrite filter_cons, decide_True by (apply HP; by left).
  f_equal. apply IH. intros y Hy. apply HP. by right.
Qed.

Lemma withQuestions_same m : withQuestions m (m_questions m) = m.
Proof. by destruct m. Qed.

(** X12: [DELETE /api/modules/:id/questions/:questionId] answers 200 only
    for a question that is in the module; the stored module then keeps its
    other questions in their order and no longer has that one, and no other
    module changes. Any other answer leaves the database as it was. Module
    ids are unique. *)
Theorem removeQuestion_effect db user id questionId db' r :
  NoDup (m_id <$> modules db) →
  removeQuestion db user id questionId = (db', r) →
  (status r ≠ 200%nat → db' = db) ∧
  (status r = 200%nat →
   ∃ module,
     findForWrite db user id = Some module ∧
     questionId ∈ m_questions module ∧
     db' = withModules db
             ((λ m, if hasId id m
                    then withQuestions m
                           (filter (λ q, q ≠ questionId) (m_questions m))
                    else m) <$> modules db)).
Proof.
  intros Hnd. unfold removeQuestion.
  destruct (negb _); [by intros [= <- <-]|].
  destruct (findForWrite db user id) as [module|] eqn:Hfind;
    [|by intros [= <- <-]].
  destruct (findForWrite_Some _ _ _ _ Hfind) as [Hin Hmid].
  destruct (Js.includes (m_questions module) questionId) eqn:Hinc; simpl;
    [|by intros [= <- <-]].
  intros [= <- <-]. split; [done|]. intros _. exists module.
  split; [done|]. split; [by apply bool_decide_eq_true in Hinc|].
  rewrite (saveModule_unique db
             (λ m, withQuestions m (filter (λ q, q ≠ questionId)
                                           (m_questions m))) module);
    [by rewrite Hmid | done | done | done].
Qed.

Lemma removeQuestion_effect_witness :
  ∃ module,
    findForWrite Sample.db Sample.admin Sample.modC = Some module ∧
    Sample.question1 ∈ m_questions module ∧
    (removeQuestion Sample.db Sample.admin Sample.modC Sample.question1).1 =
      withModules Sample.db
        ((λ m, if hasId Sample.modC m
               then withQuestions m
                      (filter (λ q, q ≠ Sample.question1) (m_questions m))
               else m) <$> modules Sample.db).
Proof.
  destruct (removeQuestion_effect Sample.db Sample.admin Sample.modC
              Sample.question1 _ _
              ltac:(apply (bool_decide_unpack _); by vm_compute)
              (surjective_pairing _)) as [_ Hok].
  apply Hok. by vm_compute.
Defined.

(** X13: adding one question to a module and removing it again restores
    the stored modules exactly; both requests are answered with 200. Module
    ids are unique, and the requests spell the question id in lower case. *)
Theorem add_then_remove_question db user id q db1 r1 :
  NoDup (m_id <$> modules db) →
  castObjectId q = q →
  addQuestions db user id [q] = (db1, r1) → status r1 = 200%nat →
  ∃ r2, removeQuestion db1 user id q = (db, r2) ∧ status r2 = 200%nat.
Proof.
  intros Hnd Hlower. unfold addQuestions.
  destruct (Js.isMongoId id && forallb Js.isMongoId [q]) eqn:Hval; simpl;
    [|by intros [= <- <-]].
  destruct (findForWrite db user id) as [module|] eqn:Hfind;
    [|by intros [= <- <-]].
  destruct (findForWrite_Some _ _ _ _ Hfind) as [Hin Hmid].
  case_bool_decide; [by intros [= <- <-]|].
  case_bool_decide; [by intros [= <- <-]|].
  case_bool_decide as Hnew; [by intros [= <- <-]|].
  intros [= <- <-] _.
  assert (Hq : q ∉ m_questions module).
  { intros Hq. apply Hnew. rewrite filter_cons, decide_False by by intros ?.
    done. }
  rewrite filter_cons, decide_True, filter_nil by done.
  rewrite fmap_cons, fmap_nil, Hlower.
  set (g := λ m, withQuestions m (m_questions m ++ [q])).
  assert (Hdb1 : saveModule db (withQuestions module (m_questions module ++ [q]))
                 = withModules db
                     ((λ x, if hasId id x then g x else x) <$> modules db)).
  { rewrite <- Hmid. by apply (saveModule_unique db g module). }
  unfold ObjectId in Hdb1 |- *. rewrite Hdb1. unfold removeQuestion.
  apply andb_true_iff in Hval as [Hid Hqid]. simpl in Hqid.
  apply andb_true_iff in Hqid as [Hqid _]. rewrite Hid, Hqid. simpl.
  rewrite (findForWrite_fmap db user id
             (λ x, if hasId id x then g x else x)), Hfind.
  2: { intros m. by destruct (hasId id m). }
  simpl. assert (Hh : hasId id module = true).
  { unfold hasId. by rewrite bool_decide_eq_true_2. }
  rewrite Hh. simpl.
  unfold Js.includes. rewrite bool_decide_eq_true_2.
  2: { apply elem_of_app. right. by left. }
  simpl.
  exists {| status := 200;
            payload := Message "Question removed from module successfully" |}.
  split; [|done]. f_equal.
  assert (Hrestore : filter (λ qId, qId ≠ q) (m_questions module ++ [q])
                     = m_questions module).
  { rewrite filter_app, filter_cons, decide_False, filter_nil, app_nil_r
      by (by intros ?).
    apply filter_all. intros x Hx ->. done. }
  rewrite Hrestore.
  assert (Hback : withQuestions (g module) (m_questions module) = module).
  { by destruct module. }
  rewrite Hback. unfold saveModule. simpl.
  rewrite (replaceFirst_unique _ m_id (λ _, module) (g module)).
  - destruct db as [? ? ? ? ? ms ?]. unfold withModules. simpl in *. f_equal.
    rewrite <- list_fmap_compose. etrans; [|apply list_fmap_id].
    apply list_fmap_ext. intros i x Hx. simpl.
    destruct (hasId id x) eqn:Hxid; simpl.
    + rewrite bool_decide_eq_true_2.
      2: { apply bool_decide_eq_true in Hxid. congruence. }
      apply bool_decide_eq_true in Hxid.
      apply (unique_by_id ms); [done | done | | congruence].
      by eapply list_elem_of_lookup_2.
    + rewrite bool_decide_eq_false_2; [done|].
      apply bool_decide_eq_false in Hxid. congruence.
  - simpl. rewrite <- list_fmap_compose.
    erewrite list_fmap_ext; [exact Hnd|]. intros i x _. simpl.
    by destruct (hasId id x).
  - intros x. by rewrite bool_decide_eq_true.
  - apply list_elem_of_fmap. exists module. by rewrite Hh.
Qed.

Lemma add_then_remove_question_witness :
  ∃ r2, removeQuestion
          (addQuestions Sample.db Sample.admin Sample.modC [Sample.question2]).1
          Sample.admin Sample.modC Sample.question2 = (Sample.db, r2) ∧
        status r2 = 200%nat.
Proof.
  apply (add_then_remove_question Sample.db Sample.admin Sample.modC
           Sample.question2 _
           (addQuestions Sample.db Sample.admin Sample.modC
              [Sample.question2]).2).
  - apply (bool_decide_unpack _). by vm_compute.
  - by vm_compute.
  - apply surjective_pairing.
  - by vm_compute.
Defined.

End ModulesRouteFacts.

(** *** Properties of [routes/notices.js] *)

Module NoticesRouteFacts.
Import Db NoticesRoute.

Section ListingFacts.
Variable regexTest : string → string → bool.
Variable findByUser : Database → ObjectId → nat → nat → bool → list NoticeDoc.

(** C7: for a user with role Admin, HOD or Teacher, no notice that
    [GET /api/notices] returns under [unread=true] has a [readBy] entry
    of that user. *)
Theorem listNotices_unread_excludes_read
    (now : Z) (db : Database) (user : User) (rq : ListQuery) data pagination :
  roleName user ∈ ["Admin"; "HOD"; "Teacher"] →
  lq_unread rq = Some "true" →
  listNotices regexTest findByUser now db user rq =
    {| status := 200; payload := NoticeList data pagination |} →
  ∀ n, n ∈ data → ∀ e, e ∈ n_readBy n → re_user e ≠ u_id user.
Proof.
  intros Hrole Hunread. unfold listNotices.
  unfold Js.includes at 1. rewrite bool_decide_eq_true_2 by done.
  case_bool_decide; [done|].
  rewrite Hunread. rewrite bool_decide_eq_true_2 by done.
  intros [= <- _] n Hn e He Huser.
  apply list_elem_of_filter in Hn as [Hread _].
  unfold readByUser in Hread.
  assert (Hex : existsb (λ e, bool_decide (re_user e = u_id user))
                        (n_readBy n) = true).
  { apply existsb_exists. exists e.
    split; [by apply list_elem_of_In | by apply bool_decide_eq_true]. }
  congruence.
Qed.
End ListingFacts.

Lemma listNotices_unread_excludes_read_witness :
  Forall (λ e, bool_decide (re_user e = u_id Sample.teacher) = false)
         (n_readBy Sample.noticeUnread).
Proof.
  apply Forall_forall. intros e He. apply bool_decide_eq_false.
  apply (listNotices_unread_excludes_read Sample.noMatch Sample.findNothing
           100 Sample.noticeDb Sample.teacher Sample.unreadQuery
           [Sample.noticeUnread]
           {| current := 1; pages := Some 1%nat; total := 2; limit := 10 |}
           ltac:(apply (bool_decide_unpack _); by vm_compute) eq_refl
           ltac:(by vm_compute) Sample.noticeUnread ltac:(by left) e He).
Defined.

Section CreateFacts.
Variable parseISO8601 : string → option Z.

Lemma createNoticeValidation_targetType now b :
  createNoticeValidation parseISO8601 now b = true →
  ∃ t, cb_targetType b = Some t ∧ t ∈ targetTypes.
Proof.
  unfold createNoticeValidation. rewrite !andb_true_iff.
  intros [[[[[[_ Ht] _] _] _] _] _].
  destruct (cb_targetType b) as [t|]; [|done]. exists t. split; [done|].
  by apply bool_decide_eq_true in Ht.
Qed.

(** C6: a notice is created only with one of the four target types, and
    a request whose targeting is incomplete is answered with 400 and
    stores nothing. *)
Theorem createNotice_rejects_incomplete_targeting
    (env : Env) (db : Database) (user : User) (b : CreateBody) :
  incompleteTargeting b →
  ∃ r, createNotice parseISO8601 env db user b = (db, r) ∧
       status r = 400%nat.
Proof.
  intros Hbad. unfold createNotice.
  destruct (createNoticeValidation parseISO8601 (now env) b) eqn:Hval;
    simpl; [|by eexists].
  destruct Hbad as [Htype|[[Ht Hd]|[[Ht Hg]|[Ht Hr]]]].
  - destruct (createNoticeValidation_targetType _ _ Hval) as (t & Ht & Hin).
    by destruct (Htype t Hin).
  - rewrite Ht, Hd. simpl. by eexists.
  - rewrite Ht, Hg. simpl. by eexists.
  - rewrite Ht, Hr. simpl. by eexists.
Qed.

(** A notice that was stored has one of the four target types. *)
Lemma createNotice_created_targetType env db user b db' r :
  createNotice parseISO8601 env db user b = (db', r) →
  status r = 201%nat →
  ∃ t, cb_targetType b = Some t ∧ t ∈ targetTypes.
Proof.
  unfold createNotice.
  destruct (createNoticeValidation parseISO8601 (now env) b) eqn:Hval;
    simpl; [|by intros [= <- <-]].
  intros _ _. by apply (createNoticeValidation_targetType (now env)).
Qed.
End CreateFacts.

Lemma createNotice_rejects_incomplete_targeting_witness :
  ∃ r, createNotice Sample.noDate Sample.env Sample.noticeDb Sample.teacher
         Sample.groupNoticeWithoutGroups = (Sample.noticeDb, r) ∧
       status r = 400%nat.
Proof.
  apply createNotice_rejects_incomplete_targeting.
  right. right. left. split; reflexivity.
Defined.

Example createNotice_group_without_groups :
  createNotice Sample.noDate Sample.env Sample.noticeDb Sample.teacher
    Sample.groupNoticeWithoutGroups =
  (Sample.noticeDb,
   reject 400 "At least one group is required for group-specific notices").
Proof. by vm_compute. Qed.

(** **** What the staff listing shows *)

Lemma staffFilter_keeps user q :
  f_isActive (staffFilter user q) = f_isActive q ∧
  f_and (staffFilter user q) = f_and q.
Proof. unfold staffFilter. by repeat case_bool_decide. Qed.

Lemma staffFilter_or user q :
  roleName user ∈ ["HOD"; "Teacher"] →
  f_or (staffFilter user q) =
  Some [TargetAll; TargetRole (roleName user);
        if bool_decide (roleName user = "HOD")
        then TargetDepartment (u_department user)
        else TargetGroups (u_groups user)].
Proof.
  intros Hrole. unfold staffFilter.
  case_bool_decide as HA.
  { rewrite HA in Hrole. exfalso. revert Hrole.
    apply (bool_decide_unpack _). by vm_compute. }
  by case_bool_decide.
Qed.

Section StaffListing.
Variable regexTest : string → string → bool.
Variable findByUser : Database → ObjectId → nat → nat → bool → list NoticeDoc.

(** Every notice of a staff listing is a stored notice that satisfies the
    query the handler built. *)
Lemma listNotices_matches now db user rq data pagination n :
  roleName user ∈ ["Admin"; "HOD"; "Teacher"] →
  listNotices regexTest findByUser now db user rq =
    {| status := 200; payload := NoticeList data pagination |} →
  n ∈ data →
  n ∈ notices db ∧
  matches regexTest (staffFilter user (baseFilter now rq)) n = true.
Proof.
  intros Hrole. unfold listNotices.
  unfold Js.includes at 1. rewrite bool_decide_eq_true_2 by done.
  case_bool_decide; [done|].
  intros [= <- _] Hn.
  assert (Hpage : n ∈ paginate (Js.orDefault (lq_page rq) 1%nat)
                    (Js.orDefault (lq_limit rq) 10%nat)
                    (merge_sort (listOrder)
                       (filter (λ n, matches regexTest
                                  (staffFilter user (baseFilter now rq)) n = true)
                               (notices db)))).
  { case_bool_decide; [|done]. by apply list_elem_of_filter in Hn as [_ ?]. }
  apply ModulesRouteFacts.paginate_subset in Hpage.
  rewrite merge_sort_Permutation in Hpage.
  by apply list_elem_of_filter in Hpage as [? ?].
Qed.

(** X14: every notice that [GET /api/notices] returns to an Admin, a HOD
    or a Teacher is a stored notice that has not expired and, unless the
    [isActive] parameter is given, is active; what a HOD or a Teacher gets
    is aimed at everybody, at their role, at the HOD's department or at one
    of the Teacher's groups. *)
Theorem listNotices_staff_scope now db user rq data pagination :
  roleName user ∈ ["Admin"; "HOD"; "Teacher"] →
  listNotices regexTest findByUser now db user rq =
    {| status := 200; payload := NoticeList data pagination |} →
  ∀ n, n ∈ data →
    n ∈ notices db ∧
    (∀ e, n_expiresAt n = Some e → (now < e)%Z) ∧
    (lq_isActive rq = None → n_isActive n = true) ∧
    (roleName user ≠ "Admin" → aimedAt user n).
Proof.
  intros Hrole Hresp n Hn.
  destruct (listNotices_matches _ _ _ _ _ _ _ Hrole Hresp Hn) as [Hin Hm].
  split; [done|].
  unfold matches in Hm. rewrite !andb_true_iff in Hm.
  destruct Hm as [[[[[[[Hact Hor] _] _] _] _] _] Hand].
  destruct (staffFilter_keeps user (baseFilter now rq)) as [HfA HfAnd].
  rewrite HfA in Hact. rewrite HfAnd in Hand. simpl in Hact, Hand.
  apply bool_decide_eq_true in Hact.
  split; [|split].
  - intros e He. rewrite He, andb_true_r in Hand.
    by apply bool_decide_eq_true in Hand.
  - intros Hnone. by rewrite Hnone in Hact.
  - intros Hnot.
    assert (Hrole' : roleName user ∈ ["HOD"; "Teacher"]).
    { apply elem_of_cons in Hrole as [?|?]; done. }
    rewrite (staffFilter_or user _ Hrole') in Hor. simpl in Hor.
    rewrite orb_false_r in Hor.
    apply orb_true_iff in Hor as [Hall|Hor].
    { left. by apply bool_decide_eq_true in Hall. }
    apply orb_true_iff in Hor as [Hr|Hlast].
    { right. left. apply andb_true_iff in Hr as [Ht Hr].
      apply bool_decide_eq_true in Ht, Hr. done. }
    right. right. case_bool_decide as Hhod; simpl in Hlast.
    + left. apply andb_true_iff in Hlast as [Ht Hd].
      apply bool_decide_eq_true in Ht, Hd. done.
    + right. apply andb_true_iff in Hlast as [Ht Hg].
      apply bool_decide_eq_true in Ht.
      apply ModulesRouteFacts.existsb_includes in Hg.
      split; [|done].
      apply elem_of_cons in Hrole' as [?|Hrole']; [done|].
      by apply list_elem_of_singleton in Hrole'.
Qed.
End StaffListing.

Lemma listNotices_staff_scope_witness :
  Sample.noticeUnread ∈ notices Sample.noticeDb ∧
  n_isActive Sample.noticeUnread = true ∧
  aimedAt Sample.teacher Sample.noticeUnread.
Proof.
  destruct (listNotices_staff_scope Sample.noMatch Sample.findNothing
              100 Sample.noticeDb Sample.teacher Sample.unreadQuery
              [Sample.noticeUnread]
              {| current := 1; pages := Some 1%nat; total := 2; limit := 10 |}
              ltac:(apply (bool_decide_unpack _); by vm_compute)
              ltac:(by vm_compute) Sample.noticeUnread ltac:(by left))
    as (Hin & _ & Hact & Haim).
  split; [done|]. split; [by apply Hact | by apply Haim].
Defined.

(** **** Editing and deleting a notice *)

Lemma findForDelete_Some db user id n :
  findForDelete db user id = Some n →
  n ∈ notices db ∧ n_id n = id ∧
  (roleName user ≠ "Admin" → n_postedBy n = u_id user).
Proof.
  unfold findForDelete, hasId, postedByUser.
  case_bool_decide as HA.
  - intros [Hin Hp]%ModulesRouteFacts.findOne_Some.
    apply bool_decide_eq_true in Hp. by repeat split.
  - repeat case_bool_decide; [| |done];
      intros [Hin [Hi Hp]%andb_true_iff]%ModulesRouteFacts.findOne_Some;
      apply bool_decide_eq_true in Hi, Hp; by repeat split.
Qed.

Lemma sameAudience_refl n : sameAudience n n.
Proof. by repeat split. Qed.

(** X15: [DELETE /api/notices/:id] answers 200 only for a stored notice
    with that id which, unless an Admin asks, the requesting user has
    posted; the notice is then kept with [isActive] false and everything
    else as it was, and no other notice changes. Any other answer leaves
    the database as it was. Notice ids are unique. *)
Theorem deleteNotice_effect db user id db' r :
  NoDup (n_id <$> notices db) →
  deleteNotice db user id = (db', r) →
  (status r ≠ 200%nat → db' = db) ∧
  (status r = 200%nat →
   ∃ notice,
     notice ∈ notices db ∧ n_id notice = id ∧
     (roleName user ≠ "Admin" → n_postedBy notice = u_id user) ∧
     db' = withNotices db
             ((λ n, if hasId id n then deactivate n else n) <$> notices db)).
Proof.
  intros Hnd. unfold deleteNotice.
  destruct (negb _); [by intros [= <- <-]|].
  destruct (findForDelete db user id) as [notice|] eqn:Hfind;
    [|by intros [= <- <-]].
  destruct (findForDelete_Some _ _ _ _ Hfind) as (Hin & Hid & Hown).
  intros [= <- <-]. split; [done|]. intros _. exists notice.
  split; [done|]. split; [done|]. split; [done|].
  unfold saveNotice. f_equal. simpl.
  rewrite (ModulesRouteFacts.replaceFirst_unique _ n_id deactivate notice).
  - apply list_fmap_ext. intros i x _. unfold hasId. by rewrite Hid.
  - done.
  - intros x. by rewrite bool_decide_eq_true.
  - done.
Qed.

Lemma deleteNotice_effect_witness :
  ∃ notice,
    notice ∈ notices Sample.noticeDb ∧
    n_id notice = n_id Sample.noticeRead ∧
    (deleteNotice Sample.noticeDb Sample.admin (n_id Sample.noticeRead)).1 =
      withNotices Sample.noticeDb
        ((λ n, if hasId (n_id Sample.noticeRead) n then deactivate n else n)
           <$> notices Sample.noticeDb).
Proof.
  destruct (deleteNotice_effect Sample.noticeDb Sample.admin
              (n_id Sample.noticeRead) _ _
              ltac:(apply (bool_decide_unpack _); by vm_compute)
              (surjective_pairing _)) as [_ Hok].
  destruct (Hok ltac:(by vm_compute)) as (notice & Hin & Hid & _ & Hdb).
  by exists notice.
Defined.

Section UpdateFacts.
Variable parseISO8601 : string → option Z.

Lemma sameAudience_applyUpdate b n :
  sameAudience n (applyUpdate parseISO8601 b n).
Proof. by repeat split. Qed.

(** X16: whatever [PUT /api/notices/:id] is sent, no stored notice changes
    its id, poster, targeting (type, roles, department, groups), active
    flag, read marks or creation time, no notice is added or removed, the
    other collections stay as they were, and every answer other than 200
    leaves the database untouched. *)
Theorem updateNotice_preserves_audience now db user id b db' r :
  updateNotice parseISO8601 now db user id b = (db', r) →
  Forall2 sameAudience (notices db) (notices db') ∧
  db' = withNotices db (notices db') ∧
  (status r ≠ 200%nat → db' = db).
Proof.
  assert (Hsame : Forall2 sameAudience (notices db) (notices db) ∧
                  db = withNotices db (notices db)).
  { split; [|by destruct db].
    apply Forall_Forall2_diag, Forall_forall. intros n _.
    apply sameAudience_refl. }
  unfold updateNotice.
  destruct (negb _); [by intros [= <- <-]; destruct Hsame|].
  destruct (findForUpdate db user id) as [notice|];
    [|by intros [= <- <-]; destruct Hsame].
  intros [= <- <-]. simpl. split; [|done].
  apply ModulesRouteFacts.replaceFirst_Forall2;
    [apply sameAudience_refl | apply sameAudience_applyUpdate].
Qed.

(** X17: a HOD may edit a notice for everybody that somebody else has
    posted, and may not delete it: for a well-formed id of such a notice
    and a valid body the update is answered 200 and the delete 404. Notice
    ids are unique. *)
Theorem hod_edits_what_hod_cannot_delete now db user id b notice :
  NoDup (n_id <$> notices db) →
  roleName user = "HOD" →
  notice ∈ notices db → n_id notice = id →
  n_targetType notice = "all" → n_postedBy notice ≠ u_id user →
  Js.isMongoId id = true → updateNoticeValidation parseISO8601 now b = true →
  status (updateNotice parseISO8601 now db user id b).2 = 200%nat ∧
  deleteNotice db user id = (db, reject 404 "Notice not found or access denied").
Proof.
  intros Hnd Hrole Hin Hid Hall Hposted Hmongo Hvalid.
  assert (Huniq : ∀ x, x ∈ notices db → n_id x = id → x = notice).
  { intros x Hx Hxid.
    apply list_elem_of_lookup in Hx as [i Hi].
    apply list_elem_of_lookup in Hin as [j Hj].
    assert (i = j) as ->; [|congruence].
    apply (NoDup_lookup (n_id <$> notices db) i j id); [done| |].
    - by rewrite list_lookup_fmap, Hi, <- Hxid.
    - by rewrite list_lookup_fmap, Hj, <- Hid. }
  split.
  - unfold updateNotice. rewrite Hmongo, Hvalid. simpl.
    unfold findForUpdate. rewrite Hrole. simpl.
    destruct (findOne _ (notices db)) as [n|] eqn:Hfind; [done|].
    exfalso.
    pose proof (ModulesRouteFacts.findOne_None _ _ Hfind notice Hin) as Hno.
    simpl in Hno. unfold hasId in Hno.
    rewrite (bool_decide_eq_true_2 _ Hid) in Hno.
    rewrite (bool_decide_eq_true_2 _ Hall) in Hno.
    by rewrite orb_true_r in Hno.
  - unfold deleteNotice. rewrite Hmongo. simpl.
    unfold findForDelete. rewrite Hrole. simpl.
    destruct (findOne _ (notices db)) as [n|] eqn:Hfind; [|done].
    exfalso.
    apply ModulesRouteFacts.findOne_Some in Hfind as [Hn Hp].
    apply andb_true_iff in Hp as [Hnid Hnp].
    apply bool_decide_eq_true in Hnid, Hnp.
    rewrite (Huniq n Hn Hnid) in Hnp. done.
Qed.
End UpdateFacts.

Lemma updateNotice_preserves_audience_witness :
  Forall2 sameAudience (notices Sample.noticeDb)
    (notices (updateNotice Sample.noDate 100 Sample.noticeDb Sample.admin
                (n_id Sample.noticeRead) Sample.newPriority).1).
Proof.
  destruct (updateNotice_preserves_audience Sample.noDate 100
              Sample.noticeDb Sample.admin (n_id Sample.noticeRead)
              Sample.newPriority _ _ (surjective_pairing _)) as [Hsame _].
  exact Hsame.
Defined.

Lemma hod_edits_what_hod_cannot_delete_witness :
  status (updateNotice Sample.noDate 100 Sample.noticeDb Sample.hod
            (n_id Sample.noticeRead) Sample.newPriority).2 = 200%nat ∧
  deleteNotice Sample.noticeDb Sample.hod (n_id Sample.noticeRead) =
    (Sample.noticeDb, reject 404 "Notice not found or access denied").
Proof.
  apply (hod_edits_what_hod_cannot_delete Sample.noDate 100 Sample.noticeDb
           Sample.hod (n_id Sample.noticeRead) Sample.newPriority
           Sample.noticeRead).
  - apply (bool_decide_unpack _). by vm_compute.
  - done.
  - by left.
  - done.
  - done.
  - by vm_compute.
  - by vm_compute.
  - by vm_compute.
Defined.

End NoticesRouteFacts.

(** *** Properties of the analytics helpers *)

Module AnalyticsFacts.
Import Analytics.








Example calculateMedian_even :
  calculateMedian [Qc_of_Z 7; Qc_of_Z 1; Qc_of_Z 4; Qc_of_Z 2] = Some (Qc_of_Z 3).
Proof. vm_compute. f_equal. by apply Qc_is_canon. Qed.

Example calculateMedian_odd :
  calculateMedian [Qc_of_Z 9; Qc_of_Z 1; Qc_of_Z 4] = Some (Qc_of_Z 4).
Proof. by vm_compute. Qed.

Example calculateMedian_empty : calculateMedian [] = None.
Proof. reflexivity. Qed.

(** The loop needs no more fuel than it was given once it has answered. *)
Lemma streakLoop_fuel_irrelevant isoDate localTime utc
    fuel1 fuel2 dates streak t n :
  streakLoop isoDate localTime utc fuel1 dates streak t = Some n →
  (fuel1 ≤ fuel2)%nat →
  streakLoop isoDate localTime utc fuel2 dates streak t = Some n.
Proof.
  revert fuel2 streak t.
  induction fuel1 as [|fuel1 IH]; intros fuel2 streak t; [done|].
  destruct fuel2 as [|fuel2]; [lia|]. simpl.
  destruct (Js.includes dates (dateString isoDate t)); [|done].
  intros Hloop Hle. apply IH; [done | lia].
Qed.

Lemma includes_sortStrings ids x :
  Js.includes (Js.sortStrings ids) x = Js.includes ids x.
Proof.
  unfold Js.includes, Js.sortStrings. apply bool_decide_ext.
  by rewrite merge_sort_Permutation.
Qed.

Example isoDateOfDay_epoch : isoDateOfDay 0 = "1970-01-01".
Proof. by vm_compute. Qed.

Example isoDateOfDay_leap_day : isoDateOfDay 19782 = "2024-02-29".
Proof. by vm_compute. Qed.

Example isoDateOfDay_before_epoch : isoDateOfDay (-1) = "1969-12-31".
Proof. by vm_compute. Qed.

(** At 2024-10-28T00:00:00Z it is 01:00 in Berlin; 01:00 of the day before
    is still summer time there, which is 23:00 of 2024-10-26 in UTC. *)
Example setPreviousDate_berlin :
  setPreviousDate berlinLocalTime berlinUTC (20024 * msPerDay) =
    (20022 * msPerDay + 23 * msPerHour)%Z.
Proof. by vm_compute. Qed.

Section CurrentStreakFacts.
Variable isoDate : Z → string.
Variables localTime utc : Z → Z.
Hypothesis isoDate_inj : ∀ d1 d2, isoDate d1 = isoDate d2 → d1 = d2.
(** The hosts on which a local day is 24 hours long, whatever the date:
    those at a constant offset from UTC. *)
Hypothesis constant_offset :
  ∀ t, utc (localTime t - msPerDay) = (t - msPerDay)%Z.

Local Abbreviation loop := (streakLoop isoDate localTime utc).

Lemma dateString_midnight d : dateString isoDate (d * msPerDay) = isoDate d.
Proof. unfold dateString. by rewrite Z.div_mul. Qed.

Lemma setPreviousDate_midnight d :
  setPreviousDate localTime utc (d * msPerDay) = ((d - 1) * msPerDay)%Z.
Proof. unfold setPreviousDate. rewrite constant_offset. lia. Qed.

Lemma includes_activeOn dailyActivity d :
  Js.includes (Js.sortStrings (da_id <$> dailyActivity)) (isoDate d) = true
  ↔ activeOn isoDate dailyActivity d.
Proof.
  rewrite includes_sortStrings. unfold Js.includes, activeOn.
  rewrite bool_decide_eq_true, list_elem_of_fmap. split.
  - intros (r & Hr & Hin). by exists r.
  - intros (r & Hin & Hr). by exists r.
Qed.

(** What the loop returns, when it returns. *)
Lemma streakLoop_Some fuel dates streak d n :
  loop fuel dates streak (d * msPerDay)%Z = Some n →
  ∃ k, n = (streak + k)%nat ∧
       (∀ i, (i < k)%nat → Js.includes dates (isoDate (d - Z.of_nat i)) = true) ∧
       Js.includes dates (isoDate (d - Z.of_nat k)) = false.
Proof.
  revert streak d. induction fuel as [|fuel IH]; intros streak d; [done|].
  cbn [streakLoop]. rewrite dateString_midnight, setPreviousDate_midnight.
  destruct (Js.includes dates (isoDate d)) eqn:Hin.
  - intros (k & -> & Hall & Hstop)%IH. exists (S k). split; [lia|]. split.
    + intros [|i] Hi.
      * by rewrite Z.sub_0_r.
      * replace (d - Z.of_nat (S i))%Z with (d - 1 - Z.of_nat i)%Z by lia.
        apply Hall. lia.
    + by replace (d - Z.of_nat (S k))%Z with (d - 1 - Z.of_nat k)%Z by lia.
  - intros [= <-]. exists 0%nat. split; [lia|]. split; [lia|].
    by rewrite Z.sub_0_r.
Qed.

(** When the fuel runs out, every day that was tried is in the list. *)
Lemma streakLoop_None fuel dates streak d :
  loop fuel dates streak (d * msPerDay)%Z = None →
  ∀ i, (i < fuel)%nat → isoDate (d - Z.of_nat i) ∈ dates.
Proof.
  revert streak d. induction fuel as [|fuel IH]; intros streak d; [lia|].
  cbn [streakLoop]. rewrite dateString_midnight, setPreviousDate_midnight.
  destruct (Js.includes dates (isoDate d)) eqn:Hin; [|done].
  intros Hnone [|i] Hi.
  - rewrite Z.sub_0_r. by apply bool_decide_eq_true in Hin.
  - replace (d - Z.of_nat (S i))%Z with (d - 1 - Z.of_nat i)%Z by lia.
    apply (IH _ _ Hnone). lia.
Qed.

(** The loop ends within [length dates + 1] iterations: the days it
    visits are distinct, and so are their date strings. *)
Lemma streakLoop_terminates fuel dates streak d :
  (length dates < fuel)%nat →
  is_Some (loop fuel dates streak (d * msPerDay)%Z).
Proof.
  intros Hfuel.
  destruct (loop fuel dates streak (d * msPerDay)%Z) eqn:Hloop; [by eexists|].
  exfalso.
  pose proof (streakLoop_None _ _ _ _ Hloop) as Hall.
  set (tried := (λ i : nat, isoDate (d - Z.of_nat i)) <$> seq 0 fuel).
  assert (Hnd : NoDup tried).
  { apply NoDup_fmap_2_strong; [|apply NoDup_seq].
    intros i j _ _ Heq. apply isoDate_inj in Heq. lia. }
  assert (Hsub : tried ⊆+ dates).
  { apply NoDup_submseteq; [done|].
    intros x (i & -> & Hi)%list_elem_of_fmap.
    apply elem_of_seq in Hi. apply Hall. lia. }
  apply submseteq_length in Hsub.
  unfold tried in Hsub. rewrite length_fmap, length_seq in Hsub. lia.
Qed.

(** On a host at a constant offset from UTC, and with enough iterations
    allowed (one more than there are records is always enough),
    [calculateCurrentStreak] returns a number [n]; with [today] the date of
    the clock reading in UTC, the [n] days today, today - 1, ...,
    today - (n - 1) each have an activity record and day today - n has
    none. Hence it is 0 on the empty list and 0 when today has no record. *)
Theorem calculateCurrentStreak_counts_back_from_today
    (now : Z) (dailyActivity : list DailyActivity) :
  let today := (now `div` msPerDay)%Z in
  ∃ n,
    (∀ fuel, (length dailyActivity < fuel)%nat →
       calculateCurrentStreak isoDate localTime utc fuel now dailyActivity
         = Some n) ∧
    (∀ i, (i < n)%nat → activeOn isoDate dailyActivity (today - Z.of_nat i)) ∧
    ¬ activeOn isoDate dailyActivity (today - Z.of_nat n) ∧
    (dailyActivity = [] → n = 0%nat) ∧
    (¬ activeOn isoDate dailyActivity today → n = 0%nat).
Proof.
  intros today.
  set (dates := Js.sortStrings (da_id <$> dailyActivity)).
  assert (Hlen : length dates = length dailyActivity).
  { unfold dates, Js.sortStrings.
    by rewrite merge_sort_Permutation, length_fmap. }
  destruct (streakLoop_terminates (S (length dates)) dates 0 today)
    as [n Hn]; [lia|].
  destruct (streakLoop_Some _ _ _ _ _ Hn) as (k & Hk & Hall & Hstop).
  simpl in Hk. subst k.
  assert (Hact : ∀ i, (i < n)%nat →
            activeOn isoDate dailyActivity (today - Z.of_nat i)).
  { intros i Hi. apply includes_activeOn. by apply Hall. }
  assert (Hnot : ¬ activeOn isoDate dailyActivity (today - Z.of_nat n)).
  { intros Ha%includes_activeOn. fold dates in Ha. congruence. }
  assert (Hzero : ¬ activeOn isoDate dailyActivity today → n = 0%nat).
  { intros Hna. destruct n as [|n]; [done|]. exfalso. apply Hna.
    specialize (Hact 0%nat). rewrite Z.sub_0_r in Hact. apply Hact. lia. }
  exists n. repeat split; try done.
  - intros fuel Hfuel. unfold calculateCurrentStreak.
    case_bool_decide as Hempty.
    + f_equal. symmetry. apply Hzero. intros (r & Hr & _).
      destruct dailyActivity; [by apply elem_of_nil in Hr | done].
    + apply (streakLoop_fuel_irrelevant _ _ _ (S (length dates)));
        [done | lia].
  - intros ->. apply Hzero. intros (r & Hr & _). by apply elem_of_nil in Hr.
Qed.
End CurrentStreakFacts.

Lemma calculateCurrentStreak_counts_back_from_today_witness :
  ∃ n,
    (∀ fuel, (2 < fuel)%nat →
       calculateCurrentStreak pretty (fixedLocalTime 19800000)
         (fixedUTC 19800000) fuel (100 * msPerDay + 5)
         [ {| da_id := "100"; activityCount := 2 |};
           {| da_id := "99"; activityCount := 1 |} ] = Some n) ∧
    n = 2%nat.
Proof.
  destruct (calculateCurrentStreak_counts_back_from_today pretty
              (fixedLocalTime 19800000) (fixedUTC 19800000)
              (λ d1 d2 H, pretty_Z_inj d1 d2 H)
              ltac:(intros t; unfold fixedLocalTime, fixedUTC; lia)
              (100 * msPerDay + 5)
              [ {| da_id := "100"; activityCount := 2 |};
                {| da_id := "99"; activityCount := 1 |} ])
    as (n & Hfuel & _).
  exists n. split; [exact Hfuel|].
  specialize (Hfuel 3%nat ltac:(simpl; lia)).
  vm_compute in Hfuel. by injection Hfuel.
Defined.

(** C5: on a host in the zone Europe/Berlin, with the clock at
    2024-10-28T09:30:00Z and activity records for 2024-10-28 and
    2024-10-26 alone, [calculateCurrentStreak] returns 2: after today it
    tests 2024-10-26, the UTC date of the local day before, and never
    tests 2024-10-27. Today has a record and yesterday has none, so the
    number of consecutive days with a record, counting back from today, is
    1, which is what the same call returns on a host in UTC. *)
Theorem calculateCurrentStreak_skips_day_at_clock_change :
  let today := (morningOfOctober28 `div` msPerDay)%Z in
  (∀ fuel, (2 < fuel)%nat →
     calculateCurrentStreak isoDateOfDay berlinLocalTime berlinUTC fuel
       morningOfOctober28 activityWithGap = Some 2%nat) ∧
  isoDateOfDay today = "2024-10-28" ∧
  activeOn isoDateOfDay activityWithGap today ∧
  ¬ activeOn isoDateOfDay activityWithGap (today - 1) ∧
  (∀ fuel, (2 < fuel)%nat →
     calculateCurrentStreak isoDateOfDay (fixedLocalTime 0) (fixedUTC 0) fuel
       morningOfOctober28 activityWithGap = Some 1%nat).
Proof.
  assert (Hmono : ∀ localTime utc n,
            calculateCurrentStreak isoDateOfDay localTime utc 3
              morningOfOctober28 activityWithGap = Some n →
            ∀ fuel, (2 < fuel)%nat →
              calculateCurrentStreak isoDateOfDay localTime utc fuel
                morningOfOctober28 activityWithGap = Some n).
  { intros localTime utc n H3 fuel Hfuel. unfold calculateCurrentStreak in *.
    simpl in *.
    apply (streakLoop_fuel_irrelevant _ _ _ 3); [done | lia]. }
  split; [apply Hmono; by vm_compute|].
  split; [by vm_compute|].
  split.
  { eexists. split; [by left | by vm_compute]. }
  split; [|apply Hmono; by vm_compute].
  intros (r & Hr & Hday).
  apply elem_of_cons in Hr as [->|Hr]; [by vm_compute in Hday|].
  apply list_elem_of_singleton in Hr as ->. by vm_compute in Hday.
Qed.

Lemma countedSubmissions_cons totalPoints s submissions :
  countedSubmissions (scoreDistribution totalPoints (s :: submissions)) =
  (rangesHolding totalPoints s +
   countedSubmissions (scoreDistribution totalPoints submissions))%nat.
Proof.
  unfold rangesHolding, scoreDistribution, scoreRanges, countedSubmissions.
  cbn [fmap list_fmap foldr count].
  rewrite !filter_cons, filter_nil.
  repeat case_decide; cbn [length]; lia.
Qed.

(** The ranges are pairwise disjoint: no submission is counted twice. *)
Lemma rangesHolding_le_1 totalPoints s : (rangesHolding totalPoints s ≤ 1)%nat.
Proof.
  unfold rangesHolding, scoreRanges.
  rewrite !filter_cons, filter_nil.
  assert (Hgap : ∀ (a b : Z) (p : Qc),
            (a < b)%Z → (Qc_of_Z b ≤ p)%Qc → (p ≤ Qc_of_Z a)%Qc → False).
  { intros a b q Hab Hb Ha.
    pose proof (Qcle_trans _ _ _ Hb Ha) as Hle.
    apply Z2Qc_inj_le in Hle. lia. }
  repeat case_decide; cbn [length]; try lia;
    unfold inRange in *; cbn [min max] in *;
    repeat match goal with H : _ ∧ _ |- _ => destruct H end;
    exfalso;
    match goal with
    | Hb : (Qc_of_Z ?b ≤ ?q)%Qc, Ha : (?q ≤ Qc_of_Z ?a)%Qc |- _ =>
        apply (Hgap a b q); [lia | exact Hb | exact Ha]
    end.
Qed.

Lemma countedSubmissions_le totalPoints submissions :
  (countedSubmissions (scoreDistribution totalPoints submissions)
   ≤ length submissions)%nat.
Proof.
  induction submissions as [|s submissions IH]; [by vm_compute|].
  rewrite countedSubmissions_cons. cbn [length].
  pose proof (rangesHolding_le_1 totalPoints s). lia.
Qed.

(** A whole-number percentage between 0 and 100 is in exactly one range. *)
Lemma rangesHolding_integer totalPoints s (z : Z) :
  percentage totalPoints s = Qc_of_Z z → (0 ≤ z ≤ 100)%Z →
  rangesHolding totalPoints s = 1%nat.
Proof.
  intros Hp Hz. unfold rangesHolding, scoreRanges.
  rewrite !filter_cons, filter_nil.
  repeat case_decide; cbn [length];
    unfold inRange in *; cbn [min max] in *; rewrite Hp in *;
    repeat match goal with
      | H : _ ∧ _ |- _ => destruct H
      | H : (Qc_of_Z _ ≤ Qc_of_Z _)%Qc |- _ => apply Z2Qc_inj_le in H
      | H : ¬ (_ ∧ _) |- _ => rewrite <- !Z2Qc_inj_le in H
      end; lia.
Qed.

(** C9 fails on the code: a submission with 13 of 64 points has the
    percentage 20.3125, inside [0, 100], and is counted in none of the five
    ranges; the counts sum to 0 while there is one submission. *)
Theorem scoreDistribution_drops_between_ranges :
  percentage (Qc_of_Z 64) thirteenOfSixtyFour = Q2Qc (325 # 16) ∧
  (Qc_of_Z 0 ≤ percentage (Qc_of_Z 64) thirteenOfSixtyFour)%Qc ∧
  (percentage (Qc_of_Z 64) thirteenOfSixtyFour ≤ Qc_of_Z 100)%Qc ∧
  scoreDistribution (Qc_of_Z 64) [thirteenOfSixtyFour] =
    [ {| range := "0-20"; count := 0 |};
      {| range := "21-40"; count := 0 |};
      {| range := "41-60"; count := 0 |};
      {| range := "61-80"; count := 0 |};
      {| range := "81-100"; count := 0 |} ] ∧
  countedSubmissions (scoreDistribution (Qc_of_Z 64) [thirteenOfSixtyFour])
    = 0%nat ∧
  length [thirteenOfSixtyFour] = 1%nat.
Proof.
  split; [by apply Qc_is_canon; vm_compute|].
  split; [by vm_compute|]. split; [by vm_compute|].
  split; [by vm_compute|]. split; by vm_compute.
Qed.

End AnalyticsFacts.
